(** * The [step oauth] command: a model of [command/oauth/cmd.go]

    The command obtains OAuth 2.0 / OIDC tokens through one of four flows
    (loopback, manual, two-legged JWT-bearer, self-signed JWT).  This file
    embeds the Go source function by function:

    - Go values keep their shape: [string] for strings, [Z] for [int] with
      the 64-bit wrap-around written out, records for structs, [gmap] for
      Go maps ([url.Values] is [map[string][]string]; a decoded JSON object
      is [map[string]interface{}]).
    - A function returning [(T, error)] returns [result T]; a function
      returning [error] returns [option error] ([None] is [nil]).
    - Effects (HTTP requests, writes to the response, channel sends,
      printing) are recorded in a trace of [event]s carried by the writer
      monad [Go], which also records a run-time panic.
    - Everything the command calls outside this file (the Go standard
      library, the other packages of the repository) is a field of [Lib]
      (pure functions) or of [World] (what the outside answers). *)

From stdpp Require Import base option list strings gmap.
From Stdlib Require Import ZArith Lia Ascii.

#[local] Set Warnings "-register-all".
#[local] Open Scope string_scope.
#[local] Open Scope Z_scope.
#[local] Open Scope list_scope.

(** ** Go values *)

(** A Go [error] value is represented by its message. *)
Definition error : Type := string.

(** The pair [(T, error)] a Go function returns: a value, or an error. *)
Inductive result (A : Type) : Type :=
| OK (a : A)
| Error (e : error).
Arguments OK {A} a.
Arguments Error {A} e.

(** [github.com/pkg/errors]: [New], [Errorf] build an error from a message;
    [Wrap]/[Wrapf] prefix the message of the wrapped error and, as documented,
    return [nil] when the wrapped error is [nil]; [WithStack] keeps the
    message. *)
Definition errors_New (msg : string) : error := msg.

Definition errors_Wrap (err : error) (msg : string) : error :=
  msg +:+ ": " +:+ err.

Definition errors_Wrapf (err : option error) (msg : string) : option error :=
  match err with
  | None => None
  | Some e => Some (errors_Wrap e msg)
  end.

Definition errors_WithStack (err : error) : error := err.

(** [int] is 64 bits wide; arithmetic wraps around. *)
Definition wrap_int (z : Z) : Z := (z + 2 ^ 63) mod 2 ^ 64 - 2 ^ 63.

Definition int_add (a b : Z) : Z := wrap_int (a + b).

(** cmd.go:54-62 *)
Record token : Type := Token {
  AccessToken : string;
  IDToken : string;
  RefreshToken : string;
  ExpiresIn : Z;
  TokenType : string;
  Err : string;
  ErrDesc : string
}.

#[global] Instance token_eq_dec : EqDecision token.
Proof. solve_decision. Defined.

(** cmd.go:44-52 *)
Definition defaultClientID : string :=
  "1087160488420-8qt7bavg3qesdhs6it824mhnfgcfe8il.apps.googleusercontent.com".
Definition defaultClientNotSoSecret : string := "udTrOT3gzrO7W9fDPgZQLfYJ".
Definition oobCallbackUrn : string := "urn:ietf:wg:oauth:2.0:oob".
Definition jwtBearerUrn : string := "urn:ietf:params:oauth:grant-type:jwt-bearer".

(** ** [net/url.Values]: [map[string][]string] *)

Module Values.

(** [v.Get(key)]: the first value of the key, or the empty string. *)
Definition Get (v : gmap string (list string)) (key : string) : string :=
  match v !! key with
  | Some (x :: _) => x
  | _ => ""
  end.

(** [v.Add(key, value)]: [v[key] = append(v[key], value)]. *)
Definition Add (key value : string) (v : gmap string (list string))
  : gmap string (list string) :=
  <[key := default [] (v !! key) ++ [value]]> v.

(** [v.Set(key, value)]: [v[key] = []string{value}]. *)
Definition Set_ (key value : string) (v : gmap string (list string))
  : gmap string (list string) :=
  <[key := [value]]> v.

End Values.

(** ** [strconv.Atoi]

    [Atoi(s)] is [ParseInt(s, 10, 0)] with the result converted to [int].
    [ParseUint] reads the digits left to right; a byte that is not a decimal
    digit is a syntax error with value 0, and a value that leaves the range is
    a range error with the largest value, reported where the overflow happens.
    [ParseInt] strips one sign and, on a range error, returns the bound of the
    signed range on the side of the sign. *)
Module strconv.

Inductive NumError : Type := ErrSyntax | ErrRange.

Definition maxUint64 : Z := 2 ^ 64 - 1.

Definition is_digit (c : ascii) : bool :=
  let n := Z.of_N (N_of_ascii c) in (48 <=? n) && (n <=? 57).

Definition digit_val (c : ascii) : Z := Z.of_N (N_of_ascii c) - 48.

Fixpoint parseUint_digits (s : string) (n : Z) : Z * option NumError :=
  match s with
  | EmptyString => (n, None)
  | String c s' =>
      if is_digit c then
        if maxUint64 / 10 + 1 <=? n then (maxUint64, Some ErrRange)
        else
          let n1 := n * 10 + digit_val c in
          if maxUint64 <? n1 then (maxUint64, Some ErrRange)
          else parseUint_digits s' n1
      else (0, Some ErrSyntax)
  end.

Definition ParseUint (s : string) : Z * option NumError :=
  match s with
  | EmptyString => (0, Some ErrSyntax)
  | _ => parseUint_digits s 0
  end.

Definition ParseInt (s : string) : Z * option NumError :=
  match s with
  | EmptyString => (0, Some ErrSyntax)
  | String c s' =>
      let neg := bool_decide (c = "-"%char) in
      let body := if bool_decide (c = "+"%char) || neg then s' else s in
      match ParseUint body with
      | (_, Some ErrSyntax) => (0, Some ErrSyntax)
      | (un, _) =>
          let cutoff := 2 ^ 63 in
          if negb neg && (cutoff <=? un) then (cutoff - 1, Some ErrRange)
          else if neg && (cutoff <? un) then (- cutoff, Some ErrRange)
          else (if neg then - un else un, None)
      end
  end.

Definition Atoi (s : string) : Z * option NumError := ParseInt s.

(** The integer that a decimal numeral denotes: one or more decimal digits
    after an optional sign.  This is the reading against which [Atoi] is
    checked below. *)
Fixpoint digits_value (s : string) (acc : Z) : option Z :=
  match s with
  | EmptyString => Some acc
  | String c s' =>
      if is_digit c then digits_value s' (acc * 10 + digit_val c) else None
  end.

Definition unsigned_value (s : string) : option Z :=
  match s with
  | EmptyString => None
  | _ => digits_value s 0
  end.

Definition numeral_value (s : string) : option Z :=
  match s with
  | EmptyString => None
  | String c s' =>
      if bool_decide (c = "-"%char) then Z.opp <$> unsigned_value s'
      else if bool_decide (c = "+"%char) then unsigned_value s'
      else unsigned_value s
  end.

End strconv.

(** ** Decoded JSON: the [interface{}] values of [encoding/json] *)

Inductive json : Type :=
| JNull
| JBool (b : bool)
| JNumber (literal : string)
| JString (s : string)
| JArray (l : list json)
| JObject (m : gmap string json).

(** ** The trace of effects and the monad [Go] *)

Inductive event : Type :=
| Ev_ReadFile (filename : string)                      (* ioutil.ReadFile *)
| Ev_HttpGet (url : string)                            (* http.Get *)
| Ev_PostForm (url : string) (data : gmap string (list string)) (* http.PostForm *)
| Ev_Stdout (line : string)                            (* fmt.Println *)
| Ev_Stderr (line : string)                            (* fmt.Fprint(os.Stderr, ..) *)
| Ev_OpenInBrowser (url browser : string)              (* exec.OpenInBrowser *)
| Ev_ReadStdin                                         (* utils.ReadString(os.Stdin) *)
| Ev_ServerStart (addr : string)                       (* the server listens on addr *)
| Ev_ServerClose (addr : string)                       (* srv.Close() closes the listener *)
| Ev_After (d : Z)                                     (* time.After(d) *)
| Ev_HeaderSet (key value : string)                    (* w.Header().Set/Add *)
| Ev_WriteHeader (code : Z)                            (* w.WriteHeader *)
| Ev_Write (data : string)                             (* w.Write *)
| Ev_SendErr (e : error)                               (* o.errCh <- e *)
| Ev_SendTok (t : token).                              (* o.tokCh <- t *)

(** How a computation ends: with a value, in a run-time panic, or not at
    all, blocked for ever in a channel operation or in a wait for one. *)
Inductive outcome (A : Type) : Type :=
| Done (a : A)
| Panicked (v : string)
| Blocked.
Arguments Done {A} a.
Arguments Panicked {A} v.
Arguments Blocked {A}.

Definition Go (A : Type) : Type := list event * outcome A.

Definition ret {A} (a : A) : Go A := ([], Done a).

Definition bind {A B} (m : Go A) (k : A → Go B) : Go B :=
  match m with
  | (tr, Done a) => let '(tr', r) := k a in (tr ++ tr', r)
  | (tr, Panicked v) => (tr, Panicked v)
  | (tr, Blocked) => (tr, Blocked)
  end.

Definition emit (e : event) : Go unit := ([e], Done tt).

Definition panic {A} (v : string) : Go A := ([], Panicked v).

(** [defer f()]: [f] runs when the body is left, by return or by panic,
    and the function is left when [f] has returned.  A body that never ends
    never runs [f]; an [f] that never returns keeps the function from
    returning. *)
Definition defer {A} (deferred : Go unit) (body : Go A) : Go A :=
  match body with
  | (tr, Blocked) => (tr, Blocked)
  | (tr, r) =>
      match deferred with
      | (tr', Done _) => (tr ++ tr', r)
      | (tr', Panicked v) => (tr ++ tr', Panicked v)
      | (tr', Blocked) => (tr ++ tr', Blocked)
      end
  end.

Definition trace {A} (m : Go A) : list event := m.1.
Definition value {A} (m : Go A) : outcome A := m.2.

Declare Scope go_scope.
Delimit Scope go_scope with go.
Notation "x <- m ;; k" := (bind m (fun x => k))
  (at level 100, m at next level, right associativity) : go_scope.
Notation "m ;; k" := (bind m (fun _ => k))
  (at level 100, right associativity) : go_scope.
#[local] Open Scope go_scope.

(** The status line of a response is fixed by the first [WriteHeader]. *)
Fixpoint response_status (tr : list event) : option Z :=
  match tr with
  | [] => None
  | Ev_WriteHeader code :: _ => Some code
  | _ :: tr' => response_status tr'
  end.

(** The values sent on the error channel and on the token channel. *)
Fixpoint errors_sent (tr : list event) : list error :=
  match tr with
  | [] => []
  | Ev_SendErr e :: tr' => e :: errors_sent tr'
  | _ :: tr' => errors_sent tr'
  end.

Fixpoint tokens_sent (tr : list event) : list token :=
  match tr with
  | [] => []
  | Ev_SendTok t :: tr' => t :: tokens_sent tr'
  | _ :: tr' => tokens_sent tr'
  end.

(** The token-endpoint requests made. *)
Fixpoint posts_made (tr : list event) : list (string * gmap string (list string)) :=
  match tr with
  | [] => []
  | Ev_PostForm url data :: tr' => (url, data) :: posts_made tr'
  | _ :: tr' => posts_made tr'
  end.

(** The first value offered on either channel. *)
Fixpoint first_send (tr : list event) : option (result token) :=
  match tr with
  | [] => None
  | Ev_SendTok t :: _ => Some (OK t)
  | Ev_SendErr e :: _ => Some (Error e)
  | _ :: tr' => first_send tr'
  end.

(** What a run does before it comes to its first send. *)
Fixpoint before_send (tr : list event) : list event :=
  match tr with
  | [] => []
  | Ev_SendTok _ :: _ => []
  | Ev_SendErr _ :: _ => []
  | ev :: tr' => ev :: before_send tr'
  end.

(** ** Structures of the command *)

(** cmd.go:387-397 *)
Record options : Type := Options {
  opts_Provider : string;
  opts_Email : string;
  opts_Console : bool;
  opts_Implicit : bool;
  opts_CallbackListener : string;
  opts_CallbackListenerURL : string;
  opts_CallbackPath : string;
  opts_TerminalRedirect : string;
  opts_Browser : string
}.

(** cmd.go:421-443; the two channels [errCh] and [tokCh] are the targets of
    [Ev_SendErr] and [Ev_SendTok]. *)
Record oauth : Type := Oauth {
  provider : string;
  clientID : string;
  clientSecret : string;
  scope : string;
  prompt : string;
  loginHint : string;
  redirectURI : string;
  tokenEndpoint : string;
  authzEndpoint : string;
  userInfoEndpoint : string;
  state : string;
  codeChallenge : string;
  nonce : string;
  implicit : bool;
  CallbackListener : string;
  CallbackListenerURL : string;
  CallbackPath : string;
  terminalRedirect : string;
  browser : string
}.

(** [o.CallbackPath = p] *)
Definition set_CallbackPath (p : string) (o : options) : options :=
  Options (opts_Provider o) (opts_Email o) (opts_Console o) (opts_Implicit o)
    (opts_CallbackListener o) (opts_CallbackListenerURL o) p
    (opts_TerminalRedirect o) (opts_Browser o).

(** [o.Provider = p] *)
Definition set_Provider (p : string) (o : options) : options :=
  Options p (opts_Email o) (opts_Console o) (opts_Implicit o)
    (opts_CallbackListener o) (opts_CallbackListenerURL o) (opts_CallbackPath o)
    (opts_TerminalRedirect o) (opts_Browser o).

(** [o.redirectURI = uri] *)
Definition set_redirectURI (uri : string) (o : oauth) : oauth :=
  Oauth (provider o) (clientID o) (clientSecret o) (scope o) (prompt o)
    (loginHint o) uri (tokenEndpoint o) (authzEndpoint o) (userInfoEndpoint o)
    (state o) (codeChallenge o) (nonce o) (implicit o) (CallbackListener o)
    (CallbackListenerURL o) (CallbackPath o) (terminalRedirect o) (browser o).

(** [net/url.URL], the fields the command reads or writes. *)
Record URL : Type := Url {
  Scheme : string;
  Host : string;
  Path : string;
  RawQuery : string;
  Fragment : string
}.

Definition set_Path (p : string) (u : URL) : URL :=
  Url (Scheme u) (Host u) p (RawQuery u) (Fragment u).

Definition set_RawQuery (q : string) (u : URL) : URL :=
  Url (Scheme u) (Host u) (Path u) q (Fragment u).

(** An inbound [*http.Request]: [req.URL.Path], [req.URL.Query()],
    [req.RemoteAddr] and [req.URL.String()]. *)
Record Request : Type := Req {
  req_Path : string;
  req_Query : gmap string (list string);
  req_RemoteAddr : string;
  req_URL : string
}.

(** [*cli.Context]: the flags of the command line, by name. *)
Record Context : Type := Ctx {
  c_String : string → string;
  c_Bool : string → bool;
  c_IsSet : string → bool;
  c_StringSlice : string → list string
}.

(** [jose.SigningKey], [jose.SignerOptions] and the signer built from them. *)
Record SigningKey : Type := { Algorithm : string; Key : string }.

Record SignerOptions : Type := { ExtraHeaders : gmap string string }.

Definition WithHeader (k v : string) (so : SignerOptions) : SignerOptions :=
  {| ExtraHeaders := <[k := v]> (ExtraHeaders so) |}.

Definition WithType (typ : string) (so : SignerOptions) : SignerOptions :=
  WithHeader "typ" typ so.

Record Signer : Type := { signer_key : SigningKey; signer_opts : SignerOptions }.

(** The values of a claim set [map[string]interface{}] built by the command. *)
Inductive claim : Type :=
| ClaimString (s : string)
| ClaimInt (n : Z).

(** [*httptest.Server]: the address it listens on and its advertised URL. *)
Record Server : Type := { srv_Addr : string; srv_URL : string }.

(** ** The libraries and the outside world *)

(** Pure functions of the Go standard library and of the other packages of
    the repository. *)
Record Lib : Type := {
  url_Parse : string → result URL;                       (* url.Parse *)
  url_String : URL → string;                             (* u.String() *)
  url_Query : URL → gmap string (list string);           (* u.Query() *)
  Values_Encode : gmap string (list string) → string;    (* q.Encode() *)
  net_SplitHostPort : string → result (string * string);
  net_JoinHostPort : string → string → string;
  path_Join : string → string → string;
  sha256_Sum256 : string → string;
  base64_RawURLEncoding : string → string;   (* RawURLEncoding.EncodeToString *)
  pem_Decode : string → option string;       (* the bytes of the first block *)
  x509_ParsePKCS8PrivateKey : string → result string;
  jose_NewSigner : SigningKey → SignerOptions → option error;
  jose_CompactSerialize : Signer → gmap string claim → result string;
  json_Unmarshal : string → result (gmap string json);   (* into a map *)
  json_Decode_token : string → result token;             (* into a token *)
  json_MarshalIndent : token → result string;
  errs_RequiredInsecureFlag : Context → string → error;
  errs_RequiredWithFlag : Context → string → string → error
}.

(** What the outside answers.  A response body is the outcome of reading it
    to its end.  [callbacks] are the requests that reach the callback server
    before its listener is closed, in order, each with the time (nanoseconds
    after the wait began) at which its handler has run. *)
Record World : Type := {
  randutil_Alphanumeric : nat → result string;
  randutil_Hex : nat → result string;
  ioutil_ReadFile : string → result string;
  http_Get : string → result (result string);
  http_PostForm : string → gmap string (list string) → result (result string);
  time_Now_Unix : Z;
  exec_OpenInBrowser : string → string → option error;
  utils_ReadString : result string;
  httptest_NewServer : option string;
  net_Listen : string → result string;
  callbacks : list (Z * Request)
}.

(** [strings.Contains] *)
Fixpoint strings_Contains (s substr : string) : bool :=
  String.prefix substr s ||
  match s with
  | EmptyString => false
  | String _ s' => strings_Contains s' substr
  end.

(** [strings.HasPrefix] *)
Definition strings_HasPrefix (s pre : string) : bool := String.prefix pre s.

(** [strings.Join] *)
Definition strings_Join (l : list string) (sep : string) : string :=
  String.concat sep l.

(** A type assertion [v.(string)] or [v.(map[string]interface{})] on the
    value of a map lookup ([None] is the [nil] of a missing key): it panics
    unless the value has that dynamic type. *)
Definition assert_string (v : option json) : Go string :=
  match v with
  | Some (JString s) => ret s
  | _ => panic "interface conversion: interface {} is not string"
  end.

Definition assert_map (v : option json) : Go (gmap string json) :=
  match v with
  | Some (JObject m) => ret m
  | _ => panic "interface conversion: interface {} is not map[string]interface {}"
  end.

(** [v == s] for an interface value [v] and a string constant [s]: true
    when [v] holds a string equal to [s]. *)
Definition iface_eq_string (v : json) (s : string) : bool :=
  match v with
  | JString s' => bool_decide (s' = s)
  | _ => false
  end.

(** The string under a key of a decoded JSON object, if there is one. *)
Definition string_field (m : gmap string json) (k : string) : option string :=
  match m !! k with
  | Some (JString s) => Some s
  | _ => None
  end.

(** The double quote character, for the pages the handlers write. *)
Definition dq : string := String (ascii_of_nat 34) EmptyString.

(** [time.Minute], in nanoseconds. *)
Definition time_Minute : Z := 60 * 1000000000.

(** The line feed that [Println] and [Fprintln] append. *)
Definition nl : string := String (ascii_of_nat 10) EmptyString.

(** [fmt.Println(a, b)] separates its operands by a space. *)
Definition Println (s : string) : Go unit := emit (Ev_Stdout (s +:+ nl)).

(** [fmt.Fprintln(os.Stderr, s)] *)
Definition Fprintln_stderr (s : string) : Go unit := emit (Ev_Stderr (s +:+ nl)).

(** [net/http]: [http.Error] sets two headers, writes the status and the
    message; [http.NotFound] is [http.Error] with status 404; [http.Redirect]
    sets [Location] and writes the status. *)
Definition http_Error (msg : string) (code : Z) : Go unit :=
  emit (Ev_HeaderSet "Content-Type" "text/plain; charset=utf-8");;
  emit (Ev_HeaderSet "X-Content-Type-Options" "nosniff");;
  emit (Ev_WriteHeader code);;
  emit (Ev_Write (msg +:+ nl)).

Definition http_NotFound : Go unit := http_Error "404 page not found" 404.

Definition http_Redirect (url : string) (code : Z) : Go unit :=
  emit (Ev_HeaderSet "Location" url);;
  emit (Ev_WriteHeader code).

(** The paragraph style shared by the pages of cmd.go:872, 937 and 946. *)
Definition page_style : string :=
  "<p style='font-family: -apple-system, BlinkMacSystemFont, " +:+ dq +:+
  "Segoe UI" +:+ dq +:+ ", Helvetica, Arial, sans-serif, " +:+ dq +:+
  "Apple Color Emoji" +:+ dq +:+ ", " +:+ dq +:+ "Segoe UI Emoji" +:+ dq +:+
  ", " +:+ dq +:+ "Segoe UI Symbol" +:+ dq +:+
  "; font-size: 22px; color: #333; width: 400px; margin: 0 auto; text-align: center; line-height: 1.7; padding: 20px;'>".

(** ** The flow session and the callback handler *)

Section Flow.

Variable L : Lib.
Variable W : World.

(** cmd.go:933-940 *)
Definition success : Go unit :=
  emit (Ev_WriteHeader 200);;
  emit (Ev_HeaderSet "Content-Type" "text/plain; charset=utf-8");;
  emit (Ev_Write "<html><head><title>OAuth Request Successful</title>");;
  emit (Ev_Write ("</head><body>" +:+ page_style));;
  emit (Ev_Write "<strong style='font-size: 28px; color: #000;'>Success</strong><br />Look for the token on the command line");;
  emit (Ev_Write "</p></body></html>").

(** cmd.go:942-951 *)
Definition badRequest (msg : string) : Go unit :=
  emit (Ev_WriteHeader 400);;
  emit (Ev_HeaderSet "Content-Type" "text/plain; charset=utf-8");;
  emit (Ev_Write "<html><head><title>OAuth Request Unsuccessful</title>");;
  emit (Ev_Write ("</head><body>" +:+ page_style));;
  emit (Ev_Write "<strong style='font-size: 28px; color: red;'>Failure</strong><br />");;
  emit (Ev_Write msg);;
  emit (Ev_Write "</p></body></html>");;
  emit (Ev_SendErr (errors_New msg)).

(** cmd.go:886-904: the parameters [Auth] adds to the query [q] of the
    authorization endpoint. *)
Definition Auth_query (o : oauth) (q : gmap string (list string))
  : gmap string (list string) :=
  let q := Values.Add "client_id" (clientID o) q in
  let q := Values.Add "redirect_uri" (redirectURI o) q in
  let q :=
    if implicit o then Values.Add "response_type" "id_token token" q
    else
      let q := Values.Add "response_type" "code" q in
      let q := Values.Add "code_challenge_method" "S256" q in
      let s256 := sha256_Sum256 L (codeChallenge o) in
      Values.Add "code_challenge" (base64_RawURLEncoding L s256) q in
  let q := Values.Add "scope" (scope o) q in
  let q := if bool_decide (prompt o ≠ "") then Values.Add "prompt" (prompt o) q else q in
  let q := Values.Add "state" (state o) q in
  let q := Values.Add "nonce" (nonce o) q in
  if bool_decide (loginHint o ≠ "") then Values.Add "login_hint" (loginHint o) q else q.

(** cmd.go:878-907 *)
Definition Auth (o : oauth) : result string :=
  match url_Parse L (authzEndpoint o) with
  | Error err => Error (errors_WithStack err)
  | OK u =>
      let q := Auth_query o (url_Query L u) in
      OK (url_String L (set_RawQuery (Values_Encode L q) u))
  end.

(** cmd.go:911-917: the form [Exchange] posts. *)
Definition Exchange_data (o : oauth) (code : string) : gmap string (list string) :=
  let data := Values.Set_ "code" code ∅ in
  let data := Values.Set_ "client_id" (clientID o) data in
  let data := Values.Set_ "client_secret" (clientSecret o) data in
  let data := Values.Set_ "redirect_uri" (redirectURI o) data in
  let data := Values.Set_ "grant_type" "authorization_code" data in
  Values.Set_ "code_verifier" (codeChallenge o) data.

(** [json.NewDecoder(resp.Body).Decode(&tok)] *)
Definition decode_token (body : result string) : result token :=
  match body with
  | Error err => Error err
  | OK b => json_Decode_token L b
  end.

(** cmd.go:909-931 *)
Definition Exchange (o : oauth) (tokenEndpoint code : string) : Go (result token) :=
  let data := Exchange_data o code in
  emit (Ev_PostForm tokenEndpoint data);;
  match http_PostForm W tokenEndpoint data with
  | Error err => ret (Error (errors_WithStack err))
  | OK body =>
      match decode_token body with
      | Error err => ret (Error (errors_WithStack err))
      | OK tok => ret (OK tok)
      end
  end.

(** cmd.go:833-876 *)
Definition implicitHandler (o : oauth) (req : Request) : Go unit :=
  let q := req_Query req in
  if bool_decide (Values.Get q "urlhash" = "true") then
    let state_ := Values.Get q "state" in
    if bool_decide (state_ = "") || bool_decide (state_ ≠ state o) then
      badRequest "Failed to authenticate: missing or invalid state"
    else
      let accessToken := Values.Get q "access_token" in
      if bool_decide (accessToken = "") then
        badRequest "Failed to authenticate: missing access token"
      else
        (if bool_decide (terminalRedirect o ≠ "")
         then http_Redirect (terminalRedirect o) 302
         else success);;
        let expiresIn := (strconv.Atoi (Values.Get q "expires_in")).1 in
        emit (Ev_SendTok {|
          AccessToken := accessToken;
          IDToken := Values.Get q "id_token";
          RefreshToken := Values.Get q "refresh_token";
          ExpiresIn := expiresIn;
          TokenType := Values.Get q "token_type";
          Err := "";
          ErrDesc := "" |})
  else
    emit (Ev_WriteHeader 200);;
    emit (Ev_HeaderSet "Content-Type" "text/html; charset=utf-8");;
    emit (Ev_Write "<html><head><title>Processing OAuth Request</title>");;
    emit (Ev_Write "</head>");;
    emit (Ev_Write ("<script type=" +:+ dq +:+ "text/javascript" +:+ dq +:+ ">"));;
    emit (Ev_Write ("function redirect(){var hash = window.location.hash.substr(1); document.location.href = "
                    +:+ dq +:+ redirectURI o +:+ "?urlhash=true&" +:+ dq +:+ "+hash;}"));;
    emit (Ev_Write ("if (window.addEventListener) window.addEventListener(" +:+ dq +:+ "load" +:+ dq
                    +:+ ", redirect, false); else if (window.attachEvent) window.attachEvent("
                    +:+ dq +:+ "onload" +:+ dq +:+ ", redirect); else window.onload = redirect;"));;
    emit (Ev_Write "</script>");;
    emit (Ev_Write ("<body>" +:+ page_style));;
    emit (Ev_Write "<strong style='font-size: 28px; color: #000;'>Success</strong><br />");;
    emit (Ev_Write ("Click <a href=" +:+ dq +:+ "javascript:redirect();" +:+ dq
                    +:+ ">here</a> if your browser does not automatically redirect you"));;
    emit (Ev_Write "</p></body></html>").

(** cmd.go:777-831 *)
Definition ServeHTTP (o : oauth) (req : Request) : Go unit :=
  if bool_decide (req_Path req ≠ CallbackPath o) then http_NotFound
  else
    let q := req_Query req in
    let errStr := Values.Get q "error" in
    if bool_decide (errStr ≠ "") then
      badRequest ("Failed to authenticate: " +:+ errStr)
    else if implicit o then implicitHandler o req
    else
      let code := Values.Get q "code" in
      let state_ := Values.Get q "state" in
      if bool_decide (code = "") || bool_decide (state_ = "") then
        emit (Ev_Stderr ("Invalid request received: http://" +:+ req_RemoteAddr req
                         +:+ req_URL req +:+ nl));;
        emit (Ev_Stderr ("You may have an app or browser plugin that needs to be turned off" +:+ nl));;
        http_Error "400 bad request" 400
      else if bool_decide (code = "") then
        badRequest "Failed to authenticate: missing or invalid code"
      else if bool_decide (state_ = "") || bool_decide (state_ ≠ state o) then
        badRequest "Failed to authenticate: missing or invalid state"
      else
        r <- Exchange o (tokenEndpoint o) code;;
        match r with
        | Error err =>
            badRequest ("Failed exchanging authorization code: " +:+ err)
        | OK tok =>
            if bool_decide (Err tok ≠ "") || bool_decide (ErrDesc tok ≠ "") then
              badRequest ("Failed exchanging authorization code: " +:+ Err tok
                          +:+ ". " +:+ ErrDesc tok)
            else
              (if bool_decide (terminalRedirect o ≠ "")
               then http_Redirect (terminalRedirect o) 302
               else success);;
              emit (Ev_SendTok tok)
        end.

(** ** The callback server and the four flows *)

(** cmd.go:555-587.  The server is identified by the address it listens
    on; [httptest.NewServer] panics when it cannot listen. *)
Definition NewServer (o : oauth) : Go (result Server) :=
  if bool_decide (CallbackListener o = "") then
    match httptest_NewServer W with
    | None => panic "httptest: failed to listen on a port"
    | Some addr =>
        emit (Ev_ServerStart addr);;
        ret (OK {| srv_Addr := addr; srv_URL := "http://" +:+ addr |})
    end
  else
    match net_SplitHostPort L (CallbackListener o) with
    | Error err => ret (Error err)
    | OK (host, port) =>
        let host := if bool_decide (host = "") then "127.0.0.1" else host in
        match net_Listen W (net_JoinHostPort L host port) with
        | Error err =>
            ret (Error (errors_Wrap err ("error listening on " +:+ CallbackListener o)))
        | OK addr =>
            emit (Ev_ServerStart addr);;
            if bool_decide (host ≠ "127.0.0.1") then
              match net_SplitHostPort L addr with
              | Error err => ret (Error (errors_Wrap err ("error parsing " +:+ addr)))
              | OK (_, p) =>
                  ret (OK {| srv_Addr := addr; srv_URL := "http://" +:+ host +:+ ":" +:+ p |})
              end
            else ret (OK {| srv_Addr := addr; srv_URL := "http://" +:+ addr |})
        end
    end.

Definition timeout_error : error :=
  errors_New "oauth command timed out, please try again".

(** cmd.go:626-633, the [select] over the two channels and the timer of
    duration [d].  The requests are served in order; a handler that sends
    on a channel is received from, which ends the wait; a handler that
    sends nothing leaves the wait as it was; a request whose handler runs
    at or after [d] finds that the timer has fired. *)
Fixpoint await (o : oauth) (d : Z) (reqs : list (Z * Request)) : Go (result token) :=
  match reqs with
  | [] => ret (Error timeout_error)
  | (t, req) :: reqs' =>
      if d <=? t then ret (Error timeout_error)
      else
        let h := ServeHTTP o req in
        match first_send (trace h) with
        | Some r => (trace h, Done r)
        | None => let rest := await o d reqs' in (trace h ++ trace rest, value rest)
        end
  end.

(** The requests that have reached the server and are not yet served when
    the wait of [await] ends: those from the one that finds the timer fired,
    or those after the one whose send was received. *)
Fixpoint outstanding (o : oauth) (d : Z) (reqs : list (Z * Request)) : list (Z * Request) :=
  match reqs with
  | [] => []
  | (t, req) :: reqs' =>
      if d <=? t then reqs
      else
        match first_send (trace (ServeHTTP o req)) with
        | Some _ => reqs'
        | None => outstanding o d reqs'
        end
  end.

(** The handlers of the requests that are outstanding once the [select] of
    cmd.go:626-633 is left.  Nothing receives from [errCh] and [tokCh] any
    more, and both are unbuffered (cmd.go:482-483, 522-523): a handler that
    comes to a send (cmd.go:830, 854, 950) stays blocked in it. *)
Fixpoint serve_outstanding (o : oauth) (reqs : list (Z * Request)) : Go unit :=
  match reqs with
  | [] => ret tt
  | (_, req) :: reqs' =>
      let h := ServeHTTP o req in
      let rest := serve_outstanding o reqs' in
      match first_send (trace h) with
      | None => (trace h ++ trace rest, value rest)
      | Some _ => (before_send (trace h) ++ trace rest, Blocked)
      end
  end.

(** [srv.Close()] of [httptest.Server]: it closes the listener and then
    blocks until all outstanding requests on the server have completed. *)
Definition Server_Close (o : oauth) (srv : Server) (reqs : list (Z * Request)) : Go unit :=
  emit (Ev_ServerClose (srv_Addr srv));;
  serve_outstanding o reqs.

(** cmd.go:589-634.  The deferred [srv.Close()] finds outstanding the
    requests that the body has left unserved: all of them when the body
    returns before the wait, those that the wait has left otherwise. *)
Definition DoLoopbackAuthorization (o : oauth) : Go (result token) :=
  r <- NewServer o;;
  match r with
  | Error err => ret (Error err)
  | OK srv =>
      let o :=
        if bool_decide (CallbackListenerURL o ≠ "")
        then set_redirectURI (CallbackListenerURL o) o
        else set_redirectURI (srv_URL srv) o in
      defer (Server_Close o srv
               match Auth o with
               | Error _ => callbacks W
               | OK _ => outstanding o (2 * time_Minute) (callbacks W)
               end)
        match Auth o with
        | Error err => ret (Error err)
        | OK authURL =>
            emit (Ev_OpenInBrowser authURL (browser o));;
            match exec_OpenInBrowser W authURL (browser o) with
            | Some _ =>
                Fprintln_stderr "Cannot open a web browser on your platform.";;
                Fprintln_stderr "";;
                Fprintln_stderr "Open a local web browser and visit:";;
                Fprintln_stderr "";;
                Fprintln_stderr authURL;;
                Fprintln_stderr ""
            | None =>
                Fprintln_stderr "Your default web browser has been opened to visit:";;
                Fprintln_stderr "";;
                Fprintln_stderr authURL;;
                Fprintln_stderr ""
            end;;
            emit (Ev_After (2 * time_Minute));;
            await o (2 * time_Minute) (callbacks W)
        end
  end.

(** cmd.go:636-666 *)
Definition DoManualAuthorization (o : oauth) : Go (result token) :=
  let o := set_redirectURI oobCallbackUrn o in
  match Auth o with
  | Error err => ret (Error err)
  | OK authURL =>
      Fprintln_stderr "Open a local web browser and visit:";;
      Fprintln_stderr "";;
      Fprintln_stderr authURL;;
      Fprintln_stderr "";;
      emit (Ev_Stderr "Enter verification code: ");;
      emit Ev_ReadStdin;;
      match utils_ReadString W with
      | Error err => ret (Error (errors_WithStack err))
      | OK code =>
          r <- Exchange o (tokenEndpoint o) code;;
          match r with
          | Error err => ret (Error err)
          | OK tok =>
              if bool_decide (Err tok ≠ "") || bool_decide (ErrDesc tok ≠ "") then
                ret (Error ("Error exchanging authorization code: " +:+ Err tok
                            +:+ ". " +:+ ErrDesc tok))
              else ret (OK tok)
          end
      end
  end.

(** cmd.go:692-694 and 755-757 *)
Definition signer_options (o : oauth) : SignerOptions :=
  WithHeader "kid" (clientID o) (WithType "JWT" {| ExtraHeaders := ∅ |}).

(** cmd.go:682-690 *)
Definition two_legged_claims (o : oauth) (issuer : string) (now : Z)
  : gmap string claim :=
  <["aud" := ClaimString (tokenEndpoint o)]>
  (<["nbf" := ClaimInt now]>
  (<["iat" := ClaimInt now]>
  (<["exp" := ClaimInt (int_add now 3600)]>
  (<["iss" := ClaimString issuer]>
  (<["scope" := ClaimString (scope o)]> ∅))))).

(** cmd.go:711-714 *)
Definition two_legged_params (raw : string) : gmap string (list string) :=
  <["assertion" := [raw]]> (<["grant_type" := [jwtBearerUrn]]> ∅).

(** cmd.go:671-708 and 734-771: decode the key, build the signer and
    serialize the signed claim set [c]. *)
Definition sign_claims (o : oauth) (c : gmap string claim) : result string :=
  match pem_Decode L (clientSecret o) with
  | None => Error "failed to read private key pem block"
  | Some block_Bytes =>
      match x509_ParsePKCS8PrivateKey L block_Bytes with
      | Error err => Error (errors_Wrap err "error parsing private key")
      | OK priv =>
          let so := signer_options o in
          let key := {| Algorithm := "RS256"; Key := priv |} in
          match jose_NewSigner L key so with
          | Some err => Error (errors_Wrap err "error creating JWT signer")
          | None =>
              match jose_CompactSerialize L {| signer_key := key; signer_opts := so |} c with
              | Error err => Error (errors_Wrap err "error serializing JWT")
              | OK raw => OK raw
              end
          end
      end
  end.

(** cmd.go:668-729 *)
Definition DoTwoLeggedAuthorization (o : oauth) (issuer : string) : Go (result token) :=
  let now := wrap_int (time_Now_Unix W) in
  match sign_claims o (two_legged_claims o issuer now) with
  | Error err => ret (Error err)
  | OK raw =>
      let params := two_legged_params raw in
      emit (Ev_PostForm (tokenEndpoint o) params);;
      match http_PostForm W (tokenEndpoint o) params with
      | Error err => ret (Error (errors_Wrap err "error from token endpoint"))
      | OK body =>
          match decode_token body with
          | Error err => ret (Error (errors_WithStack err))
          | OK tok => ret (OK tok)
          end
      end
  end.

(** cmd.go:744-753 *)
Definition jwt_claims (issuer aud : string) (now : Z) : gmap string claim :=
  <["aud" := ClaimString aud]>
  (<["nbf" := ClaimInt now]>
  (<["iat" := ClaimInt now]>
  (<["exp" := ClaimInt (int_add now 3600)]>
  (<["iss" := ClaimString issuer]>
  (<["sub" := ClaimString issuer]> ∅))))).

(** cmd.go:731-775 *)
Definition DoJWTAuthorization (o : oauth) (issuer aud : string) : Go (result token) :=
  let now := wrap_int (time_Now_Unix W) in
  match sign_claims o (jwt_claims issuer aud now) with
  | Error err => ret (Error err)
  | OK raw => ret (OK (Token raw "" "" 3600 "Bearer" "" ""))
  end.

(** ** Configuration *)

(** cmd.go:399-419.  [Validate] may change [o.CallbackPath]; it returns
    the options with its error. *)
Definition Validate (o : options) : options * option error :=
  if bool_decide (opts_Provider o ≠ "google")
     && negb (strings_HasPrefix (opts_Provider o) "https://")
  then (o, Some (errors_New "use a valid provider: google"))
  else
    let listen_err :=
      if bool_decide (opts_CallbackListener o ≠ "") then
        match net_SplitHostPort L (opts_CallbackListener o) with
        | Error err =>
            errors_Wrapf (Some err)
              ("invalid value '" +:+ opts_CallbackListener o +:+ "' for flag '--listen'")
        | OK _ => None
        end
      else None in
    match listen_err with
    | Some e => (o, Some e)
    | None =>
        if bool_decide (opts_CallbackListenerURL o ≠ "") then
          let msg := "invalid value '" +:+ opts_CallbackListenerURL o
                     +:+ "' for flag '--listen-url'" in
          match url_Parse L (opts_CallbackListenerURL o) with
          | Error err => (o, errors_Wrapf (Some err) msg)
          | OK u =>
              if bool_decide (Scheme u = "") then (o, errors_Wrapf None msg)
              else if bool_decide (Path u ≠ "") then (set_CallbackPath (Path u) o, None)
              else (o, None)
          end
        else (o, None)
    end.

(** cmd.go:528-553 *)
Definition disco (provider_ : string) : Go (result (gmap string json)) :=
  match url_Parse L provider_ with
  | Error err => ret (Error err)
  | OK u =>
      let u :=
        if negb (strings_Contains (Path u) "/.well-known/openid-configuration")
        then set_Path (path_Join L (Path u) "/.well-known/openid-configuration") u
        else u in
      emit (Ev_HttpGet (url_String L u));;
      match http_Get W (url_String L u) with
      | Error err =>
          ret (Error (errors_Wrap err ("error retrieving " +:+ url_String L u)))
      | OK (Error err) =>
          ret (Error (errors_Wrap err ("error retrieving " +:+ url_String L u)))
      | OK (OK b) =>
          match json_Unmarshal L b with
          | Error err =>
              ret (Error (errors_Wrap err ("error reading " +:+ url_String L u
                                           +:+ ": unsupported format")))
          | OK details => ret (OK details)
          end
      end
  end.

(** cmd.go:463-484 and 503-524: the session built from the arguments of
    [newOauth], the resolved endpoints and the generated values. *)
Definition make_oauth (provider_ clientID_ clientSecret_ authzEp tokenEp userinfoEp
                       scope_ prompt_ state_ challenge nonce_ : string)
                      (opts : options) : oauth :=
  {| provider := provider_;
     clientID := clientID_;
     clientSecret := clientSecret_;
     scope := scope_;
     prompt := prompt_;
     loginHint := opts_Email opts;
     redirectURI := "";
     tokenEndpoint := tokenEp;
     authzEndpoint := authzEp;
     userInfoEndpoint := userinfoEp;
     state := state_;
     codeChallenge := challenge;
     nonce := nonce_;
     implicit := opts_Implicit opts;
     CallbackListener := opts_CallbackListener opts;
     CallbackListenerURL := opts_CallbackListenerURL opts;
     CallbackPath := opts_CallbackPath opts;
     terminalRedirect := opts_TerminalRedirect opts;
     browser := opts_Browser opts |}.

(** cmd.go:445-526 *)
Definition newOauth (provider_ clientID_ clientSecret_ authzEp tokenEp scope_ prompt_ : string)
                    (opts : options) : Go (result oauth) :=
  match randutil_Alphanumeric W 32 with
  | Error err => ret (Error err)
  | OK state_ =>
  match randutil_Alphanumeric W 64 with
  | Error err => ret (Error err)
  | OK challenge =>
  match randutil_Hex W 64 with
  | Error err => ret (Error err)
  | OK nonce_ =>
      if bool_decide (provider_ = "google") then
        ret (OK (make_oauth provider_ clientID_ clientSecret_
                   "https://accounts.google.com/o/oauth2/v2/auth"
                   "https://www.googleapis.com/oauth2/v4/token"
                   "https://www.googleapis.com/oauth2/v3/userinfo"
                   scope_ prompt_ state_ challenge nonce_ opts))
      else if bool_decide (authzEp = "") && bool_decide (tokenEp = "") then
        r <- disco provider_;;
        match r with
        | Error err => ret (Error err)
        | OK d =>
            match d !! "authorization_endpoint" with
            | None =>
                ret (Error (errors_New "missing 'authorization_endpoint' in provider metadata"))
            | Some _ =>
            match d !! "token_endpoint" with
            | None =>
                ret (Error (errors_New "missing 'token_endpoint' in provider metadata"))
            | Some _ =>
                authzEp <- assert_string (d !! "authorization_endpoint");;
                tokenEp <- assert_string (d !! "token_endpoint");;
                userinfoEp <- assert_string (d !! "token_endpoint");;
                ret (OK (make_oauth provider_ clientID_ clientSecret_
                           authzEp tokenEp userinfoEp
                           scope_ prompt_ state_ challenge nonce_ opts))
            end
            end
        end
      else
        ret (OK (make_oauth provider_ clientID_ clientSecret_ authzEp tokenEp ""
                   scope_ prompt_ state_ challenge nonce_ opts))
  end
  end
  end.

(** ** The command *)

(** A stage of [oauthCmd] either returns from the command (with its
    error, [None] being [nil]) or goes on with its results. *)
Inductive stage (A : Type) : Type :=
| Return (e : option error)
| Continue (a : A).
Arguments Return {A} e.
Arguments Continue {A} a.

(** The local variables of [oauthCmd] that the configuration stages set. *)
Record locals : Type := Locals {
  l_opts : options;
  l_clientID : string;
  l_clientSecret : string;
  l_authzEp : string;
  l_tokenEp : string;
  l_do2lo : bool;
  l_issuer : string
}.

(** cmd.go:251-267 *)
Definition oauthCmd_options (c : Context) : stage options :=
  let opts := {|
    opts_Provider := c_String c "provider";
    opts_Email := c_String c "email";
    opts_Console := c_Bool c "console";
    opts_Implicit := c_Bool c "implicit";
    opts_CallbackListener := c_String c "listen";
    opts_CallbackListenerURL := c_String c "listen-url";
    opts_CallbackPath := "/";
    opts_TerminalRedirect := c_String c "redirect-url";
    opts_Browser := c_String c "browser" |} in
  match Validate opts with
  | (_, Some err) => Return (Some err)
  | (opts, None) =>
      if (bool_decide (opts_Provider opts ≠ "google") || c_IsSet c "authorization-endpoint")
         && negb (c_IsSet c "client-id")
      then Return (Some (errors_New "flag '--client-id' required with '--provider'"))
      else Continue opts
  end.

(** cmd.go:269-284 *)
Definition oauthCmd_client (c : Context) (opts : options) : stage (string * string) :=
  let r :=
    if opts_Implicit opts then
      if negb (c_Bool c "insecure") then
        Return (Some (errs_RequiredInsecureFlag L c "implicit"))
      else if negb (c_IsSet c "client-id") then
        Return (Some (errs_RequiredWithFlag L c "implicit" "client-id"))
      else Continue ("", "")
    else Continue (defaultClientID, defaultClientNotSoSecret) in
  match r with
  | Return e => Return e
  | Continue ids =>
      if c_IsSet c "client-id"
      then Continue (c_String c "client-id", c_String c "client-secret")
      else Continue ids
  end.

(** cmd.go:286-298 *)
Definition oauthCmd_endpoints (c : Context) (opts : options) (ids : string * string)
  : stage locals :=
  if c_IsSet c "authorization-endpoint" then
    if negb (c_IsSet c "token-endpoint") then
      Return (Some (errors_New
        "flag '--authorization-endpoint' requires flag '--token-endpoint'"))
    else
      Continue (Locals (set_Provider "" opts) ids.1 ids.2
                  (c_String c "authorization-endpoint") (c_String c "token-endpoint")
                  false "")
  else Continue (Locals opts ids.1 ids.2 "" "" false "").

(** cmd.go:299-328.  At line 326 the variable [err] holds the [nil] that
    [json.Unmarshal] returned. *)
Definition oauthCmd_account (c : Context) (l : locals) : Go (stage locals) :=
  if c_IsSet c "account" then
    let opts := set_Provider "" (l_opts l) in
    let filename := c_String c "account" in
    emit (Ev_ReadFile filename);;
    match ioutil_ReadFile W filename with
    | Error err =>
        ret (Return (errors_Wrapf (Some err) ("error reading account from " +:+ filename)))
    | OK b =>
        match json_Unmarshal L b with
        | Error err =>
            ret (Return (errors_Wrapf (Some err)
                           ("error reading " +:+ filename +:+ ": unsupported format")))
        | OK account =>
            let err : option error := None in
            match account !! "installed" with
            | Some _ =>
                details <- assert_map (account !! "installed");;
                authzEp <- assert_string (details !! "auth_uri");;
                tokenEp <- assert_string (details !! "token_uri");;
                clientID_ <- assert_string (details !! "client_id");;
                clientSecret_ <- assert_string (details !! "client_secret");;
                ret (Continue (Locals opts clientID_ clientSecret_ authzEp tokenEp
                                 (l_do2lo l) (l_issuer l)))
            | None =>
                if match account !! "type" with
                   | Some accountType => iface_eq_string accountType "service_account"
                   | None => false
                   end
                then
                  authzEp <- assert_string (account !! "auth_uri");;
                  tokenEp <- assert_string (account !! "token_uri");;
                  clientID_ <- assert_string (account !! "private_key_id");;
                  clientSecret_ <- assert_string (account !! "private_key");;
                  issuer <- assert_string (account !! "client_email");;
                  ret (Continue (Locals opts clientID_ clientSecret_ authzEp tokenEp
                                   true issuer))
                else
                  ret (Return (errors_Wrapf err
                                 ("error reading " +:+ filename
                                  +:+ ": unsupported account type")))
            end
        end
    end
  else ret (Continue l).

(** cmd.go:362-384 *)
Definition oauthCmd_print (c : Context) (tok : token) : Go (option error) :=
  if c_Bool c "header" then
    (if c_Bool c "oidc"
     then Println ("Authorization: Bearer" +:+ " " +:+ IDToken tok)
     else Println ("Authorization: Bearer" +:+ " " +:+ AccessToken tok));;
    ret None
  else if c_Bool c "bare" then
    (if c_Bool c "oidc" then Println (IDToken tok) else Println (AccessToken tok));;
    ret None
  else
    match json_MarshalIndent L tok with
    | Error err => ret (errors_Wrapf (Some err) "error marshaling token data")
    | OK b => Println b;; ret None
    end.

(** cmd.go:250-385 *)
Definition oauthCmd (c : Context) : Go (option error) :=
  match oauthCmd_options c with
  | Return e => ret e
  | Continue opts =>
  match oauthCmd_client c opts with
  | Return e => ret e
  | Continue ids =>
  match oauthCmd_endpoints c opts ids with
  | Return e => ret e
  | Continue l =>
      a <- oauthCmd_account c l;;
      match a with
      | Return e => ret e
      | Continue l =>
          let scope_ :=
            if c_IsSet c "scope" then strings_Join (c_StringSlice c "scope") " "
            else "openid email" in
          let prompt_ := if c_IsSet c "prompt" then c_String c "prompt" else "" in
          r <- newOauth (opts_Provider (l_opts l)) (l_clientID l) (l_clientSecret l)
                 (l_authzEp l) (l_tokenEp l) scope_ prompt_ (l_opts l);;
          match r with
          | Error err => ret (Some err)
          | OK o =>
              t <- (if l_do2lo l then
                      if c_Bool c "jwt" then DoJWTAuthorization o (l_issuer l) scope_
                      else DoTwoLeggedAuthorization o (l_issuer l)
                    else if opts_Console (l_opts l) then DoManualAuthorization o
                    else DoLoopbackAuthorization o);;
              match t with
              | Error err => ret (Some err)
              | OK tok => oauthCmd_print c tok
              end
          end
      end
  end
  end
  end.

End Flow.

Arguments Return {A} e.
Arguments Continue {A} a.

(** ** The answers of the callback handler *)

(** The token request that [ServeHTTP] makes for the [code] of a request. *)
Definition exchange_post (o : oauth) (req : Request) : event :=
  Ev_PostForm (tokenEndpoint o)
    (Exchange_data o (Values.Get (req_Query req) "code")).

(** The ways [ServeHTTP] answers a request, each with the shape of its
    trace: the path does not match; the request is answered without a send
    (malformed callback, relay page of the implicit flow); the request is
    rejected with the failure page and an error, possibly after the token
    request; a token is delivered after the success page or the redirect,
    in the code flow after the token request. *)
Inductive answered (o : oauth) (req : Request) : list event → Prop :=
| answered_not_found :
    req_Path req ≠ CallbackPath o →
    answered o req (trace http_NotFound)
| answered_unsent tr code :
    req_Path req = CallbackPath o →
    response_status tr = Some code →
    code = 400 ∨ code = 200 →
    first_send tr = None →
    posts_made tr = [] →
    answered o req tr
| answered_rejected pre msg :
    req_Path req = CallbackPath o →
    pre = [] ∨
      (implicit o = false ∧
       Values.Get (req_Query req) "error" = "" ∧
       Values.Get (req_Query req) "code" ≠ "" ∧
       Values.Get (req_Query req) "state" = state o ∧
       pre = [exchange_post o req]) →
    answered o req (pre ++ trace (badRequest msg))
| answered_delivered pre tok :
    req_Path req = CallbackPath o →
    Values.Get (req_Query req) "error" = "" →
    Values.Get (req_Query req) "state" = state o →
    Err tok = "" → ErrDesc tok = "" →
    (implicit o = true ∧ pre = []) ∨
      (implicit o = false ∧
       Values.Get (req_Query req) "code" ≠ "" ∧
       pre = [exchange_post o req]) →
    answered o req
      (pre ++
       trace (if bool_decide (terminalRedirect o ≠ "")
              then http_Redirect (terminalRedirect o) 302
              else success) ++
       [Ev_SendTok tok]).

(** The events of a run without a person: reading a file, requests to the
    provider, standard output. *)
Definition unattended (ev : event) : Prop :=
  match ev with
  | Ev_ReadFile _ | Ev_HttpGet _ | Ev_PostForm _ _ | Ev_Stdout _ => True
  | _ => False
  end.

(** The parameters that [Auth] adds to the query of the authorization
    endpoint, in the order in which it adds them. *)
Definition Auth_parameters (L : Lib) (o : oauth) : list (string * string) :=
  [("client_id", clientID o); ("redirect_uri", redirectURI o)] ++
  (if implicit o then [("response_type", "id_token token")]
   else [("response_type", "code"); ("code_challenge_method", "S256");
         ("code_challenge", base64_RawURLEncoding L (sha256_Sum256 L (codeChallenge o)))]) ++
  [("scope", scope o)] ++
  (if bool_decide (prompt o ≠ "") then [("prompt", prompt o)] else []) ++
  [("state", state o); ("nonce", nonce o)] ++
  (if bool_decide (loginHint o ≠ "") then [("login_hint", loginHint o)] else []).

(** ** Test doubles: a library and a world to run the command in *)

Module Demo.

(** A URL is kept whole in [Host]; its query is empty. *)
Definition lib : Lib := {|
  url_Parse := fun s => OK (Url "https" s "" "" "");
  url_String := fun u =>
    Host u +:+ Path u +:+
    (if bool_decide (RawQuery u = "") then "" else "?" +:+ RawQuery u);
  url_Query := fun _ => ∅;
  Values_Encode := fun q =>
    String.concat "&"
      (map (fun kv => kv.1 +:+ "=" +:+ String.concat "," kv.2) (map_to_list q));
  net_SplitHostPort := fun _ => Error "missing port in address";
  net_JoinHostPort := fun h p => h +:+ ":" +:+ p;
  path_Join := fun a b => a +:+ b;
  sha256_Sum256 := fun s => "sha256(" +:+ s +:+ ")";
  base64_RawURLEncoding := fun s => "b64(" +:+ s +:+ ")";
  pem_Decode := fun s => Some s;
  x509_ParsePKCS8PrivateKey := fun s => OK s;
  jose_NewSigner := fun _ _ => None;
  jose_CompactSerialize := fun _ _ => OK "header.claims.signature";
  json_Unmarshal := fun b =>
    if bool_decide (b = "service-account") then
      OK (<["type" := JString "service_account"]>
         (<["auth_uri" := JString "https://idp.example/auth"]>
         (<["token_uri" := JString "https://idp.example/token"]>
         (<["private_key_id" := JString "key-1"]>
         (<["private_key" := JString "PEM"]>
         (<["client_email" := JString "svc@example.iam"]> ∅))))))
    else if bool_decide (b = "user-account") then
      OK (<["type" := JString "authorized_user"]> ∅)
    else if bool_decide (b = "installed-no-secret") then
      OK (<["installed" := JObject
             (<["auth_uri" := JString "https://idp.example/auth"]>
             (<["token_uri" := JString "https://idp.example/token"]>
             (<["client_id" := JString "id-1"]> ∅)))]> ∅)
    else if bool_decide (b = "discovery") then
      OK (<["authorization_endpoint" := JString "https://idp.example/authorize"]>
         (<["token_endpoint" := JString "https://idp.example/token"]> ∅))
    else if bool_decide (b = "discovery-number") then
      OK (<["authorization_endpoint" := JNumber "1"]>
         (<["token_endpoint" := JString "https://idp.example/token"]> ∅))
    else Error "invalid character";
  json_Decode_token := fun b =>
    if bool_decide (b = "invalid-grant")
    then OK (Token "" "" "" 0 "" "invalid_grant" "Invalid JWT Signature.")
    else OK (Token "AT1" "" "" 3600 "Bearer" "" "");
  json_MarshalIndent := fun t =>
    OK ("access_token=" +:+ AccessToken t +:+ " error=" +:+ Err t);
  errs_RequiredInsecureFlag := fun _ f =>
    "flag '--" +:+ f +:+ "' requires the '--insecure' flag";
  errs_RequiredWithFlag := fun _ f g =>
    "flag '--" +:+ f +:+ "' requires the '--" +:+ g +:+ "' flag"
|}.

(** The file [sa.json] holds a service account; the token endpoint answers
    every request with the body named by [token_body]. *)
Definition world (file_body token_body : string) (reqs : list (Z * Request)) : World := {|
  randutil_Alphanumeric := fun n => OK (if (n =? 32)%nat then "STATE" else "VERIFIER");
  randutil_Hex := fun _ => OK "0a1b";
  ioutil_ReadFile := fun _ => OK file_body;
  http_Get := fun _ => OK (OK file_body);
  http_PostForm := fun _ _ => OK (OK token_body);
  time_Now_Unix := 1700000000;
  exec_OpenInBrowser := fun _ _ => None;
  utils_ReadString := OK "CODE";
  httptest_NewServer := Some "127.0.0.1:34567";
  net_Listen := fun a => OK a;
  callbacks := reqs
|}.

(** The flags of a command line: the string flags, the boolean flags that
    are on, and the flags that are set. *)
Definition context (strs : list (string * string)) (on set_ : list string) : Context := {|
  c_String := fun k => default "" ((list_to_map strs : gmap string string) !! k);
  c_Bool := fun k => bool_decide (k ∈ on);
  c_IsSet := fun k => bool_decide (k ∈ set_);
  c_StringSlice := fun _ => []
|}.

(** A session as [newOauth] builds it in [world] for the provider
    [https://idp.example]. *)
Definition session (implicit_ : bool) : oauth := {|
  provider := "https://idp.example";
  clientID := "client-1";
  clientSecret := "secret-1";
  scope := "openid email";
  prompt := "";
  loginHint := "";
  redirectURI := "http://127.0.0.1:34567";
  tokenEndpoint := "https://idp.example/token";
  authzEndpoint := "https://idp.example/authorize";
  userInfoEndpoint := "";
  state := "STATE";
  codeChallenge := "VERIFIER";
  nonce := "0a1b";
  implicit := implicit_;
  CallbackListener := "";
  CallbackListenerURL := "";
  CallbackPath := "/";
  terminalRedirect := "";
  browser := "" |}.

(** A callback request on the path [/] with the given query. *)
Definition request (q : list (string * string)) : Request := {|
  req_Path := "/";
  req_Query := list_to_map (map (fun kv => (kv.1, [kv.2])) q);
  req_RemoteAddr := "127.0.0.1:50000";
  req_URL := "/" |}.

(** A world in which no callback arrives. *)
Definition quiet_world : World := world "" "" [].

(** The command line [step oauth --account sa.json]. *)
Definition account_context : Context :=
  context [("provider", "google"); ("account", "sa.json")] [] ["account"].

(** The options of a plain command line. *)
Definition opts : options := {|
  opts_Provider := "https://idp.example";
  opts_Email := "";
  opts_Console := false;
  opts_Implicit := false;
  opts_CallbackListener := "";
  opts_CallbackListenerURL := "";
  opts_CallbackPath := "/";
  opts_TerminalRedirect := "";
  opts_Browser := "" |}.

(** Callbacks: without [state]; with an empty [state]; with a forged
    [state]; and the second request of the implicit flow, with a plain and
    with an oversized [expires_in]. *)
Definition callback_without_state : Request := request [("code", "abc")].

Definition callback_empty_state : Request := request [("code", "abc"); ("state", "")].

Definition callback_forged_state : Request :=
  request [("code", "abc"); ("state", "FORGED")].

Definition implicit_callback (expires_in : string) : Request :=
  request [("urlhash", "true"); ("access_token", "AT1"); ("token_type", "Bearer");
           ("expires_in", expires_in); ("state", "STATE")].

(** More callbacks: a well-formed one that matches the session; one in
    which the provider reports an error; a request on another path. *)
Definition callback_valid : Request := request [("code", "abc"); ("state", "STATE")].

Definition callback_denied : Request :=
  request [("error", "access_denied"); ("state", "STATE")].

Definition request_favicon : Request := {|
  req_Path := "/favicon.ico";
  req_Query := ∅;
  req_RemoteAddr := "127.0.0.1:50000";
  req_URL := "/favicon.ico" |}.

(** Variants of [lib]: the way an address splits, and the way a key
    decodes, are given. *)
Definition lib_with (split : string → result (string * string))
    (pem : string → option string) : Lib := {|
  url_Parse := url_Parse lib;
  url_String := url_String lib;
  url_Query := url_Query lib;
  Values_Encode := Values_Encode lib;
  net_SplitHostPort := split;
  net_JoinHostPort := net_JoinHostPort lib;
  path_Join := path_Join lib;
  sha256_Sum256 := sha256_Sum256 lib;
  base64_RawURLEncoding := base64_RawURLEncoding lib;
  pem_Decode := pem;
  x509_ParsePKCS8PrivateKey := x509_ParsePKCS8PrivateKey lib;
  jose_NewSigner := jose_NewSigner lib;
  jose_CompactSerialize := jose_CompactSerialize lib;
  json_Unmarshal := json_Unmarshal lib;
  json_Decode_token := json_Decode_token lib;
  json_MarshalIndent := json_MarshalIndent lib;
  errs_RequiredInsecureFlag := errs_RequiredInsecureFlag lib;
  errs_RequiredWithFlag := errs_RequiredWithFlag lib
|}.

(** Every address is the port 8080 on all interfaces. *)
Definition listening_lib : Lib :=
  lib_with (fun _ => OK ("", "8080")) (pem_Decode lib).

(** No secret is a PEM block. *)
Definition lib_without_key : Lib :=
  lib_with (net_SplitHostPort lib) (fun _ => None).

(** A world whose random source fails. *)
Definition world_without_entropy : World := {|
  randutil_Alphanumeric := fun _ => Error "entropy";
  randutil_Hex := fun _ => Error "entropy";
  ioutil_ReadFile := ioutil_ReadFile quiet_world;
  http_Get := http_Get quiet_world;
  http_PostForm := http_PostForm quiet_world;
  time_Now_Unix := time_Now_Unix quiet_world;
  exec_OpenInBrowser := exec_OpenInBrowser quiet_world;
  utils_ReadString := utils_ReadString quiet_world;
  httptest_NewServer := httptest_NewServer quiet_world;
  net_Listen := net_Listen quiet_world;
  callbacks := []
|}.

(** The session of [--listen :8080]. *)
Definition listening_session : oauth := {|
  provider := provider (session false);
  clientID := clientID (session false);
  clientSecret := clientSecret (session false);
  scope := scope (session false);
  prompt := prompt (session false);
  loginHint := loginHint (session false);
  redirectURI := redirectURI (session false);
  tokenEndpoint := tokenEndpoint (session false);
  authzEndpoint := authzEndpoint (session false);
  userInfoEndpoint := userInfoEndpoint (session false);
  state := state (session false);
  codeChallenge := codeChallenge (session false);
  nonce := nonce (session false);
  implicit := false;
  CallbackListener := ":8080";
  CallbackListenerURL := "";
  CallbackPath := "/";
  terminalRedirect := "";
  browser := "" |}.

(** The server that [httptest] starts in [world]. *)
Definition server : Server :=
  {| srv_Addr := "127.0.0.1:34567"; srv_URL := "http://127.0.0.1:34567" |}.

(** The token that [lib] decodes from a good response. *)
Definition good_token : token := Token "AT1" "" "" 3600 "Bearer" "" "".

(** The command line [step oauth --provider https://idp.example]. *)
Definition provider_context : Context :=
  context [("provider", "https://idp.example")] [] ["provider"].

(** The command line [step oauth --account sa.json --jwt --bare]. *)
Definition jwt_context : Context :=
  context [("provider", "google"); ("account", "sa.json")] ["jwt"; "bare"] ["account"].

(** The query of an authorization endpoint that carries a [scope] of its
    own. *)
Definition endpoint_query : gmap string (list string) := {["scope" := ["profile"]]}.

(** A library that knows the authorization endpoint
    [https://idp.example/authorize?code_challenge=attacker]: it parses its
    query, and it encodes a query as the pairs [key=value] of every key, one
    for each of its values, in the order of the map and without escaping. *)
Definition lib_with_query : Lib := {|
  url_Parse := fun s =>
    if bool_decide (s = "https://idp.example/authorize?code_challenge=attacker")
    then OK (Url "https" "idp.example" "/authorize" "code_challenge=attacker" "")
    else url_Parse lib s;
  url_String := fun u =>
    Scheme u +:+ "://" +:+ Host u +:+ Path u +:+
    (if bool_decide (RawQuery u = "") then "" else "?" +:+ RawQuery u);
  url_Query := fun u =>
    if bool_decide (RawQuery u = "code_challenge=attacker")
    then {["code_challenge" := ["attacker"]]}
    else ∅;
  Values_Encode := fun q =>
    String.concat "&"
      (flat_map (fun kv => map (fun v => kv.1 +:+ "=" +:+ v) kv.2) (map_to_list q));
  net_SplitHostPort := net_SplitHostPort lib;
  net_JoinHostPort := net_JoinHostPort lib;
  path_Join := path_Join lib;
  sha256_Sum256 := sha256_Sum256 lib;
  base64_RawURLEncoding := base64_RawURLEncoding lib;
  pem_Decode := pem_Decode lib;
  x509_ParsePKCS8PrivateKey := x509_ParsePKCS8PrivateKey lib;
  jose_NewSigner := jose_NewSigner lib;
  jose_CompactSerialize := jose_CompactSerialize lib;
  json_Unmarshal := json_Unmarshal lib;
  json_Decode_token := json_Decode_token lib;
  json_MarshalIndent := json_MarshalIndent lib;
  errs_RequiredInsecureFlag := errs_RequiredInsecureFlag lib;
  errs_RequiredWithFlag := errs_RequiredWithFlag lib
|}.

(** The session of
    [--authorization-endpoint https://idp.example/authorize?code_challenge=attacker]. *)
Definition session_with_query : oauth := {|
  provider := provider (session false);
  clientID := clientID (session false);
  clientSecret := clientSecret (session false);
  scope := scope (session false);
  prompt := prompt (session false);
  loginHint := loginHint (session false);
  redirectURI := redirectURI (session false);
  tokenEndpoint := tokenEndpoint (session false);
  authzEndpoint := "https://idp.example/authorize?code_challenge=attacker";
  userInfoEndpoint := userInfoEndpoint (session false);
  state := state (session false);
  codeChallenge := codeChallenge (session false);
  nonce := nonce (session false);
  implicit := false;
  CallbackListener := "";
  CallbackListenerURL := "";
  CallbackPath := "/";
  terminalRedirect := "";
  browser := "" |}.

End Demo.

(** * Properties *)

(** ** Facts on [url.Values] *)

Section ValuesFacts.

Implicit Types (v : gmap string (list string)) (key value : string).

Lemma lookup_Add_eq key value v :
  Values.Add key value v !! key = Some (default [] (v !! key) ++ [value]).
Proof. unfold Values.Add. apply lookup_insert_eq. Qed.

Lemma lookup_Add_ne key key' value v :
  key ≠ key' → Values.Add key value v !! key' = v !! key'.
Proof. intros Hne. unfold Values.Add. by rewrite lookup_insert_ne. Qed.

Lemma lookup_Set_eq key value v : Values.Set_ key value v !! key = Some [value].
Proof. unfold Values.Set_. apply lookup_insert_eq. Qed.

Lemma lookup_Set_ne key key' value v :
  key ≠ key' → Values.Set_ key value v !! key' = v !! key'.
Proof. intros Hne. unfold Values.Set_. by rewrite lookup_insert_ne. Qed.

(** A parameter that is absent reads as the empty string. *)
Lemma Get_missing v key : v !! key = None → Values.Get v key = "".
Proof. unfold Values.Get. by intros ->. Qed.

Lemma Get_Set_eq key value v : Values.Get (Values.Set_ key value v) key = value.
Proof. unfold Values.Get. by rewrite lookup_Set_eq. Qed.

Lemma Get_Add_fresh key value v :
  v !! key = None → Values.Get (Values.Add key value v) key = value.
Proof. intros Hnone. unfold Values.Get. by rewrite lookup_Add_eq, Hnone. Qed.

End ValuesFacts.

(** ** Facts on traces *)

Section TraceFacts.

Lemma errors_sent_app tr1 tr2 :
  errors_sent (tr1 ++ tr2) = errors_sent tr1 ++ errors_sent tr2.
Proof.
  induction tr1 as [|e tr1 IH]; [done|].
  destruct e; simpl; by rewrite ?IH.
Qed.

Lemma tokens_sent_app tr1 tr2 :
  tokens_sent (tr1 ++ tr2) = tokens_sent tr1 ++ tokens_sent tr2.
Proof.
  induction tr1 as [|e tr1 IH]; [done|].
  destruct e; simpl; by rewrite ?IH.
Qed.

Lemma posts_made_app tr1 tr2 :
  posts_made (tr1 ++ tr2) = posts_made tr1 ++ posts_made tr2.
Proof.
  induction tr1 as [|e tr1 IH]; [done|].
  destruct e; simpl; by rewrite ?IH.
Qed.

(** Nothing was sent exactly when there is no first send. *)
Lemma first_send_None tr :
  first_send tr = None ↔ tokens_sent tr = [] ∧ errors_sent tr = [].
Proof.
  induction tr as [|e tr IH]; [done|].
  destruct e; simpl; try apply IH; split; try done; by intros [??].
Qed.

(** The first token received was sent. *)
Lemma first_send_token tr t : first_send tr = Some (OK t) → t ∈ tokens_sent tr.
Proof.
  induction tr as [|e tr IH]; [done|].
  destruct e; simpl; try apply IH; [done|].
  intros [= ->]. apply list_elem_of_here.
Qed.

(** The pages written by the handlers. *)
Lemma trace_badRequest msg :
  response_status (trace (badRequest msg)) = Some 400 ∧
  errors_sent (trace (badRequest msg)) = [errors_New msg] ∧
  tokens_sent (trace (badRequest msg)) = [] ∧
  posts_made (trace (badRequest msg)) = [].
Proof. done. Qed.

Lemma trace_success :
  response_status (trace success) = Some 200 ∧
  errors_sent (trace success) = [] ∧
  tokens_sent (trace success) = [] ∧
  posts_made (trace success) = [].
Proof. done. Qed.

Lemma trace_http_Error msg code :
  response_status (trace (http_Error msg code)) = Some code ∧
  errors_sent (trace (http_Error msg code)) = [] ∧
  tokens_sent (trace (http_Error msg code)) = [] ∧
  posts_made (trace (http_Error msg code)) = [].
Proof. done. Qed.

Lemma trace_http_Redirect url code :
  response_status (trace (http_Redirect url code)) = Some code ∧
  errors_sent (trace (http_Redirect url code)) = [] ∧
  tokens_sent (trace (http_Redirect url code)) = [] ∧
  posts_made (trace (http_Redirect url code)) = [].
Proof. done. Qed.

End TraceFacts.

(** ** The callback handler *)

Section Handler.

Variable L : Lib.
Variable W : World.

Implicit Types (o : oauth) (req : Request).

(** Rewrites the tests of a handler with the facts at hand. *)
Ltac decide_tests :=
  repeat match goal with
  | H : ?P |- context [bool_decide ?P] => rewrite (bool_decide_eq_true_2 P H)
  | H : ¬ ?P |- context [bool_decide ?P] => rewrite (bool_decide_eq_false_2 P H)
  | H : ?a = ?b |- context [bool_decide (?a ≠ ?b)] =>
      rewrite (bool_decide_eq_false_2 (a ≠ b)) by (intros Hne; exact (Hne H))
  end.

(** C3: a non-implicit callback on the configured path, without an
    [error] parameter, whose [code] or [state] parameter is missing (it
    reads as the empty string) is answered 400; nothing is sent on the
    token channel or on the error channel and no token request is made, so a
    flow that waits for the channels goes on waiting for the next request. *)
Theorem ServeHTTP_malformed_callback o req :
  implicit o = false →
  req_Path req = CallbackPath o →
  Values.Get (req_Query req) "error" = "" →
  Values.Get (req_Query req) "code" = "" ∨ Values.Get (req_Query req) "state" = "" →
  let tr := trace (ServeHTTP L W o req) in
  response_status tr = Some 400 ∧
  tokens_sent tr = [] ∧
  errors_sent tr = [] ∧
  posts_made tr = [] ∧
  (∀ d t reqs, t < d →
     value (await L W o d ((t, req) :: reqs)) = value (await L W o d reqs)).
Proof.
  intros Himpl Hpath Herr Hmiss.
  assert (Htr : trace (ServeHTTP L W o req) =
    [Ev_Stderr ("Invalid request received: http://" +:+ req_RemoteAddr req
                +:+ req_URL req +:+ nl);
     Ev_Stderr ("You may have an app or browser plugin that needs to be turned off" +:+ nl);
     Ev_HeaderSet "Content-Type" "text/plain; charset=utf-8";
     Ev_HeaderSet "X-Content-Type-Options" "nosniff";
     Ev_WriteHeader 400;
     Ev_Write ("400 bad request" +:+ nl)]).
  { unfold ServeHTTP. rewrite Himpl. decide_tests.
    destruct Hmiss as [Hc|Hs]; decide_tests; [done|].
    by rewrite orb_true_r. }
  cbv zeta. rewrite Htr. repeat split.
  intros d t reqs Hlt. cbn [await].
  destruct (Z.leb_spec d t) as [?|_]; [lia|].
  by rewrite Htr.
Qed.

(** In implicit mode a request on the path without an [error] parameter
    is handled by [implicitHandler]. *)
Lemma ServeHTTP_implicit o req :
  implicit o = true →
  req_Path req = CallbackPath o →
  Values.Get (req_Query req) "error" = "" →
  ServeHTTP L W o req = implicitHandler o req.
Proof.
  intros Himpl Hpath Herr. unfold ServeHTTP. rewrite Himpl. by decide_tests.
Qed.

(** C2, amended: on the configured path, a callback whose [state] is
    empty or differs from the state of the session never reaches
    [Exchange] (no token request is made) and sends no token.  In the
    non-implicit flow and without an [error] parameter, if [code] and
    [state] are both non-empty the handler answers 400 and sends one
    error on the error channel; if [state] is empty it answers 400 and
    sends nothing. *)
Theorem ServeHTTP_state_mismatch o req :
  req_Path req = CallbackPath o →
  Values.Get (req_Query req) "state" = "" ∨
    Values.Get (req_Query req) "state" ≠ state o →
  let q := req_Query req in
  let tr := trace (ServeHTTP L W o req) in
  posts_made tr = [] ∧
  tokens_sent tr = [] ∧
  (implicit o = false → Values.Get q "error" = "" →
   Values.Get q "code" ≠ "" → Values.Get q "state" ≠ "" →
     response_status tr = Some 400 ∧
     errors_sent tr = [errors_New "Failed to authenticate: missing or invalid state"]) ∧
  (implicit o = false → Values.Get q "error" = "" →
   Values.Get q "state" = "" →
     response_status tr = Some 400 ∧ errors_sent tr = []).
Proof.
  intros Hpath Hstate. cbv zeta.
  assert (Hbad : bool_decide (Values.Get (req_Query req) "state" = "")
                 || bool_decide (Values.Get (req_Query req) "state" ≠ state o) = true).
  { destruct Hstate as [H|H]; rewrite (bool_decide_eq_true_2 _ H); [done|].
    apply orb_true_r. }
  unfold ServeHTTP. decide_tests.
  destruct (decide (Values.Get (req_Query req) "error" = "")) as [Herr|Herr];
    [|rewrite (bool_decide_eq_true_2 _ Herr); repeat split; intros; congruence].
  decide_tests. destruct (implicit o).
  - unfold implicitHandler. rewrite Hbad.
    destruct (decide (Values.Get (req_Query req) "urlhash" = "true")); decide_tests;
      repeat split; intros; congruence.
  - rewrite Hbad.
    destruct (decide (Values.Get (req_Query req) "code" = "")); decide_tests;
      [repeat split; intros; congruence|].
    destruct (decide (Values.Get (req_Query req) "state" = "")); decide_tests;
      repeat split; intros; congruence.
Qed.

End Handler.

(** ** [strconv.Atoi] against the value of a numeral *)

Module AtoiFacts.
Import strconv.

Lemma digit_val_range c : is_digit c = true → 0 ≤ digit_val c ≤ 9.
Proof. unfold is_digit, digit_val. lia. Qed.

Lemma digits_value_ge s acc v : 0 ≤ acc → digits_value s acc = Some v → acc ≤ v.
Proof.
  revert acc. induction s as [|c s IH]; intros acc Hacc; simpl.
  - intros [= ->]. lia.
  - destruct (is_digit c) eqn:Hc; [|done].
    intros Hv. pose proof (digit_val_range c Hc).
    apply IH in Hv; lia.
Qed.

(** The digit loop computes the value of the digits when it fits 64 bits. *)
Lemma parseUint_digits_value s acc v :
  0 ≤ acc → digits_value s acc = Some v → v ≤ maxUint64 →
  parseUint_digits s acc = (v, None).
Proof.
  revert acc. induction s as [|c s IH]; intros acc Hacc; simpl.
  - by intros [= ->].
  - destruct (is_digit c) eqn:Hc; [|done].
    intros Hv Hmax. pose proof (digit_val_range c Hc) as Hd.
    assert (Hacc' : 0 ≤ acc * 10 + digit_val c) by lia.
    pose proof (digits_value_ge _ _ _ Hacc' Hv) as Hge.
    unfold maxUint64 in *.
    destruct (Z.leb_spec (( 2 ^ 64 - 1) / 10 + 1) acc) as [Hcut|_].
    { change ((2 ^ 64 - 1) / 10 + 1) with 1844674407370955162 in Hcut. lia. }
    destruct (Z.ltb_spec (2 ^ 64 - 1) (acc * 10 + digit_val c)) as [Hov|_]; [lia|].
    apply IH; [lia|done|done].
Qed.

(** It saturates, with a range error, when the value does not fit. *)
Lemma parseUint_digits_overflow s acc v :
  0 ≤ acc ≤ maxUint64 → digits_value s acc = Some v → maxUint64 < v →
  parseUint_digits s acc = (maxUint64, Some ErrRange).
Proof.
  revert acc. induction s as [|c s IH]; intros acc Hacc; simpl.
  - intros [= ->]. lia.
  - destruct (is_digit c) eqn:Hc; [|done].
    intros Hv Hmax. pose proof (digit_val_range c Hc) as Hd.
    destruct (Z.leb_spec (maxUint64 / 10 + 1) acc) as [Hcut|_]; [done|].
    destruct (Z.ltb_spec maxUint64 (acc * 10 + digit_val c)) as [Hov|Hfit]; [done|].
    apply IH; [lia|done|done].
Qed.

(** The two failures of the digit loop and the values they come with. *)
Lemma parseUint_digits_error s acc v e :
  parseUint_digits s acc = (v, Some e) →
  (e = ErrSyntax ∧ v = 0) ∨ (e = ErrRange ∧ v = maxUint64).
Proof.
  revert acc. induction s as [|c s IH]; intros acc; simpl; [done|].
  destruct (is_digit c); [|intros [= <- <-]; by left].
  destruct (_ <=? _); [intros [= <- <-]; by right|].
  destruct (_ <? _); [intros [= <- <-]; by right|].
  apply IH.
Qed.

Lemma ParseUint_value s v :
  unsigned_value s = Some v → v ≤ maxUint64 → ParseUint s = (v, None).
Proof.
  destruct s as [|c s]; [done|]. unfold unsigned_value, ParseUint.
  intros. by apply parseUint_digits_value.
Qed.

Lemma ParseUint_overflow s v :
  unsigned_value s = Some v → maxUint64 < v →
  ParseUint s = (maxUint64, Some ErrRange).
Proof.
  destruct s as [|c s]; [done|]. unfold unsigned_value, ParseUint.
  intros. apply parseUint_digits_overflow with v; [done..|done].
Qed.

Lemma unsigned_value_nonneg s v : unsigned_value s = Some v → 0 ≤ v.
Proof.
  destruct s as [|c s]; [done|]. unfold unsigned_value.
  by apply digits_value_ge.
Qed.

Lemma ParseUint_error s v e :
  ParseUint s = (v, Some e) →
  (e = ErrSyntax ∧ v = 0) ∨ (e = ErrRange ∧ v = maxUint64).
Proof.
  destruct s as [|c s]; [intros [= <- <-]; by left|].
  apply parseUint_digits_error.
Qed.

(** [Atoi] on a numeral [s] that denotes [n]: [n] itself when it fits
    [int], the bound of [int] on the side of [n] with a range error
    otherwise. *)
Lemma Atoi_numeral s n :
  numeral_value s = Some n →
  Atoi s =
    if (n <? - 2 ^ 63) then (- 2 ^ 63, Some ErrRange)
    else if (2 ^ 63 <=? n) then (2 ^ 63 - 1, Some ErrRange)
    else (n, None).
Proof.
  destruct s as [|c s]; [done|].
  unfold Atoi, ParseInt, numeral_value.
  assert (Hcases : ∀ body v (neg : bool),
    unsigned_value body = Some v →
    match ParseUint body with
    | (_, Some ErrSyntax) => (0, Some ErrSyntax)
    | (un, _) =>
        if negb neg && (2 ^ 63 <=? un) then (2 ^ 63 - 1, Some ErrRange)
        else if neg && (2 ^ 63 <? un) then (- 2 ^ 63, Some ErrRange)
        else (if neg then - un else un, None)
    end =
    let n := if neg then - v else v in
    if (n <? - 2 ^ 63) then (- 2 ^ 63, Some ErrRange)
    else if (2 ^ 63 <=? n) then (2 ^ 63 - 1, Some ErrRange)
    else (n, None)).
  { intros body v neg Hv. pose proof (unsigned_value_nonneg _ _ Hv) as H0.
    destruct (Z.le_gt_cases v maxUint64) as [Hfit|Hov].
    - rewrite (ParseUint_value _ _ Hv Hfit). cbv zeta.
      destruct neg; simpl;
        repeat match goal with
        | |- context [?a <=? ?b] => destruct (Z.leb_spec a b)
        | |- context [?a <? ?b] => destruct (Z.ltb_spec a b)
        end; try done; lia.
    - rewrite (ParseUint_overflow _ _ Hv ltac:(lia)). cbv zeta.
      unfold maxUint64 in *.
      destruct neg; simpl;
        repeat match goal with
        | |- context [?a <=? ?b] => destruct (Z.leb_spec a b)
        | |- context [?a <? ?b] => destruct (Z.ltb_spec a b)
        end; try done; lia. }
  cbv zeta. repeat case_bool_decide; subst; cbn [orb fmap option_fmap option_map].
  - done.
  - destruct (unsigned_value s) as [v|] eqn:Hv; [|done].
    intros [= <-]. by rewrite (Hcases s v true Hv).
  - intros Hv. by rewrite (Hcases s n false Hv).
  - intros Hv. by rewrite (Hcases (String c s) n false Hv).
Qed.

(** A failure of [Atoi] comes with 0 when it is a syntax error and with
    a bound of [int] when it is a range error. *)
Lemma Atoi_error s v e :
  Atoi s = (v, Some e) →
  (e = ErrSyntax ∧ v = 0) ∨ (e = ErrRange ∧ (v = 2 ^ 63 - 1 ∨ v = - 2 ^ 63)).
Proof.
  unfold Atoi, ParseInt. destruct s as [|c s]; [intros [= <- <-]; by left|].
  cbv zeta.
  destruct (ParseUint _) as [un [[]|]] eqn:Hun.
  - intros [= <- <-]. by left.
  - destruct (_ && _); [intros [= <- <-]; right; split; [done|by left]|].
    destruct (_ && _); [intros [= <- <-]; right; split; [done|by right]|].
    done.
  - destruct (_ && _); [intros [= <- <-]; right; split; [done|by left]|].
    destruct (_ && _); [intros [= <- <-]; right; split; [done|by right]|].
    done.
Qed.

End AtoiFacts.

(** ** Witnesses and counterexamples for the callback handler *)

(** C3 at a callback that carries [code=abc] and no [state]. *)
Lemma ServeHTTP_malformed_callback_witness :
  implicit (Demo.session false) = false ∧
  req_Path Demo.callback_without_state = CallbackPath (Demo.session false) ∧
  Values.Get (req_Query Demo.callback_without_state) "error" = "" ∧
  Values.Get (req_Query Demo.callback_without_state) "state" = "" ∧
  response_status
    (trace (ServeHTTP Demo.lib Demo.quiet_world (Demo.session false) Demo.callback_without_state))
    = Some 400 ∧
  first_send
    (trace (ServeHTTP Demo.lib Demo.quiet_world (Demo.session false) Demo.callback_without_state))
    = None.
Proof.
  pose proof (ServeHTTP_malformed_callback Demo.lib Demo.quiet_world (Demo.session false)
                Demo.callback_without_state eq_refl eq_refl eq_refl
                (or_intror eq_refl)) as (Hstatus & Htok & Herr & _).
  split; [reflexivity|]. split; [reflexivity|].
  split; [reflexivity|]. split; [reflexivity|].
  split; [exact Hstatus|].
  apply first_send_None. split; assumption.
Defined.

(** C2 as stated fails where it reaches furthest: a callback on the path
    with [code=abc] and an empty [state] is answered 400, but no error is
    sent on the error channel; and in implicit mode the same callback with a
    forged [state] and no [urlhash] is answered 200 with the relay page. *)
Lemma ServeHTTP_state_mismatch_counterexample :
  (req_Path Demo.callback_empty_state = CallbackPath (Demo.session false) ∧
   Values.Get (req_Query Demo.callback_empty_state) "code" = "abc" ∧
   req_Query Demo.callback_empty_state !! "state" = Some [""] ∧
   response_status
     (trace (ServeHTTP Demo.lib Demo.quiet_world (Demo.session false) Demo.callback_empty_state))
     = Some 400 ∧
   errors_sent
     (trace (ServeHTTP Demo.lib Demo.quiet_world (Demo.session false) Demo.callback_empty_state))
     = []) ∧
  (req_Path Demo.callback_forged_state = CallbackPath (Demo.session true) ∧
   Values.Get (req_Query Demo.callback_forged_state) "code" = "abc" ∧
   Values.Get (req_Query Demo.callback_forged_state) "state" = "FORGED" ∧
   state (Demo.session true) = "STATE" ∧
   response_status
     (trace (ServeHTTP Demo.lib Demo.quiet_world (Demo.session true) Demo.callback_forged_state))
     = Some 200 ∧
   errors_sent
     (trace (ServeHTTP Demo.lib Demo.quiet_world (Demo.session true) Demo.callback_forged_state))
     = []).
Proof. vm_compute. repeat split. Qed.

(** C2, amended, at a callback with [code=abc] and the forged state
    [FORGED]. *)
Lemma ServeHTTP_state_mismatch_witness :
  req_Path Demo.callback_forged_state = CallbackPath (Demo.session false) ∧
  Values.Get (req_Query Demo.callback_forged_state) "state" ≠ state (Demo.session false) ∧
  posts_made
    (trace (ServeHTTP Demo.lib Demo.quiet_world (Demo.session false) Demo.callback_forged_state)) = [] ∧
  response_status
    (trace (ServeHTTP Demo.lib Demo.quiet_world (Demo.session false) Demo.callback_forged_state))
    = Some 400 ∧
  errors_sent
    (trace (ServeHTTP Demo.lib Demo.quiet_world (Demo.session false) Demo.callback_forged_state))
    = ["Failed to authenticate: missing or invalid state"].
Proof.
  assert (Hne : Values.Get (req_Query Demo.callback_forged_state) "state"
                ≠ state (Demo.session false)) by (vm_compute; discriminate).
  pose proof (ServeHTTP_state_mismatch Demo.lib Demo.quiet_world (Demo.session false)
                Demo.callback_forged_state eq_refl (or_intror Hne))
    as (Hposts & _ & Hpush & _).
  destruct Hpush as [Hstatus Herr];
    [reflexivity | reflexivity | vm_compute; discriminate | vm_compute; discriminate |].
  repeat split; assumption.
Defined.

(** ** The implicit flow *)

Section ImplicitFlow.

Implicit Types (o : oauth) (req : Request).

(** C9, amended: the second request of the implicit flow
    ([urlhash=true]).  With a non-empty [state] equal to the state of the
    session and a non-empty [access_token], the handler sends one token
    and no error; its fields are the query parameters of the same names,
    and [ExpiresIn] is the integer that [expires_in] denotes as a decimal
    numeral, kept within the range of [int]; when [Atoi] fails on
    [expires_in], [ExpiresIn] is zero for a syntax error and a bound of
    [int] for a range error.  With an empty or different [state], or
    without [access_token], the handler answers 400 and sends one error
    and no token. *)
Theorem implicitHandler_urlhash o req :
  Values.Get (req_Query req) "urlhash" = "true" →
  let q := req_Query req in
  let tr := trace (implicitHandler o req) in
  (Values.Get q "state" ≠ "" → Values.Get q "state" = state o →
   Values.Get q "access_token" ≠ "" →
     errors_sent tr = [] ∧
     ∃ tok, tokens_sent tr = [tok] ∧
       AccessToken tok = Values.Get q "access_token" ∧
       IDToken tok = Values.Get q "id_token" ∧
       RefreshToken tok = Values.Get q "refresh_token" ∧
       TokenType tok = Values.Get q "token_type" ∧
       Err tok = "" ∧ ErrDesc tok = "" ∧
       (∀ n, strconv.numeral_value (Values.Get q "expires_in") = Some n →
          ExpiresIn tok = Z.max (- 2 ^ 63) (Z.min n (2 ^ 63 - 1))) ∧
       (∀ e, (strconv.Atoi (Values.Get q "expires_in")).2 = Some e →
          (e = strconv.ErrSyntax ∧ ExpiresIn tok = 0) ∨
          (e = strconv.ErrRange ∧
           (ExpiresIn tok = 2 ^ 63 - 1 ∨ ExpiresIn tok = - 2 ^ 63)))) ∧
  (Values.Get q "state" = "" ∨ Values.Get q "state" ≠ state o ∨
   Values.Get q "access_token" = "" →
     response_status tr = Some 400 ∧
     (∃ e, errors_sent tr = [e]) ∧
     tokens_sent tr = []).
Proof.
  intros Hhash. cbv zeta. unfold implicitHandler.
  rewrite (bool_decide_eq_true_2 _ Hhash). split.
  - intros Hne Heq Htok.
    rewrite (bool_decide_eq_false_2 _ Hne), (bool_decide_eq_false_2 _ Htok).
    rewrite (bool_decide_eq_false_2 (_ ≠ _)) by (intros Hd; exact (Hd Heq)).
    cbn [orb].
    split; [by case_bool_decide|].
    eexists. split; [by case_bool_decide|].
    cbn [AccessToken IDToken RefreshToken TokenType Err ErrDesc ExpiresIn].
    do 6 (split; [reflexivity|]). split.
    + intros n Hn. rewrite (AtoiFacts.Atoi_numeral _ _ Hn).
      destruct (Z.ltb_spec n (- 2 ^ 63)); [simpl; lia|].
      destruct (Z.leb_spec (2 ^ 63) n); simpl; lia.
    + intros e He.
      destruct (strconv.Atoi _) as [v [e'|]] eqn:Hatoi; [|done].
      simpl in He. injection He as ->.
      exact (AtoiFacts.Atoi_error _ _ _ Hatoi).
  - intros Hbad.
    destruct (decide (Values.Get (req_Query req) "state" = "")) as [Hs|Hs];
      [by rewrite (bool_decide_eq_true_2 _ Hs); eauto|].
    rewrite (bool_decide_eq_false_2 _ Hs).
    destruct (decide (Values.Get (req_Query req) "state" = state o)) as [Hs'|Hs'];
      [|by rewrite (bool_decide_eq_true_2 _ Hs'); eauto].
    rewrite (bool_decide_eq_false_2 (_ ≠ _)) by (intros Hd; exact (Hd Hs')).
    destruct Hbad as [?|[?|Ht]]; [done..|].
    rewrite (bool_decide_eq_true_2 _ Ht). simpl. eauto.
Qed.

(** The scenario with [expires_in=3600]. *)
Lemma implicitHandler_urlhash_witness :
  Values.Get (req_Query (Demo.implicit_callback "3600")) "urlhash" = "true" ∧
  ∃ tok,
    tokens_sent (trace (implicitHandler (Demo.session true)
                          (Demo.implicit_callback "3600"))) = [tok] ∧
    AccessToken tok = "AT1" ∧ TokenType tok = "Bearer" ∧ ExpiresIn tok = 3600.
Proof.
  split; [reflexivity|].
  destruct (implicitHandler_urlhash (Demo.session true)
              (Demo.implicit_callback "3600") eq_refl) as [Hok _].
  destruct Hok as (_ & tok & Hsent & Hat & _ & _ & Htt & _ & _ & Hexp & _);
    [vm_compute; discriminate | reflexivity | vm_compute; discriminate |].
  exists tok. split; [exact Hsent|].
  split; [exact Hat|]. split; [exact Htt|].
  exact (Hexp 3600 eq_refl).
Defined.

(** C9 as stated fails when [expires_in] is a numeral out of the range
    of [int]: parsing fails with a range error, and [ExpiresIn] is the
    largest [int], not zero. *)
Lemma implicitHandler_expires_in_counterexample :
  Values.Get (req_Query (Demo.implicit_callback "99999999999999999999")) "urlhash"
    = "true" ∧
  Values.Get (req_Query (Demo.implicit_callback "99999999999999999999")) "state"
    = state (Demo.session true) ∧
  Values.Get (req_Query (Demo.implicit_callback "99999999999999999999")) "access_token"
    = "AT1" ∧
  strconv.Atoi "99999999999999999999" = (9223372036854775807, Some strconv.ErrRange) ∧
  tokens_sent (trace (implicitHandler (Demo.session true)
                        (Demo.implicit_callback "99999999999999999999")))
    = [Token "AT1" "" "" 9223372036854775807 "Bearer" "" ""].
Proof. vm_compute. repeat split. Qed.

End ImplicitFlow.

(** ** The flow session: PKCE *)

Section Session.

Variable L : Lib.
Variable W : World.

Implicit Types (o : oauth).

(** The form of [Exchange] is posted once, to the endpoint given. *)
Lemma posts_made_Exchange o endpoint code :
  posts_made (trace (Exchange L W o endpoint code))
  = [(endpoint, Exchange_data o code)].
Proof.
  unfold Exchange.
  destruct (http_PostForm W endpoint _) as [body|err]; [|done].
  by destruct (decode_token L body).
Qed.

(** C4, amended: in the non-implicit flow [Auth] returns the configured
    endpoint with its query replaced, and nothing else changed, by the
    encoding of the endpoint's own query extended by the parameters of the
    request.  The [code_challenge] that it adds, which is the last value of
    that parameter, and its only value when the configured endpoint carries
    no [code_challenge] of its own, is the unpadded base64url encoding of
    the SHA-256 digest of the verifier; the form that [Exchange] posts
    carries the verifier itself as [code_verifier]; so the challenge computed
    again from the verifier sent at exchange time is the challenge added to
    the authorization URL. *)
Theorem pkce_challenge_round_trip o :
  implicit o = false →
  let challenge := base64_RawURLEncoding L (sha256_Sum256 L (codeChallenge o)) in
  (∀ u, url_Parse L (authzEndpoint o) = OK u →
     let q := Auth_query L o (url_Query L u) in
     Auth L o
       = OK (url_String L
               {| Scheme := Scheme u; Host := Host u; Path := Path u;
                  RawQuery := Values_Encode L q; Fragment := Fragment u |}) ∧
     q !! "code_challenge"
       = Some (default [] (url_Query L u !! "code_challenge") ++ [challenge]) ∧
     last (default [] (q !! "code_challenge")) = Some challenge ∧
     (url_Query L u !! "code_challenge" = None →
        q !! "code_challenge" = Some [challenge] ∧
        Values.Get q "code_challenge" = challenge)) ∧
  (∀ endpoint code,
     let data := Exchange_data o code in
     posts_made (trace (Exchange L W o endpoint code)) = [(endpoint, data)] ∧
     data !! "code_verifier" = Some [codeChallenge o] ∧
     base64_RawURLEncoding L (sha256_Sum256 L (Values.Get data "code_verifier"))
       = challenge).
Proof.
  intros Himpl. cbv zeta. split.
  - intros u Hu.
    assert (Hq : Auth_query L o (url_Query L u) !! "code_challenge"
                 = Some (default [] (url_Query L u !! "code_challenge")
                         ++ [base64_RawURLEncoding L (sha256_Sum256 L (codeChallenge o))])).
    { unfold Auth_query. rewrite Himpl.
      repeat case_bool_decide;
        rewrite ?lookup_Add_ne by done;
        rewrite lookup_Add_eq;
        by rewrite ?lookup_Add_ne by done. }
    split; [by unfold Auth; rewrite Hu|].
    split; [exact Hq|].
    split; [rewrite Hq; exact (last_snoc _ _)|].
    intros Hnone. unfold Values.Get. by rewrite Hq, Hnone.
  - intros endpoint code.
    split; [apply posts_made_Exchange|].
    unfold Exchange_data, Values.Get. by rewrite lookup_Set_eq.
Qed.

End Session.

(** C4 as stated fails at an authorization endpoint that carries a
    [code_challenge] of its own: the URL built has it first and the
    challenge of the verifier after it, so that the [code_challenge] of the
    URL reads [attacker], which is not what the verifier sent at exchange
    time gives. *)
Lemma pkce_challenge_round_trip_counterexample :
  implicit Demo.session_with_query = false ∧
  authzEndpoint Demo.session_with_query
    = "https://idp.example/authorize?code_challenge=attacker" ∧
  Auth Demo.lib_with_query Demo.session_with_query
    = OK ("https://idp.example/authorize?scope=openid email&state=STATE"
          +:+ "&code_challenge_method=S256"
          +:+ "&code_challenge=attacker&code_challenge=b64(sha256(VERIFIER))"
          +:+ "&client_id=client-1&nonce=0a1b&response_type=code"
          +:+ "&redirect_uri=http://127.0.0.1:34567") ∧
  Auth_query Demo.lib_with_query Demo.session_with_query
    {["code_challenge" := ["attacker"]]} !! "code_challenge"
    = Some ["attacker"; "b64(sha256(VERIFIER))"] ∧
  Values.Get (Auth_query Demo.lib_with_query Demo.session_with_query
                {["code_challenge" := ["attacker"]]}) "code_challenge"
    = "attacker" ∧
  Values.Get (Exchange_data Demo.session_with_query "CODE") "code_verifier" = "VERIFIER" ∧
  base64_RawURLEncoding Demo.lib_with_query
    (sha256_Sum256 Demo.lib_with_query
       (Values.Get (Exchange_data Demo.session_with_query "CODE") "code_verifier"))
    ≠ Values.Get (Auth_query Demo.lib_with_query Demo.session_with_query
                    {["code_challenge" := ["attacker"]]}) "code_challenge".
Proof. vm_compute. repeat split. discriminate. Qed.

(** C4, amended, on the session of the scenario: the URL built, with the
    challenge of the verifier [VERIFIER] in its query, and the verifier in
    the form of the exchange. *)
Lemma pkce_challenge_round_trip_witness :
  implicit (Demo.session false) = false ∧
  Auth Demo.lib (Demo.session false)
    = OK ("https://idp.example/authorize?scope=openid email&state=STATE"
          +:+ "&code_challenge_method=S256&code_challenge=b64(sha256(VERIFIER))"
          +:+ "&client_id=client-1&nonce=0a1b&response_type=code"
          +:+ "&redirect_uri=http://127.0.0.1:34567") ∧
  Auth_query Demo.lib (Demo.session false) ∅ !! "code_challenge"
    = Some ["b64(sha256(VERIFIER))"] ∧
  Values.Get (Auth_query Demo.lib (Demo.session false) ∅) "code_challenge"
    = "b64(sha256(VERIFIER))" ∧
  Values.Get (Exchange_data (Demo.session false) "CODE") "code_verifier" = "VERIFIER".
Proof.
  split; [reflexivity|].
  destruct (pkce_challenge_round_trip Demo.lib (Demo.world "" "" [])
              (Demo.session false) eq_refl) as [Hauth Hexch].
  destruct (Hauth _ eq_refl) as (Hurl & _ & _ & Honly).
  destruct (Honly eq_refl) as [Hvalues Hget].
  destruct (Hexch "https://idp.example/token" "CODE") as (_ & Hverifier & _).
  split; [exact Hurl|]. split; [exact Hvalues|]. split; [exact Hget|].
  unfold Values.Get. rewrite Hverifier. reflexivity.
Defined.

(** ** The two-legged flow *)

Lemma wrap_int_small z : - 2 ^ 63 ≤ z < 2 ^ 63 → wrap_int z = z.
Proof. intros Hz. unfold wrap_int. rewrite Z.mod_small; lia. Qed.

Section TwoLegged.

Variable L : Lib.
Variable W : World.

Implicit Types (o : oauth).

(** C8: with a private key that decodes ([pem.Decode] finds a block and
    [x509.ParsePKCS8PrivateKey] reads it) and a clock that leaves an hour
    before the end of [int], the assertion is the compact serialization,
    by a signer for the algorithm [RS256] with that key and with the
    headers [typ=JWT] and [kid=] the client id, of exactly the claims
    [aud], [nbf], [iat], [exp], [iss], [scope]; the flow posts once, to the
    token endpoint, the form with that assertion and the grant type
    [jwt-bearer]. *)
Theorem DoTwoLeggedAuthorization_assertion o issuer block priv raw :
  pem_Decode L (clientSecret o) = Some block →
  x509_ParsePKCS8PrivateKey L block = OK priv →
  - 2 ^ 63 ≤ time_Now_Unix W < 2 ^ 63 - 3600 →
  let now := time_Now_Unix W in
  let key := {| Algorithm := "RS256"; Key := priv |} in
  let so := {| ExtraHeaders := list_to_map [("kid", clientID o); ("typ", "JWT")] |} in
  let c : gmap string claim :=
    list_to_map [("aud", ClaimString (tokenEndpoint o));
                 ("nbf", ClaimInt now);
                 ("iat", ClaimInt now);
                 ("exp", ClaimInt (now + 3600));
                 ("iss", ClaimString issuer);
                 ("scope", ClaimString (scope o))] in
  jose_NewSigner L key so = None →
  jose_CompactSerialize L {| signer_key := key; signer_opts := so |} c = OK raw →
  trace (DoTwoLeggedAuthorization L W o issuer)
  = [Ev_PostForm (tokenEndpoint o)
       (list_to_map [("assertion", [raw]);
                     ("grant_type", ["urn:ietf:params:oauth:grant-type:jwt-bearer"])])].
Proof.
  intros Hpem Hkey Hnow. cbv zeta. intros Hsigner Hraw.
  unfold DoTwoLeggedAuthorization, sign_claims.
  rewrite Hpem, Hkey.
  assert (Hso : signer_options o
                = {| ExtraHeaders := list_to_map [("kid", clientID o); ("typ", "JWT")] |})
    by reflexivity.
  assert (Hc : two_legged_claims o issuer (wrap_int (time_Now_Unix W))
               = list_to_map [("aud", ClaimString (tokenEndpoint o));
                              ("nbf", ClaimInt (time_Now_Unix W));
                              ("iat", ClaimInt (time_Now_Unix W));
                              ("exp", ClaimInt (time_Now_Unix W + 3600));
                              ("iss", ClaimString issuer);
                              ("scope", ClaimString (scope o))]).
  { unfold two_legged_claims, int_add.
    rewrite (wrap_int_small (time_Now_Unix W)) by lia.
    by rewrite (wrap_int_small (time_Now_Unix W + 3600)) by lia. }
  rewrite Hso, Hc, Hsigner, Hraw. cbv zeta.
  destruct (http_PostForm W _ _) as [body|err]; [|done].
  by destruct (decode_token L body).
Qed.

End TwoLegged.

(** C8 in the demonstration world, for the key of the service account. *)
Lemma DoTwoLeggedAuthorization_assertion_witness :
  pem_Decode Demo.lib (clientSecret (Demo.session false)) = Some "secret-1" ∧
  x509_ParsePKCS8PrivateKey Demo.lib "secret-1" = OK "secret-1" ∧
  posts_made (trace (DoTwoLeggedAuthorization Demo.lib (Demo.world "" "" [])
                       (Demo.session false) "svc@example.iam"))
  = [("https://idp.example/token",
      list_to_map [("assertion", ["header.claims.signature"]);
                   ("grant_type", ["urn:ietf:params:oauth:grant-type:jwt-bearer"])])].
Proof.
  split; [reflexivity|]. split; [reflexivity|].
  rewrite (DoTwoLeggedAuthorization_assertion Demo.lib (Demo.world "" "" [])
             (Demo.session false) "svc@example.iam" "secret-1" "secret-1"
             "header.claims.signature" eq_refl eq_refl
             ltac:(vm_compute; split; [discriminate | reflexivity])
             eq_refl eq_refl).
  reflexivity.
Defined.

(** ** The loopback flow *)

Section Loopback.

Variable L : Lib.
Variable W : World.

Implicit Types (o : oauth) (reqs : list (Z * Request)).

Lemma trace_bind {A B} (m : Go A) (k : A → Go B) a :
  value m = Done a → trace (bind m k) = trace m ++ trace (k a).
Proof. destruct m as [tr [a'|v|]]; [|done..]. intros [= ->]. simpl. by destruct (k a). Qed.

Lemma value_bind {A B} (m : Go A) (k : A → Go B) a :
  value m = Done a → value (bind m k) = value (k a).
Proof. destruct m as [tr [a'|v|]]; [|done..]. intros [= ->]. simpl. by destruct (k a). Qed.

(** When no request served before the timer fires sends anything, the
    wait ends with the timeout error. *)
Lemma await_timeout o d reqs :
  Forall (λ tq, tq.1 < d → first_send (trace (ServeHTTP L W o tq.2)) = None) reqs →
  value (await L W o d reqs) = Done (Error timeout_error).
Proof.
  induction 1 as [|[t req] reqs Hreq _ IH]; [done|].
  cbn [await]. destruct (Z.leb_spec d t) as [|Hlt]; [done|].
  simpl in Hreq. by rewrite (Hreq Hlt).
Qed.

(** The server that [NewServer] returns has been started. *)
Lemma NewServer_started o srv :
  value (NewServer L W o) = Done (OK srv) →
  Ev_ServerStart (srv_Addr srv) ∈ trace (NewServer L W o).
Proof.
  unfold NewServer. case_bool_decide.
  - destruct (httptest_NewServer W); [|done]. intros [= <-]. set_solver.
  - destruct (net_SplitHostPort L _) as [[host port]|]; [|done].
    destruct (net_Listen W _) as [addr|]; [|done].
    case_bool_decide.
    + destruct (net_SplitHostPort L addr) as [[? p]|]; [|done].
      intros [= <-]. set_solver.
    + intros [= <-]. set_solver.
Qed.

(** The wait always ends with a value. *)
Lemma await_done o d reqs : ∃ r, value (await L W o d reqs) = Done r.
Proof.
  induction reqs as [|[t req] reqs [r IH]]; [by eexists|].
  cbn [await]. destruct (d <=? t); [by eexists|].
  destruct (first_send _); [by eexists|]. by exists r.
Qed.

(** The requests that the wait leaves are among those it was given. *)
Lemma outstanding_suffix o d reqs : outstanding L W o d reqs `suffix_of` reqs.
Proof.
  induction reqs as [|[t req] reqs IH]; [done|].
  cbn [outstanding]. destruct (d <=? t); [done|].
  destruct (first_send _); [by apply suffix_cons_r|by apply suffix_cons_r].
Qed.

(** When nothing served before the timer sends, a request that sends is
    left outstanding. *)
Lemma outstanding_sender o d reqs :
  Forall (λ tq, tq.1 < d → first_send (trace (ServeHTTP L W o tq.2)) = None) reqs →
  Exists (λ tq, first_send (trace (ServeHTTP L W o tq.2)) ≠ None) reqs →
  Exists (λ tq, first_send (trace (ServeHTTP L W o tq.2)) ≠ None)
         (outstanding L W o d reqs).
Proof.
  induction 1 as [|[t req] reqs Hreq _ IH]; [done|].
  intros Hsender. cbn [outstanding].
  destruct (Z.leb_spec d t) as [|Hlt]; [done|].
  cbn [fst snd] in Hreq. rewrite (Hreq Hlt).
  apply Exists_cons in Hsender as [Hhead|Htail]; [|by apply IH].
  cbn [snd] in Hhead. by destruct Hhead; apply Hreq.
Qed.

(** The outstanding requests are answered; [Close] returns when none of
    their handlers sends, and does not return when one does. *)
Lemma serve_outstanding_quiet o reqs :
  Forall (λ tq, first_send (trace (ServeHTTP L W o tq.2)) = None) reqs →
  serve_outstanding L W o reqs
  = (concat (map (λ tq, trace (ServeHTTP L W o tq.2)) reqs), Done tt).
Proof.
  induction 1 as [|[t req] reqs Hreq _ IH]; [done|].
  cbn [serve_outstanding map concat]. cbn [snd] in Hreq. by rewrite Hreq, IH.
Qed.

Lemma serve_outstanding_blocked o reqs :
  Exists (λ tq, first_send (trace (ServeHTTP L W o tq.2)) ≠ None) reqs →
  value (serve_outstanding L W o reqs) = Blocked.
Proof.
  induction 1 as [[t req] reqs Hreq|[t req] reqs _ IH]; cbn [serve_outstanding].
  - cbn [snd] in Hreq. by destruct (first_send _).
  - by destruct (first_send _).
Qed.

Lemma serve_outstanding_value o reqs :
  value (serve_outstanding L W o reqs) = Done tt ∨
  value (serve_outstanding L W o reqs) = Blocked.
Proof.
  induction reqs as [|[t req] reqs IH]; [by left|].
  cbn [serve_outstanding]. destruct (first_send _); [by right|exact IH].
Qed.

(** The loopback flow once the server runs and the authorization URL is
    built: the start of the server, the browser, lines on the error stream,
    the timer, the wait, the close of the listener, and the requests that
    are still outstanding; the flow returns what the wait ended with, if
    [Close] returns. *)
Lemma DoLoopbackAuthorization_run o srv authURL :
  value (NewServer L W o) = Done (OK srv) →
  let o' := set_redirectURI (if bool_decide (CallbackListenerURL o ≠ "")
                             then CallbackListenerURL o else srv_URL srv) o in
  Auth L o' = OK authURL →
  ∃ lines r,
    Forall (λ ev, ∃ text, ev = Ev_Stderr text) lines ∧
    value (await L W o' (2 * time_Minute) (callbacks W)) = Done r ∧
    trace (DoLoopbackAuthorization L W o)
    = trace (NewServer L W o) ++
      Ev_OpenInBrowser authURL (browser o) :: lines ++
      Ev_After (2 * time_Minute) ::
      trace (await L W o' (2 * time_Minute) (callbacks W)) ++
      Ev_ServerClose (srv_Addr srv) ::
      trace (serve_outstanding L W o'
               (outstanding L W o' (2 * time_Minute) (callbacks W))) ∧
    value (DoLoopbackAuthorization L W o)
    = match value (serve_outstanding L W o'
                     (outstanding L W o' (2 * time_Minute) (callbacks W))) with
      | Done _ => Done r
      | Panicked v => Panicked v
      | Blocked => Blocked
      end.
Proof.
  intros Hsrv. cbv zeta.
  assert (Ho : (if bool_decide (CallbackListenerURL o ≠ "")
                then set_redirectURI (CallbackListenerURL o) o
                else set_redirectURI (srv_URL srv) o)
               = set_redirectURI (if bool_decide (CallbackListenerURL o ≠ "")
                                  then CallbackListenerURL o else srv_URL srv) o)
    by (by case_bool_decide).
  intros Hauth. unfold DoLoopbackAuthorization.
  rewrite (trace_bind _ _ _ Hsrv), (value_bind _ _ _ Hsrv). cbv zeta.
  rewrite Ho, Hauth. unfold Server_Close.
  destruct (await_done (set_redirectURI (if bool_decide (CallbackListenerURL o ≠ "")
                                         then CallbackListenerURL o else srv_URL srv) o)
              (2 * time_Minute) (callbacks W)) as [r Hr].
  destruct (await L W _ _ _) as [tr_wait r_wait]. cbn [value snd] in Hr. subst r_wait.
  destruct (serve_outstanding L W _ _) as [tr_close r_close].
  destruct (exec_OpenInBrowser W authURL _).
  - eexists [_; _; _; _; _; _], r. split; [repeat constructor; by eexists|].
    split; [done|]. destruct r_close as [[]|v|]; cbn; by rewrite <- ?app_assoc.
  - eexists [_; _; _; _], r. split; [repeat constructor; by eexists|].
    split; [done|]. destruct r_close as [[]|v|]; cbn; by rewrite <- ?app_assoc.
Qed.

(** The listener is closed on every way out of the flow that follows the
    start of the server. *)
Lemma DoLoopbackAuthorization_closes o srv :
  value (NewServer L W o) = Done (OK srv) →
  Ev_ServerStart (srv_Addr srv) ∈ trace (DoLoopbackAuthorization L W o) ∧
  Ev_ServerClose (srv_Addr srv) ∈ trace (DoLoopbackAuthorization L W o).
Proof.
  intros Hsrv.
  destruct (Auth L (set_redirectURI (if bool_decide (CallbackListenerURL o ≠ "")
                                     then CallbackListenerURL o else srv_URL srv) o))
    as [authURL|err] eqn:Hauth.
  - destruct (DoLoopbackAuthorization_run o srv authURL Hsrv Hauth)
      as (lines & r & _ & _ & -> & _).
    split; [apply elem_of_app; left; by apply NewServer_started|].
    apply elem_of_app. right. apply list_elem_of_further.
    apply elem_of_app. right. apply list_elem_of_further.
    apply elem_of_app. right. apply list_elem_of_here.
  - unfold DoLoopbackAuthorization.
    rewrite (trace_bind _ _ _ Hsrv). cbv zeta.
    replace (if bool_decide (CallbackListenerURL o ≠ "")
             then set_redirectURI (CallbackListenerURL o) o
             else set_redirectURI (srv_URL srv) o)
      with (set_redirectURI (if bool_decide (CallbackListenerURL o ≠ "")
                             then CallbackListenerURL o else srv_URL srv) o)
      by (by case_bool_decide).
    rewrite Hauth. unfold Server_Close.
    destruct (serve_outstanding L W _ _) as [tr_close r_close].
    split; [apply elem_of_app; left; by apply NewServer_started|].
    apply elem_of_app. right.
    destruct r_close as [[]|v|]; cbn; apply list_elem_of_here.
Qed.

(** What the flow returns, when it returns, is an error of [Auth] or what
    the wait ended with. *)
Lemma DoLoopbackAuthorization_returned o srv r :
  value (NewServer L W o) = Done (OK srv) →
  let o' := set_redirectURI (if bool_decide (CallbackListenerURL o ≠ "")
                             then CallbackListenerURL o else srv_URL srv) o in
  value (DoLoopbackAuthorization L W o) = Done r →
  (∃ err, Auth L o' = Error err ∧ r = Error err) ∨
  (∃ authURL, Auth L o' = OK authURL ∧
              value (await L W o' (2 * time_Minute) (callbacks W)) = Done r).
Proof.
  intros Hsrv. cbv zeta.
  destruct (Auth L (set_redirectURI (if bool_decide (CallbackListenerURL o ≠ "")
                                     then CallbackListenerURL o else srv_URL srv) o))
    as [authURL|err] eqn:Hauth.
  - destruct (DoLoopbackAuthorization_run o srv authURL Hsrv Hauth)
      as (lines & r' & _ & Hr & _ & ->).
    intros Hvalue. right. exists authURL. split; [done|].
    rewrite Hr. by destruct (value (serve_outstanding L W _ _)).
  - unfold DoLoopbackAuthorization.
    rewrite (value_bind _ _ _ Hsrv). cbv zeta.
    replace (if bool_decide (CallbackListenerURL o ≠ "")
             then set_redirectURI (CallbackListenerURL o) o
             else set_redirectURI (srv_URL srv) o)
      with (set_redirectURI (if bool_decide (CallbackListenerURL o ≠ "")
                             then CallbackListenerURL o else srv_URL srv) o)
      by (by case_bool_decide).
    rewrite Hauth. unfold Server_Close.
    destruct (serve_outstanding L W _ _) as [tr_close r_close].
    destruct r_close as [[]|v|]; cbn; [|done..].
    intros [= <-]. left. by exists err.
Qed.

(** C7: once the callback server runs, every way out of
    [DoLoopbackAuthorization] closes the listener that was started.  When the
    authorization URL is built and no request served within 2 minutes
    (120000000000 ns) of entering the wait sends on the token or the error
    channel, the timer of that duration fires and the listener is closed.
    The flow then returns the timeout error and no token when no request
    that has reached the server sends at all.  When one does (it is in
    flight when the timer fires), the deferred [srv.Close()] waits for its
    handler, which stays blocked in its send: the flow never returns. *)
Theorem DoLoopbackAuthorization_timeout o srv :
  value (NewServer L W o) = Done (OK srv) →
  let o' := set_redirectURI (if bool_decide (CallbackListenerURL o ≠ "")
                             then CallbackListenerURL o else srv_URL srv) o in
  let r := DoLoopbackAuthorization L W o in
  Ev_ServerStart (srv_Addr srv) ∈ trace r ∧
  Ev_ServerClose (srv_Addr srv) ∈ trace r ∧
  (∀ authURL, Auth L o' = OK authURL →
     Forall (λ tq, tq.1 < 120000000000 →
                   first_send (trace (ServeHTTP L W o' tq.2)) = None)
            (callbacks W) →
     Ev_After 120000000000 ∈ trace r ∧
     (Forall (λ tq, first_send (trace (ServeHTTP L W o' tq.2)) = None) (callbacks W) →
        value r = Done (Error (errors_New "oauth command timed out, please try again"))) ∧
     (Exists (λ tq, first_send (trace (ServeHTTP L W o' tq.2)) ≠ None) (callbacks W) →
        value r = Blocked)).
Proof.
  intros Hsrv. cbv zeta.
  destruct (DoLoopbackAuthorization_closes o srv Hsrv) as [Hstart Hclose].
  split; [exact Hstart|]. split; [exact Hclose|].
  intros authURL Hauth Hquiet.
  destruct (DoLoopbackAuthorization_run o srv authURL Hsrv Hauth)
    as (lines & r & _ & Hr & Htrace & Hvalue).
  change (2 * time_Minute) with 120000000000 in *.
  rewrite (await_timeout _ _ _ Hquiet) in Hr. injection Hr as <-.
  split; [|split].
  - rewrite Htrace. apply elem_of_app. right. apply list_elem_of_further.
    apply elem_of_app. right. apply list_elem_of_here.
  - intros Hsilent. rewrite Hvalue, serve_outstanding_quiet; [done|].
    destruct (outstanding_suffix
                (set_redirectURI (if bool_decide (CallbackListenerURL o ≠ "")
                                  then CallbackListenerURL o else srv_URL srv) o)
                120000000000 (callbacks W)) as [served Hserved].
    rewrite Hserved in Hsilent. by apply Forall_app in Hsilent as [_ ?].
  - intros Hsender. rewrite Hvalue, serve_outstanding_blocked; [done|].
    by apply outstanding_sender.
Qed.

End Loopback.

(** C7 where the code fails it: a valid callback that has reached the
    server is handled when the two minutes have just expired.  Its token
    request is made, and the flow does not return. *)
Lemma DoLoopbackAuthorization_timeout_witness :
  value (NewServer Demo.lib (Demo.world "" "token" [(120000000001, Demo.callback_valid)])
           (Demo.session false))
    = Done (OK Demo.server) ∧
  first_send (trace (ServeHTTP Demo.lib
                       (Demo.world "" "token" [(120000000001, Demo.callback_valid)])
                       (Demo.session false) Demo.callback_valid))
    = Some (OK Demo.good_token) ∧
  Ev_ServerClose "127.0.0.1:34567"
    ∈ trace (DoLoopbackAuthorization Demo.lib
               (Demo.world "" "token" [(120000000001, Demo.callback_valid)])
               (Demo.session false)) ∧
  value (DoLoopbackAuthorization Demo.lib
           (Demo.world "" "token" [(120000000001, Demo.callback_valid)])
           (Demo.session false))
    = Blocked.
Proof.
  split; [reflexivity|]. split; [reflexivity|].
  destruct (DoLoopbackAuthorization_timeout Demo.lib
              (Demo.world "" "token" [(120000000001, Demo.callback_valid)])
              (Demo.session false) Demo.server eq_refl) as (_ & Hclose & Htimeout).
  split; [exact Hclose|].
  refine (proj2 (proj2 (Htimeout _ eq_refl _)) _).
  - constructor; [|constructor]. intros Hlt. exfalso. revert Hlt. by vm_compute.
  - apply Exists_cons_hd. vm_compute. discriminate.
Defined.

(** ** Configuration: discovery *)

Section Discovery.

Variable L : Lib.
Variable W : World.

(** C6, amended: for a provider other than [google] and no explicit
    endpoints, once the three random values are drawn and the provider
    parses as a URL, [newOauth] makes one request, a GET of the provider URL
    with [/.well-known/openid-configuration] joined to its path unless the
    path contains it already.  When the decoded document lacks
    [authorization_endpoint] or [token_endpoint], [newOauth] fails with an
    error; when both are strings, the session has exactly these as its
    authorization and token endpoints. *)
Theorem newOauth_discovery provider_ clientID_ clientSecret_ scope_ prompt_ opts
                           state_ challenge nonce_ u :
  provider_ ≠ "google" →
  randutil_Alphanumeric W 32 = OK state_ →
  randutil_Alphanumeric W 64 = OK challenge →
  randutil_Hex W 64 = OK nonce_ →
  url_Parse L provider_ = OK u →
  let target :=
    url_String L
      (if strings_Contains (Path u) "/.well-known/openid-configuration" then u
       else set_Path (path_Join L (Path u) "/.well-known/openid-configuration") u) in
  let r := newOauth L W provider_ clientID_ clientSecret_ "" "" scope_ prompt_ opts in
  trace r = [Ev_HttpGet target] ∧
  ∀ b d, http_Get W target = OK (OK b) → json_Unmarshal L b = OK d →
    (d !! "authorization_endpoint" = None ∨ d !! "token_endpoint" = None →
       ∃ e, value r = Done (Error e)) ∧
    (∀ a t, d !! "authorization_endpoint" = Some (JString a) →
            d !! "token_endpoint" = Some (JString t) →
       ∃ o, value r = Done (OK o) ∧ authzEndpoint o = a ∧ tokenEndpoint o = t).
Proof.
  intros Hprov Hstate Hchallenge Hnonce Hu. cbv zeta.
  unfold newOauth. rewrite Hstate, Hchallenge, Hnonce.
  rewrite (bool_decide_eq_false_2 _ Hprov).
  rewrite !bool_decide_eq_true_2 by done. cbn [andb].
  unfold disco. rewrite Hu.
  destruct (strings_Contains (Path u) _); cbn [negb];
    (split;
     [ destruct (http_Get W _) as [[b|?]|?]; [|done..];
       destruct (json_Unmarshal L b) as [d|?]; [|done];
       simpl;
       destruct (d !! "authorization_endpoint") as [[]|]; try done;
       destruct (d !! "token_endpoint") as [[]|]; done
     | intros b d Hget Hd; rewrite Hget, Hd; simpl; split;
       [ intros [-> | Htok];
         [ eauto
         | destruct (d !! "authorization_endpoint"); rewrite ?Htok; eauto ]
       | intros a t -> ->; simpl; eauto ] ]).
Qed.

(** The state, the verifier and the nonce of a session are the values
    that [randutil] generated. *)
Lemma newOauth_generated provider_ clientID_ clientSecret_ authzEp tokenEp scope_ prompt_
                         opts o :
  value (newOauth L W provider_ clientID_ clientSecret_ authzEp tokenEp scope_ prompt_ opts)
    = Done (OK o) →
  randutil_Alphanumeric W 32 = OK (state o) ∧
  randutil_Alphanumeric W 64 = OK (codeChallenge o) ∧
  randutil_Hex W 64 = OK (nonce o).
Proof.
  unfold newOauth.
  destruct (randutil_Alphanumeric W 32) as [state_|]; [|done].
  destruct (randutil_Alphanumeric W 64) as [challenge|]; [|done].
  destruct (randutil_Hex W 64) as [nonce_|]; [|done].
  case_bool_decide; [by intros [= <-]|].
  destruct (_ && _); [|by intros [= <-]].
  destruct (disco L W provider_) as [tr [[d|]| |]]; [|done..].
  cbn. destruct (d !! "authorization_endpoint") as [[]|]; try done;
    destruct (d !! "token_endpoint") as [[]|]; try done.
  by intros [= <-].
Qed.

End Discovery.

(** C6, amended, on the discovery document of the scenario. *)
Lemma newOauth_discovery_witness :
  "https://idp.example" ≠ "google" ∧
  json_Unmarshal Demo.lib "discovery"
    = OK (<["authorization_endpoint" := JString "https://idp.example/authorize"]>
         (<["token_endpoint" := JString "https://idp.example/token"]> ∅)) ∧
  posts_made (trace (newOauth Demo.lib (Demo.world "discovery" "" []) "https://idp.example"
                       "client-1" "secret-1" "" "" "openid email" "" Demo.opts)) = [] ∧
  trace (newOauth Demo.lib (Demo.world "discovery" "" []) "https://idp.example"
           "client-1" "secret-1" "" "" "openid email" "" Demo.opts)
    = [Ev_HttpGet "https://idp.example/.well-known/openid-configuration"] ∧
  ∃ o, value (newOauth Demo.lib (Demo.world "discovery" "" []) "https://idp.example"
                "client-1" "secret-1" "" "" "openid email" "" Demo.opts) = Done (OK o) ∧
       authzEndpoint o = "https://idp.example/authorize" ∧
       tokenEndpoint o = "https://idp.example/token".
Proof.
  split; [discriminate|]. split; [reflexivity|]. split; [reflexivity|].
  destruct (newOauth_discovery Demo.lib (Demo.world "discovery" "" [])
              "https://idp.example" "client-1" "secret-1" "openid email" "" Demo.opts
              "STATE" "VERIFIER" "0a1b" (Url "https" "https://idp.example" "" "" "")
              ltac:(discriminate) eq_refl eq_refl eq_refl eq_refl) as [Hget Hdoc].
  split; [exact Hget|].
  destruct (Hdoc "discovery" _ eq_refl eq_refl) as [_ Hset].
  exact (Hset _ _ eq_refl eq_refl).
Defined.

(** C6 as stated fails on a document that has both keys but not as
    strings: with [authorization_endpoint] a number the type assertion
    panics, and no session is built. *)
Lemma newOauth_discovery_counterexample :
  json_Unmarshal Demo.lib "discovery-number"
    = OK (<["authorization_endpoint" := JNumber "1"]>
         (<["token_endpoint" := JString "https://idp.example/token"]> ∅)) ∧
  newOauth Demo.lib (Demo.world "discovery-number" "" []) "https://idp.example"
    "client-1" "secret-1" "" "" "openid email" "" Demo.opts
  = ([Ev_HttpGet "https://idp.example/.well-known/openid-configuration"],
     Panicked "interface conversion: interface {} is not string").
Proof. split; reflexivity. Qed.

(** ** Configuration: the account file *)

Section Account.

Variable L : Lib.
Variable W : World.

Implicit Types (c : Context) (l : locals) (account : gmap string json).

(** A type assertion to [string] succeeds exactly on a string. *)
Lemma assert_string_field (m : gmap string json) k :
  assert_string (m !! k) =
  match string_field m k with
  | Some s => ret s
  | None => panic "interface conversion: interface {} is not string"
  end.
Proof. unfold assert_string, string_field. by destruct (m !! k) as [[]|]. Qed.

(** A panic of the account stage is a panic of the command. *)
Lemma oauthCmd_account_panic c opts ids l v :
  oauthCmd_options L c = Continue opts →
  oauthCmd_client L c opts = Continue ids →
  oauthCmd_endpoints c opts ids = Continue l →
  value (oauthCmd_account L W c l) = Panicked v →
  value (oauthCmd L W c) = Panicked v.
Proof.
  intros Hopts Hclient Hends Hpanic. unfold oauthCmd.
  rewrite Hopts, Hclient, Hends.
  destruct (oauthCmd_account L W c l) as [tr [a|v'|]]; [done| |done].
  simpl in *. congruence.
Qed.

(** C5, evaluated: when the account file decodes to an object that has
    no [installed] key and whose [type] is not the string
    [service_account], the command reads the file and returns [nil]: the
    wrapped error is the [nil] left by [json.Unmarshal], so no error comes
    out, and no flow is run. *)
Theorem oauthCmd_unsupported_account c opts ids l b account :
  oauthCmd_options L c = Continue opts →
  oauthCmd_client L c opts = Continue ids →
  oauthCmd_endpoints c opts ids = Continue l →
  c_IsSet c "account" = true →
  ioutil_ReadFile W (c_String c "account") = OK b →
  json_Unmarshal L b = OK account →
  account !! "installed" = None →
  account !! "type" ≠ Some (JString "service_account") →
  oauthCmd L W c = ([Ev_ReadFile (c_String c "account")], Done None).
Proof.
  intros Hopts Hclient Hends Hset Hfile Hjson Hinst Htype.
  unfold oauthCmd. rewrite Hopts, Hclient, Hends.
  unfold oauthCmd_account. rewrite Hset, Hfile, Hjson, Hinst.
  destruct (account !! "type") as [[| | |s| |]|]; try done.
  simpl. rewrite bool_decide_eq_false_2; [done|congruence].
Qed.

(** C10: an account file with an [installed] key passes the account
    stage exactly when [installed] is an object whose [auth_uri],
    [token_uri], [client_id] and [client_secret] are strings, which become
    the endpoints and the client credentials; otherwise the stage panics in
    a type assertion, and so does the command: no error is returned.
    Likewise, without [installed] and with [type] the string
    [service_account], for [auth_uri], [token_uri], [private_key_id],
    [private_key] and [client_email]. *)
Theorem oauthCmd_account_type_assertions c l b account :
  c_IsSet c "account" = true →
  ioutil_ReadFile W (c_String c "account") = OK b →
  json_Unmarshal L b = OK account →
  let r := value (oauthCmd_account L W c l) in
  let installed_strings details :=
    match string_field details "auth_uri", string_field details "token_uri",
          string_field details "client_id", string_field details "client_secret" with
    | Some authzEp, Some tokenEp, Some id, Some secret =>
        Some (Locals (set_Provider "" (l_opts l)) id secret authzEp tokenEp
                (l_do2lo l) (l_issuer l))
    | _, _, _, _ => None
    end in
  let service_strings :=
    match string_field account "auth_uri", string_field account "token_uri",
          string_field account "private_key_id", string_field account "private_key",
          string_field account "client_email" with
    | Some authzEp, Some tokenEp, Some id, Some key, Some email =>
        Some (Locals (set_Provider "" (l_opts l)) id key authzEp tokenEp true email)
    | _, _, _, _, _ => None
    end in
  (∀ v, r = Panicked v →
     ∀ opts ids, oauthCmd_options L c = Continue opts →
                 oauthCmd_client L c opts = Continue ids →
                 oauthCmd_endpoints c opts ids = Continue l →
     value (oauthCmd L W c) = Panicked v) ∧
  (∀ installed, account !! "installed" = Some installed →
     match installed with
     | JObject details =>
         match installed_strings details with
         | Some l' => r = Done (Continue l')
         | None => ∃ v, r = Panicked v
         end
     | _ => ∃ v, r = Panicked v
     end) ∧
  (account !! "installed" = None →
   account !! "type" = Some (JString "service_account") →
     match service_strings with
     | Some l' => r = Done (Continue l')
     | None => ∃ v, r = Panicked v
     end).
Proof.
  intros Hset Hfile Hjson. cbv zeta. split; [|split].
  - intros v Hpanic opts ids Hopts Hclient Hends.
    by apply (oauthCmd_account_panic c opts ids l).
  - intros installed Hinst.
    unfold oauthCmd_account. rewrite Hset, Hfile, Hjson, Hinst.
    destruct installed as [| | | | |details]; simpl; eauto.
    rewrite !assert_string_field.
    destruct (string_field details "auth_uri"); simpl; eauto.
    destruct (string_field details "token_uri"); simpl; eauto.
    destruct (string_field details "client_id"); simpl; eauto.
    destruct (string_field details "client_secret"); simpl; eauto.
  - intros Hinst Htype.
    unfold oauthCmd_account. rewrite Hset, Hfile, Hjson, Hinst, Htype.
    rewrite !assert_string_field.
    destruct (string_field account "auth_uri"); simpl; eauto.
    destruct (string_field account "token_uri"); simpl; eauto.
    destruct (string_field account "private_key_id"); simpl; eauto.
    destruct (string_field account "private_key"); simpl; eauto.
    destruct (string_field account "client_email"); simpl; eauto.
Qed.

End Account.

(** C5 at an account file of type [authorized_user]. *)
Lemma oauthCmd_unsupported_account_witness :
  c_IsSet Demo.account_context "account" = true ∧
  json_Unmarshal Demo.lib "user-account" = OK (<["type" := JString "authorized_user"]> ∅) ∧
  oauthCmd Demo.lib (Demo.world "user-account" "" []) Demo.account_context
  = ([Ev_ReadFile "sa.json"], Done None).
Proof.
  split; [reflexivity|]. split; [reflexivity|].
  refine (oauthCmd_unsupported_account Demo.lib (Demo.world "user-account" "" [])
            Demo.account_context _ _ _ "user-account" _
            eq_refl eq_refl eq_refl eq_refl eq_refl eq_refl eq_refl _).
  vm_compute. discriminate.
Defined.

(** C10 at an [installed] object without [client_secret]: the stage, and
    the command, panic. *)
Lemma oauthCmd_account_type_assertions_witness :
  c_IsSet Demo.account_context "account" = true ∧
  json_Unmarshal Demo.lib "installed-no-secret"
    = OK (<["installed" := JObject
              (<["auth_uri" := JString "https://idp.example/auth"]>
              (<["token_uri" := JString "https://idp.example/token"]>
              (<["client_id" := JString "id-1"]> ∅)))]> ∅) ∧
  ∃ v, value (oauthCmd Demo.lib (Demo.world "installed-no-secret" "" [])
                Demo.account_context) = Panicked v.
Proof.
  split; [reflexivity|]. split; [reflexivity|].
  destruct (oauthCmd_account_type_assertions Demo.lib
              (Demo.world "installed-no-secret" "" []) Demo.account_context
              (Locals (set_Provider "google" Demo.opts) defaultClientID
                 defaultClientNotSoSecret "" "" false "")
              "installed-no-secret" _ eq_refl eq_refl eq_refl)
    as (Hcmd & Hinstalled & _).
  destruct (Hinstalled _ eq_refl) as [v Hv].
  exists v. exact (Hcmd v Hv _ _ eq_refl eq_refl eq_refl).
Defined.

(** ** Provider errors in the token response *)

Section ProviderErrors.

Variable L : Lib.
Variable W : World.

Implicit Types (o : oauth) (req : Request) (tok : token).

Lemma provider_error_test tok :
  bool_decide (Err tok ≠ "") || bool_decide (ErrDesc tok ≠ "") = false →
  Err tok = "" ∧ ErrDesc tok = "".
Proof.
  intros [H1 H2]%orb_false_elim.
  apply bool_decide_eq_false in H1, H2.
  split; [by destruct (decide (Err tok = ""))|by destruct (decide (ErrDesc tok = ""))].
Qed.

(** The token that [implicitHandler] sends carries no error. *)
Lemma implicitHandler_token_checked o req tok :
  tok ∈ tokens_sent (trace (implicitHandler o req)) → Err tok = "" ∧ ErrDesc tok = "".
Proof.
  unfold implicitHandler.
  repeat match goal with
  | |- context [if ?b then _ else _] => destruct b
  end; cbn; try (by intros ?%elem_of_nil); by intros ->%list_elem_of_singleton.
Qed.

(** The handler sends a token only after the test of cmd.go:820. *)
Lemma ServeHTTP_token_checked o req tok :
  tok ∈ tokens_sent (trace (ServeHTTP L W o req)) → Err tok = "" ∧ ErrDesc tok = "".
Proof.
  unfold ServeHTTP.
  destruct (bool_decide (req_Path req ≠ _)); [by intros ?%elem_of_nil|].
  destruct (bool_decide (Values.Get _ "error" ≠ _)); [by intros ?%elem_of_nil|].
  destruct (implicit o); [apply implicitHandler_token_checked|].
  destruct (_ || _); [by intros ?%elem_of_nil|].
  destruct (bool_decide _); [by intros ?%elem_of_nil|].
  destruct (_ || _); [by intros ?%elem_of_nil|].
  unfold Exchange.
  destruct (http_PostForm W _ _) as [body|?]; [|by intros ?%elem_of_nil].
  destruct (decode_token L body) as [tok'|?]; [|by intros ?%elem_of_nil].
  cbn. destruct (_ || _) eqn:Htest; [by intros ?%elem_of_nil|].
  apply provider_error_test in Htest.
  destruct (bool_decide _); cbn; by intros ->%list_elem_of_singleton.
Qed.

(** Loopback flow: a token that comes out of the wait carries no error. *)
Lemma await_token_checked o d reqs tok :
  value (await L W o d reqs) = Done (OK tok) → Err tok = "" ∧ ErrDesc tok = "".
Proof.
  induction reqs as [|[t req] reqs IH]; [done|].
  cbn [await]. destruct (d <=? t); [done|].
  destruct (first_send _) as [[tok'|e]|] eqn:Hsend; [| done | exact IH].
  intros [= ->]. apply first_send_token in Hsend.
  by apply ServeHTTP_token_checked in Hsend.
Qed.

Lemma DoLoopbackAuthorization_token_checked o tok :
  value (DoLoopbackAuthorization L W o) = Done (OK tok) →
  Err tok = "" ∧ ErrDesc tok = "".
Proof.
  destruct (value (NewServer L W o)) as [[srv|e]|v|] eqn:Hsrv.
  - intros Hvalue.
    destruct (DoLoopbackAuthorization_returned L W o srv (OK tok) Hsrv Hvalue)
      as [(err & _ & [=])|(authURL & _ & Hwait)].
    by eapply await_token_checked.
  - unfold DoLoopbackAuthorization. by rewrite (value_bind _ _ _ Hsrv).
  - unfold DoLoopbackAuthorization.
    destruct (NewServer L W o) as [tr0 r0]. cbn in Hsrv. by subst r0.
  - unfold DoLoopbackAuthorization.
    destruct (NewServer L W o) as [tr0 r0]. cbn in Hsrv. by subst r0.
Qed.

(** Manual flow: the test of cmd.go:662. *)
Lemma DoManualAuthorization_token_checked o tok :
  value (DoManualAuthorization L W o) = Done (OK tok) →
  Err tok = "" ∧ ErrDesc tok = "".
Proof.
  unfold DoManualAuthorization, Exchange.
  destruct (Auth L _); [|done]. cbn.
  destruct (utils_ReadString W); [|done].
  destruct (http_PostForm W _ _) as [body|?]; [|done].
  destruct (decode_token L body) as [tok'|?]; [|done].
  cbn. destruct (_ || _) eqn:Htest; [done|].
  intros [= <-]. by apply provider_error_test.
Qed.

(** Self-signed JWT: the token is built with empty error fields. *)
Lemma DoJWTAuthorization_token_checked o issuer aud tok :
  value (DoJWTAuthorization L W o issuer aud) = Done (OK tok) →
  Err tok = "" ∧ ErrDesc tok = "".
Proof.
  unfold DoJWTAuthorization. destruct (sign_claims L o _); [|done].
  by intros [= <-].
Qed.

(** Two-legged flow: whatever token the response decodes to is returned,
    error fields included; cmd.go:723-728 has no test of them. *)
Lemma DoTwoLeggedAuthorization_returns_decoded o issuer raw body tok :
  sign_claims L o (two_legged_claims o issuer (wrap_int (time_Now_Unix W))) = OK raw →
  http_PostForm W (tokenEndpoint o) (two_legged_params raw) = OK body →
  decode_token L body = OK tok →
  value (DoTwoLeggedAuthorization L W o issuer) = Done (OK tok).
Proof.
  intros Hraw Hpost Htok. unfold DoTwoLeggedAuthorization.
  by rewrite Hraw; cbn; rewrite Hpost, Htok.
Qed.

End ProviderErrors.

(** C1, evaluated: [step oauth --account sa.json] with a service account,
    when the token endpoint answers the assertion with a body that decodes to
    a token with [error = invalid_grant].  The command prints the token and
    returns [nil]. *)
Theorem oauthCmd_two_legged_provider_error :
  decode_token Demo.lib (OK "invalid-grant")
    = OK (Token "" "" "" 0 "" "invalid_grant" "Invalid JWT Signature.") ∧
  oauthCmd Demo.lib (Demo.world "service-account" "invalid-grant" []) Demo.account_context
  = ([Ev_ReadFile "sa.json";
      Ev_PostForm "https://idp.example/token"
        (list_to_map [("assertion", ["header.claims.signature"]);
                      ("grant_type", ["urn:ietf:params:oauth:grant-type:jwt-bearer"])]);
      Ev_Stdout ("access_token= error=invalid_grant" +:+ nl)],
     Done None).
Proof. split; vm_compute; reflexivity. Qed.

(** * Further properties of the command *)

(** ** The callback handler, request by request *)

Section HandlerAnswers.

Variable L : Lib.
Variable W : World.

Implicit Types (o : oauth) (req : Request).

(** Every run of [ServeHTTP] is one of the answers of [answered]. *)
Lemma ServeHTTP_answered o req : answered o req (trace (ServeHTTP L W o req)).
Proof.
  unfold ServeHTTP.
  destruct (decide (req_Path req = CallbackPath o)) as [Hpath|Hpath].
  2: { rewrite (bool_decide_eq_true_2 _ Hpath). by constructor. }
  rewrite (bool_decide_eq_false_2 (_ ≠ _)) by (intros Hd; exact (Hd Hpath)).
  destruct (decide (Values.Get (req_Query req) "error" = "")) as [Herr|Herr].
  2: { rewrite (bool_decide_eq_true_2 _ Herr).
       apply (answered_rejected o req []); [done|by left]. }
  rewrite (bool_decide_eq_false_2 (_ ≠ _)) by (intros Hd; exact (Hd Herr)).
  destruct (implicit o) eqn:Himpl.
  - unfold implicitHandler.
    destruct (decide (Values.Get (req_Query req) "urlhash" = "true")) as [Hh|Hh].
    2: { rewrite (bool_decide_eq_false_2 _ Hh).
         by apply (answered_unsent o req _ 200); [|reflexivity|right|reflexivity|reflexivity]. }
    rewrite (bool_decide_eq_true_2 _ Hh).
    destruct (decide (Values.Get (req_Query req) "state" = "")) as [Hs|Hs].
    { rewrite (bool_decide_eq_true_2 _ Hs).
      apply (answered_rejected o req []); [done|by left]. }
    rewrite (bool_decide_eq_false_2 _ Hs).
    destruct (decide (Values.Get (req_Query req) "state" = state o)) as [Hs'|Hs'].
    2: { rewrite (bool_decide_eq_true_2 _ Hs').
         apply (answered_rejected o req []); [done|by left]. }
    rewrite (bool_decide_eq_false_2 (_ ≠ _)) by (intros Hd; exact (Hd Hs')).
    destruct (decide (Values.Get (req_Query req) "access_token" = "")) as [Ht|Ht].
    { rewrite (bool_decide_eq_true_2 _ Ht).
      apply (answered_rejected o req []); [done|by left]. }
    rewrite (bool_decide_eq_false_2 _ Ht). cbn [orb].
    set (tok := Token _ _ _ _ _ _ _).
    assert (Hdel := answered_delivered o req [] tok Hpath Herr Hs' eq_refl eq_refl
                      (or_introl (conj Himpl eq_refl))).
    revert Hdel. destruct (bool_decide (terminalRedirect o ≠ "")); intros Hdel; exact Hdel.
  - destruct (decide (Values.Get (req_Query req) "code" = "")) as [Hc|Hc].
    { rewrite (bool_decide_eq_true_2 _ Hc).
      by apply (answered_unsent o req _ 400); [|reflexivity|left|reflexivity|reflexivity]. }
    rewrite (bool_decide_eq_false_2 _ Hc).
    destruct (decide (Values.Get (req_Query req) "state" = "")) as [Hs|Hs].
    { rewrite (bool_decide_eq_true_2 _ Hs).
      by apply (answered_unsent o req _ 400); [|reflexivity|left|reflexivity|reflexivity]. }
    rewrite (bool_decide_eq_false_2 _ Hs). cbn [orb].
    destruct (decide (Values.Get (req_Query req) "state" = state o)) as [Hs'|Hs'].
    2: { rewrite (bool_decide_eq_true_2 _ Hs').
         apply (answered_rejected o req []); [done|by left]. }
    rewrite (bool_decide_eq_false_2 (_ ≠ _)) by (intros Hd; exact (Hd Hs')).
    unfold Exchange. fold (exchange_post o req).
    destruct (http_PostForm W _ _) as [body|e];
      [|by apply (answered_rejected o req [_]); [|right]].
    destruct (decode_token L body) as [tok|e];
      [|by apply (answered_rejected o req [_]); [|right]].
    cbn. destruct (decide (Err tok = "")) as [He|He].
    2: { rewrite (bool_decide_eq_true_2 _ He).
         by apply (answered_rejected o req [_]); [|right]. }
    rewrite (bool_decide_eq_false_2 (_ ≠ _)) by (intros Hd; exact (Hd He)).
    destruct (decide (ErrDesc tok = "")) as [Hd|Hd].
    2: { rewrite (bool_decide_eq_true_2 _ Hd).
         by apply (answered_rejected o req [_]); [|right]. }
    rewrite (bool_decide_eq_false_2 (_ ≠ _)) by (intros Hd'; exact (Hd' Hd)).
    cbn [orb].
    assert (Hdel := answered_delivered o req [exchange_post o req] tok Hpath Herr Hs' He Hd
                      (or_intror (conj Himpl (conj Hc eq_refl)))).
    revert Hdel. destruct (bool_decide (terminalRedirect o ≠ "")); intros Hdel; exact Hdel.
Qed.

(** The failure page ends with the send of the error. *)
Lemma trace_badRequest_snoc msg :
  ∃ page, trace (badRequest msg) = page ++ [Ev_SendErr (errors_New msg)] ∧
          first_send page = None ∧ posts_made page = [] ∧
          response_status page = Some 400.
Proof. by eexists [_; _; _; _; _; _; _]. Qed.

(** The page before the send of a token: a redirect or the success page. *)
Lemma trace_delivery_page o :
  let page := trace (if bool_decide (terminalRedirect o ≠ "")
                     then http_Redirect (terminalRedirect o) 302 else success) in
  first_send page = None ∧ posts_made page = [] ∧
  response_status page
    = Some (if bool_decide (terminalRedirect o ≠ "") then 302 else 200).
Proof. by case_bool_decide. Qed.

(** What the trace of an answer shows: its status, what it sends, what it
    requests. *)
Lemma answered_observed o req tr :
  answered o req tr →
  ∃ code sends,
    response_status tr = Some code ∧
    errors_sent tr = omap (λ r, match r with Error e => Some e | OK _ => None end) sends ∧
    tokens_sent tr = omap (λ r, match r with OK t => Some t | Error _ => None end) sends ∧
    match sends with
    | [] => code = 404 ∧ req_Path req ≠ CallbackPath o ∨
            (code = 400 ∨ code = 200) ∧ req_Path req = CallbackPath o
    | [Error _] => code = 400 ∧ req_Path req = CallbackPath o
    | [OK _] => code = (if bool_decide (terminalRedirect o ≠ "") then 302 else 200) ∧
                req_Path req = CallbackPath o
    | _ => False
    end.
Proof.
  destruct 1 as [Hpath|tr code Hpath Hstatus Hcode Hsend Hposts
                 |pre msg Hpath Hpre|pre tok Hpath Herr Hstate He Hd Hpre].
  - exists 404, []. repeat split; eauto.
  - apply first_send_None in Hsend as [Htok Herr].
    exists code, []. rewrite Htok, Herr. repeat split; eauto.
  - exists 400, [Error (errors_New msg)].
    destruct Hpre as [->|(_ & _ & _ & _ & ->)]; repeat split; eauto.
  - pose proof (trace_delivery_page o) as (Hsend & _ & Hstatus).
    apply first_send_None in Hsend as [Htok Herrs]. cbv zeta in Hstatus.
    exists (if bool_decide (terminalRedirect o ≠ "") then 302 else 200), [OK tok].
    destruct Hpre as [[_ ->]|(_ & _ & ->)]; cbn [app response_status];
      rewrite ?errors_sent_app, ?tokens_sent_app, ?Htok, ?Herrs; cbn;
      rewrite ?Htok, ?Herrs; repeat split; eauto;
      by destruct (bool_decide _).
Qed.

(** X1: every request gets exactly one status line, 404, 400, 200 or 302.
    It is 404 exactly when the path is not the callback path.  A token is
    sent only with the success answer (302 when a terminal redirect is
    configured, 200 otherwise) and then no error is sent; an error is sent
    only with 400 and then no token is sent. *)
Theorem ServeHTTP_status_matches_send o req :
  ∃ code,
    response_status (trace (ServeHTTP L W o req)) = Some code ∧
    (code = 404 ∨ code = 400 ∨ code = 200 ∨ code = 302) ∧
    (code = 404 ↔ req_Path req ≠ CallbackPath o) ∧
    (tokens_sent (trace (ServeHTTP L W o req)) ≠ [] →
       code = (if bool_decide (terminalRedirect o ≠ "") then 302 else 200) ∧
       errors_sent (trace (ServeHTTP L W o req)) = []) ∧
    (errors_sent (trace (ServeHTTP L W o req)) ≠ [] →
       code = 400 ∧ tokens_sent (trace (ServeHTTP L W o req)) = []).
Proof.
  destruct (answered_observed o req _ (ServeHTTP_answered o req))
    as (code & sends & Hstatus & Herrs & Htoks & Hsends).
  exists code. rewrite Herrs, Htoks. split; [done|].
  destruct sends as [|[tok|e] [|??]]; try done; cbn.
  - destruct Hsends as [[-> Hpath]|[[-> | ->] Hpath]]; repeat split; eauto; try done;
      intros; congruence.
  - destruct Hsends as [-> Hpath].
    destruct (bool_decide _); repeat split; eauto; try done; intros; congruence.
  - destruct Hsends as [-> Hpath]. repeat split; eauto; try done; intros; congruence.
Qed.

(** X2: a request makes at most one send, on one of the two channels, and
    the send is the last thing its handler does. *)
Theorem ServeHTTP_send_is_last o req :
  first_send (trace (ServeHTTP L W o req)) = None ∨
  ∃ tr r,
    trace (ServeHTTP L W o req)
      = tr ++ [match r with OK t => Ev_SendTok t | Error e => Ev_SendErr e end] ∧
    first_send tr = None ∧
    first_send (trace (ServeHTTP L W o req)) = Some r.
Proof.
  assert (Hsnoc : ∀ tr ev, first_send tr = None → first_send (tr ++ [ev]) = first_send [ev]).
  { intros tr ev. induction tr as [|e tr IH]; [done|]. by destruct e. }
  destruct (ServeHTTP_answered o req)
    as [Hpath|tr code Hpath Hstatus Hcode Hsend Hposts
        |pre msg Hpath Hpre|pre tok Hpath Herr Hstate He Hd Hpre].
  - by left.
  - by left.
  - right. destruct (trace_badRequest_snoc msg) as (page & -> & Hpage & _).
    exists (pre ++ page), (Error (errors_New msg)).
    assert (first_send (pre ++ page) = None)
      by (by destruct Hpre as [->|(_ & _ & _ & _ & ->)]).
    rewrite app_assoc. split; [done|]. split; [done|]. by rewrite Hsnoc.
  - right. pose proof (trace_delivery_page o) as (Hpage & _).
    exists (pre ++ trace (if bool_decide (terminalRedirect o ≠ "")
                          then http_Redirect (terminalRedirect o) 302 else success)),
           (OK tok).
    assert (first_send (pre ++ trace (if bool_decide (terminalRedirect o ≠ "")
                          then http_Redirect (terminalRedirect o) 302 else success)) = None)
      by (by destruct Hpre as [[_ ->]|(_ & _ & ->)]).
    rewrite app_assoc. split; [done|]. split; [done|]. by rewrite Hsnoc.
Qed.

(** X3: a request causes at most one token request; it goes to the token
    endpoint of the session with the form of [Exchange] for the [code] of the
    request, and is made only in the code flow, on the callback path, without
    an [error] parameter, with a non-empty [code] and the [state] of the
    session. *)
Theorem ServeHTTP_token_request o req :
  posts_made (trace (ServeHTTP L W o req)) = [] ∨
  (posts_made (trace (ServeHTTP L W o req))
     = [(tokenEndpoint o, Exchange_data o (Values.Get (req_Query req) "code"))] ∧
   implicit o = false ∧
   req_Path req = CallbackPath o ∧
   Values.Get (req_Query req) "error" = "" ∧
   Values.Get (req_Query req) "code" ≠ "" ∧
   Values.Get (req_Query req) "state" = state o).
Proof.
  destruct (ServeHTTP_answered o req)
    as [Hpath|tr code Hpath Hstatus Hcode Hsend Hposts
        |pre msg Hpath Hpre|pre tok Hpath Herr Hstate He Hd Hpre].
  - by left.
  - by left.
  - destruct Hpre as [->|(Himpl & Herr & Hcode & Hstate & ->)]; [by left|].
    right. by repeat split.
  - pose proof (trace_delivery_page o) as (_ & Hpage & _). cbv zeta in Hpage.
    destruct Hpre as [[_ ->]|(Himpl & Hcode & ->)].
    + left. cbn [app]. by rewrite posts_made_app, Hpage.
    + right. split; [|by repeat split].
      cbn [app exchange_post posts_made]. by rewrite posts_made_app, Hpage.
Qed.

End HandlerAnswers.

(** Rewrites the tests of a handler with the facts at hand. *)
Ltac settle_tests :=
  repeat match goal with
  | H : ?P |- context [bool_decide ?P] => rewrite (bool_decide_eq_true_2 P H)
  | H : ¬ ?P |- context [bool_decide ?P] => rewrite (bool_decide_eq_false_2 P H)
  | H : ?a = ?b |- context [bool_decide (?a ≠ ?b)] =>
      rewrite (bool_decide_eq_false_2 (a ≠ b)) by (intros Hne; exact (Hne H))
  end.

(** ** The callback handler, path by path, and the wait *)

Section HandlerPaths.

Variable L : Lib.
Variable W : World.

Implicit Types (o : oauth) (req : Request) (reqs : list (Z * Request)).

(** A request served before the timer whose handler sends ends the wait
    with what was sent; one whose handler sends nothing hands over to the
    next request. *)
Lemma await_cons_send o d t req reqs r :
  t < d → first_send (trace (ServeHTTP L W o req)) = Some r →
  await L W o d ((t, req) :: reqs) = (trace (ServeHTTP L W o req), Done r).
Proof.
  intros Hlt Hsend. cbn [await].
  destruct (Z.leb_spec d t); [lia|]. by rewrite Hsend.
Qed.

Lemma await_cons_quiet o d t req reqs :
  t < d → first_send (trace (ServeHTTP L W o req)) = None →
  await L W o d ((t, req) :: reqs)
  = (trace (ServeHTTP L W o req) ++ trace (await L W o d reqs),
     value (await L W o d reqs)).
Proof.
  intros Hlt Hsend. cbn [await].
  destruct (Z.leb_spec d t); [lia|]. by rewrite Hsend.
Qed.

(** X4: a callback on the callback path with a non-empty [error]
    parameter is answered, in either flow and whatever its other parameters,
    with the failure page (400) and one error, "Failed to authenticate: "
    followed by the parameter; no token request is made, and a flow that
    serves it before its timer ends with that error. *)
Theorem ServeHTTP_error_parameter o req :
  req_Path req = CallbackPath o →
  Values.Get (req_Query req) "error" ≠ "" →
  let msg := "Failed to authenticate: " +:+ Values.Get (req_Query req) "error" in
  let tr := trace (ServeHTTP L W o req) in
  response_status tr = Some 400 ∧
  errors_sent tr = [errors_New msg] ∧
  tokens_sent tr = [] ∧
  posts_made tr = [] ∧
  (∀ d t reqs, t < d →
     value (await L W o d ((t, req) :: reqs)) = Done (Error (errors_New msg)) ∧
     posts_made (trace (await L W o d ((t, req) :: reqs))) = []).
Proof.
  intros Hpath Herr. cbv zeta.
  assert (Htr : ServeHTTP L W o req
                = badRequest ("Failed to authenticate: "
                              +:+ Values.Get (req_Query req) "error")).
  { unfold ServeHTTP. by settle_tests. }
  rewrite Htr. do 4 (split; [done|]).
  intros d t reqs Hlt.
  rewrite (await_cons_send o d t req reqs (Error _) Hlt) by (by rewrite Htr).
  by rewrite Htr.
Qed.

(** X5: in the code flow, a callback on the callback path without [error],
    with a non-empty [code] and the non-empty [state] of the session, is
    exchanged: when the token endpoint answers with a body that decodes to a
    token without error fields, the handler makes that one token request,
    writes the success page (or the redirect), and sends the token; a flow
    that serves it before its timer returns the token. *)
Theorem ServeHTTP_code_exchanged o req body tok :
  implicit o = false →
  req_Path req = CallbackPath o →
  Values.Get (req_Query req) "error" = "" →
  Values.Get (req_Query req) "code" ≠ "" →
  Values.Get (req_Query req) "state" = state o →
  state o ≠ "" →
  http_PostForm W (tokenEndpoint o)
    (Exchange_data o (Values.Get (req_Query req) "code")) = OK body →
  decode_token L body = OK tok →
  Err tok = "" → ErrDesc tok = "" →
  let tr := trace (ServeHTTP L W o req) in
  posts_made tr
    = [(tokenEndpoint o, Exchange_data o (Values.Get (req_Query req) "code"))] ∧
  response_status tr = Some (if bool_decide (terminalRedirect o ≠ "") then 302 else 200) ∧
  tokens_sent tr = [tok] ∧
  errors_sent tr = [] ∧
  (∀ d t reqs, t < d → value (await L W o d ((t, req) :: reqs)) = Done (OK tok)).
Proof.
  intros Himpl Hpath Herr Hcode Hstate Hnonempty Hpost Hbody He Hd. cbv zeta.
  assert (Hst : Values.Get (req_Query req) "state" ≠ "") by congruence.
  assert (Htr : trace (ServeHTTP L W o req)
                = exchange_post o req
                  :: trace (if bool_decide (terminalRedirect o ≠ "")
                            then http_Redirect (terminalRedirect o) 302 else success)
                  ++ [Ev_SendTok tok]).
  { unfold ServeHTTP, Exchange. rewrite Himpl. settle_tests. cbn [orb].
    rewrite Hpost, Hbody. cbn. settle_tests. cbn [orb].
    by destruct (bool_decide (terminalRedirect o ≠ "")). }
  pose proof (trace_delivery_page o) as (Hsend & Hposts & Hstatus).
  apply first_send_None in Hsend as [Htoks Herrs]. cbv zeta in Hposts, Hstatus.
  rewrite Htr. cbn [posts_made response_status tokens_sent errors_sent exchange_post].
  rewrite posts_made_app, tokens_sent_app, errors_sent_app, Hposts, Htoks, Herrs.
  split; [done|]. split.
  { by destruct (bool_decide (terminalRedirect o ≠ "")). }
  split; [done|]. split; [done|].
  intros d t reqs Hlt.
  rewrite (await_cons_send o d t req reqs (OK tok) Hlt); [done|].
  rewrite Htr. by destruct (bool_decide (terminalRedirect o ≠ "")).
Qed.


(** X7: in the implicit flow, a request on the callback path without
    [error] and without [urlhash=true] is answered 200 with the relay page,
    whose script sends the browser to the redirect URI of the session with
    [?urlhash=true&] and the fragment; nothing is sent on the channels, no
    token request is made, and the wait goes on. *)
Theorem ServeHTTP_implicit_relay o req :
  implicit o = true →
  req_Path req = CallbackPath o →
  Values.Get (req_Query req) "error" = "" →
  Values.Get (req_Query req) "urlhash" ≠ "true" →
  let tr := trace (ServeHTTP L W o req) in
  response_status tr = Some 200 ∧
  Ev_Write ("function redirect(){var hash = window.location.hash.substr(1); document.location.href = "
            +:+ dq +:+ redirectURI o +:+ "?urlhash=true&" +:+ dq +:+ "+hash;}") ∈ tr ∧
  first_send tr = None ∧
  posts_made tr = [] ∧
  (∀ d t reqs, t < d →
     value (await L W o d ((t, req) :: reqs)) = value (await L W o d reqs)).
Proof.
  intros Himpl Hpath Herr Hhash. cbv zeta.
  assert (Htr : ∃ tr, trace (ServeHTTP L W o req) = tr ∧
                  response_status tr = Some 200 ∧
                  Ev_Write ("function redirect(){var hash = window.location.hash.substr(1); document.location.href = "
                            +:+ dq +:+ redirectURI o +:+ "?urlhash=true&" +:+ dq +:+ "+hash;}") ∈ tr ∧
                  first_send tr = None ∧ posts_made tr = []).
  { unfold ServeHTTP, implicitHandler. rewrite Himpl. settle_tests.
    eexists. split; [reflexivity|]. split; [done|]. split; [|done].
    cbn. do 5 apply list_elem_of_further. apply list_elem_of_here. }
  destruct Htr as (tr & Htr & Hstatus & Hscript & Hsend & Hposts).
  rewrite Htr. do 4 (split; [done|]).
  intros d t reqs Hlt. by rewrite (await_cons_quiet o d t req reqs Hlt) by (by rewrite Htr).
Qed.

End HandlerPaths.

(** ** The wait of the loopback flow *)

Section Wait.

Variable L : Lib.
Variable W : World.

Implicit Types (o : oauth) (req : Request) (reqs : list (Z * Request)).

(** The token requests of an answer. *)
Lemma answered_posts o req tr :
  answered o req tr →
  posts_made tr = [] ∨
  posts_made tr = [(tokenEndpoint o, Exchange_data o (Values.Get (req_Query req) "code"))].
Proof.
  destruct 1 as [Hpath|tr code Hpath Hstatus Hcode Hsend Hposts
                 |pre msg Hpath Hpre|pre tok Hpath Herr Hstate He Hd Hpre].
  - by left.
  - by left.
  - destruct Hpre as [->|(_ & _ & _ & _ & ->)]; [by left|by right].
  - pose proof (trace_delivery_page o) as (_ & Hpage & _). cbv zeta in Hpage.
    destruct Hpre as [[_ ->]|(_ & _ & ->)].
    + left. cbn [app]. by rewrite posts_made_app, Hpage.
    + right. cbn [app exchange_post posts_made]. by rewrite posts_made_app, Hpage.
Qed.

(** X8: the wait accepts one response.  After requests that are served
    before the timer and send nothing, the first request served before the
    timer whose handler sends decides the flow: the wait returns what it
    sent, and does not serve the requests after it, which are outstanding
    when it ends. *)
Theorem await_first_send_wins o d quiet t req reqs r :
  Forall (λ tq, tq.1 < d ∧ first_send (trace (ServeHTTP L W o tq.2)) = None) quiet →
  t < d →
  first_send (trace (ServeHTTP L W o req)) = Some r →
  value (await L W o d (quiet ++ (t, req) :: reqs)) = Done r ∧
  trace (await L W o d (quiet ++ (t, req) :: reqs))
    = concat (map (λ tq, trace (ServeHTTP L W o tq.2)) (quiet ++ [(t, req)])).
Proof.
  intros Hquiet Hlt Hsend.
  induction Hquiet as [|[t' req'] quiet [Hlt' Hnone] _ IH].
  - cbn [app]. rewrite (await_cons_send L W o d t req reqs r Hlt Hsend).
    cbn. by rewrite app_nil_r.
  - cbn [app]. cbn [fst snd] in Hlt', Hnone.
    rewrite (await_cons_quiet L W o d t' req' _ Hlt' Hnone).
    destruct IH as [-> ->]. done.
Qed.

(** X9: what the wait returns is either the timeout error or what the
    handler of one of the requests served before the timer sent; the wait
    never panics. *)
Theorem await_result o d reqs :
  ∃ r, value (await L W o d reqs) = Done r ∧
    (r = Error timeout_error ∨
     ∃ t req, (t, req) ∈ reqs ∧ t < d ∧
              first_send (trace (ServeHTTP L W o req)) = Some r).
Proof.
  induction reqs as [|[t req] reqs (r & Hr & IH)].
  - exists (Error timeout_error). by split; [|left].
  - cbn [await]. destruct (Z.leb_spec d t) as [|Hlt].
    { exists (Error timeout_error). by split; [|left]. }
    destruct (first_send _) as [r'|] eqn:Hsend.
    + exists r'. split; [done|]. right. exists t, req.
      split; [apply list_elem_of_here|done].
    + exists r. split; [done|]. destruct IH as [->|(t' & req' & Hin & Hlt' & Hs)].
      * by left.
      * right. exists t', req'. split; [by apply list_elem_of_further|done].
Qed.

(** Every token request of the wait is a token request of the handler for
    the session: to its token endpoint, with the form of [Exchange]. *)
Lemma await_posts o d reqs url data :
  (url, data) ∈ posts_made (trace (await L W o d reqs)) →
  url = tokenEndpoint o ∧ ∃ code, data = Exchange_data o code.
Proof.
  induction reqs as [|[t req] reqs IH]; [by intros ?%elem_of_nil|].
  cbn [await]. destruct (d <=? t); [by intros ?%elem_of_nil|].
  pose proof (answered_posts o req _ (ServeHTTP_answered L W o req)) as Hposts.
  destruct (first_send _); cbn [trace fst].
  - destruct Hposts as [-> | ->]; [by intros ?%elem_of_nil|].
    intros [= -> ->]%list_elem_of_singleton. eauto.
  - rewrite posts_made_app, elem_of_app. intros [Hin|Hin]; [|by apply IH].
    destruct Hposts as [Hp|Hp]; rewrite Hp in Hin; [by apply elem_of_nil in Hin|].
    apply list_elem_of_singleton in Hin as [= -> ->]. eauto.
Qed.

(** [NewServer] records nothing but the start of the server. *)
Lemma NewServer_trace o :
  trace (NewServer L W o) = [] ∨ ∃ addr, trace (NewServer L W o) = [Ev_ServerStart addr].
Proof.
  unfold NewServer. case_bool_decide.
  - destruct (httptest_NewServer W); [right; by eexists|by left].
  - destruct (net_SplitHostPort L _) as [[host port]|]; [|by left].
    destruct (net_Listen W _) as [addr|]; [|by left].
    right. exists addr.
    case_bool_decide; [by destruct (net_SplitHostPort L addr) as [[? p]|]|done].
Qed.

(** A handler makes its token request before it sends, and makes none
    when it does not send. *)
Lemma answered_before_send o req tr :
  answered o req tr → posts_made (before_send tr) = posts_made tr.
Proof.
  destruct 1 as [Hpath|tr code Hpath Hstatus Hcode Hsend Hposts
                 |pre msg Hpath Hpre|pre tok Hpath Herr Hstate He Hd Hpre].
  - done.
  - clear Hstatus Hposts. induction tr as [|ev tr IH]; [done|].
    destruct ev; cbn in *; try done; by rewrite IH.
  - by destruct Hpre as [->|(_ & _ & _ & _ & ->)].
  - destruct (bool_decide (terminalRedirect o ≠ ""));
      by destruct Hpre as [[_ ->]|(_ & _ & ->)].
Qed.

Lemma answered_silent o req tr :
  answered o req tr → first_send tr = None → posts_made tr = [].
Proof.
  destruct 1 as [Hpath|tr code Hpath Hstatus Hcode Hsend Hposts
                 |pre msg Hpath Hpre|pre tok Hpath Herr Hstate He Hd Hpre].
  - done.
  - done.
  - by destruct Hpre as [->|(_ & _ & _ & _ & ->)].
  - destruct (bool_decide (terminalRedirect o ≠ ""));
      by destruct Hpre as [[_ ->]|(_ & _ & ->)].
Qed.

(** The token requests made while [Close] waits are those of the handlers
    of the outstanding requests. *)
Lemma serve_outstanding_posts o reqs :
  posts_made (trace (serve_outstanding L W o reqs))
  = concat (map (λ tq, posts_made (trace (ServeHTTP L W o tq.2))) reqs).
Proof.
  induction reqs as [|[t req] reqs IH]; [done|].
  cbn [serve_outstanding map concat snd].
  destruct (first_send _); cbn [trace fst]; rewrite posts_made_app.
  - f_equal; [|exact IH].
    apply (answered_before_send o req), ServeHTTP_answered.
  - f_equal. exact IH.
Qed.

Lemma ServeHTTP_posts o req url data :
  (url, data) ∈ posts_made (trace (ServeHTTP L W o req)) →
  url = tokenEndpoint o ∧ ∃ code, data = Exchange_data o code.
Proof.
  destruct (answered_posts o req _ (ServeHTTP_answered L W o req)) as [-> | ->].
  - by intros ?%elem_of_nil.
  - intros [= -> ->]%list_elem_of_singleton. eauto.
Qed.

Lemma serve_outstanding_posts_form o reqs url data :
  (url, data) ∈ posts_made (trace (serve_outstanding L W o reqs)) →
  url = tokenEndpoint o ∧ ∃ code, data = Exchange_data o code.
Proof.
  rewrite serve_outstanding_posts.
  induction reqs as [|[t req] reqs IH]; [by intros ?%elem_of_nil|].
  cbn [map concat snd]. rewrite elem_of_app. intros [Hin|Hin]; [|by apply IH].
  by eapply ServeHTTP_posts.
Qed.

Lemma posts_made_stderr lines :
  Forall (λ ev, ∃ text, ev = Ev_Stderr text) lines → posts_made lines = [].
Proof. induction 1 as [|ev lines [text ->] _ IH]; [done|exact IH]. Qed.

(** The token requests of the loopback flow are those of its wait and
    those of the requests outstanding when the wait ends. *)
Lemma DoLoopbackAuthorization_posts o srv authURL :
  value (NewServer L W o) = Done (OK srv) →
  let o' := set_redirectURI (if bool_decide (CallbackListenerURL o ≠ "")
                             then CallbackListenerURL o else srv_URL srv) o in
  Auth L o' = OK authURL →
  posts_made (trace (DoLoopbackAuthorization L W o))
  = posts_made (trace (await L W o' (2 * time_Minute) (callbacks W))) ++
    concat (map (λ tq, posts_made (trace (ServeHTTP L W o' tq.2)))
              (outstanding L W o' (2 * time_Minute) (callbacks W))).
Proof.
  intros Hsrv. cbv zeta. intros Hauth.
  destruct (DoLoopbackAuthorization_run L W o srv authURL Hsrv Hauth)
    as (lines & r & Hlines & _ & -> & _).
  rewrite posts_made_app. cbn [posts_made].
  rewrite posts_made_app. cbn [posts_made].
  rewrite posts_made_app, (posts_made_stderr _ Hlines). cbn [posts_made app].
  rewrite serve_outstanding_posts.
  by destruct (NewServer_trace o) as [->|[addr ->]].
Qed.

(** X10: in the loopback flow the redirect URI is the [--listen-url] when
    one is given and the URL of the callback server otherwise.  It is the
    [redirect_uri] that [Auth] adds to the authorization URL (after any the
    endpoint carries), the browser is opened on that URL, and every token
    request of the flow goes to the token endpoint of the session with that
    same [redirect_uri], the grant type [authorization_code] and the verifier
    of the session. *)
Theorem DoLoopbackAuthorization_redirect_uri o srv :
  value (NewServer L W o) = Done (OK srv) →
  let uri := if bool_decide (CallbackListenerURL o ≠ "")
             then CallbackListenerURL o else srv_URL srv in
  (∀ q, Auth_query L (set_redirectURI uri o) q !! "redirect_uri"
        = Some (default [] (q !! "redirect_uri") ++ [uri])) ∧
  (∀ authURL, Auth L (set_redirectURI uri o) = OK authURL →
     Ev_OpenInBrowser authURL (browser o) ∈ trace (DoLoopbackAuthorization L W o)) ∧
  (∀ url data,
     (url, data) ∈ posts_made (trace (DoLoopbackAuthorization L W o)) →
     url = tokenEndpoint o ∧
     data !! "redirect_uri" = Some [uri] ∧
     data !! "grant_type" = Some ["authorization_code"] ∧
     data !! "code_verifier" = Some [codeChallenge o]).
Proof.
  intros Hsrv. cbv zeta.
  set (uri := if bool_decide (CallbackListenerURL o ≠ "")
              then CallbackListenerURL o else srv_URL srv).
  split; [|split].
  - intros q. unfold Auth_query.
    destruct (implicit _); repeat case_bool_decide;
      rewrite ?lookup_Add_ne by done; by rewrite lookup_Add_eq, ?lookup_Add_ne by done.
  - intros authURL Hauth.
    destruct (DoLoopbackAuthorization_run L W o srv authURL Hsrv Hauth)
      as (lines & r & _ & _ & -> & _).
    apply elem_of_app. right. apply list_elem_of_here.
  - intros url data Hin.
    assert (Hform : url = tokenEndpoint (set_redirectURI uri o) ∧
                    ∃ code, data = Exchange_data (set_redirectURI uri o) code).
    { destruct (Auth L (set_redirectURI uri o)) as [authURL|] eqn:Hauth.
      - rewrite (DoLoopbackAuthorization_posts o srv authURL Hsrv Hauth) in Hin.
        apply elem_of_app in Hin as [Hin|Hin].
        + by eapply await_posts.
        + eapply serve_outstanding_posts_form. by rewrite serve_outstanding_posts.
      - revert Hin. unfold DoLoopbackAuthorization.
        rewrite (trace_bind _ _ _ Hsrv). cbv zeta.
        replace (if bool_decide (CallbackListenerURL o ≠ "")
                 then set_redirectURI (CallbackListenerURL o) o
                 else set_redirectURI (srv_URL srv) o)
          with (set_redirectURI uri o) by (subst uri; by case_bool_decide).
        rewrite Hauth. unfold Server_Close.
        pose proof (serve_outstanding_posts_form (set_redirectURI uri o) (callbacks W)
                      url data) as Hclose.
        destruct (serve_outstanding L W _ _) as [tr_close r_close].
        cbn [trace fst] in Hclose.
        destruct (NewServer_trace o) as [->|[addr ->]];
          destruct r_close as [[]|v|]; cbn; exact Hclose. }
    destruct Hform as [-> [code ->]].
    split; [done|]. unfold Exchange_data, Values.Set_. cbn.
    repeat split; by simplify_map_eq.
Qed.

End Wait.

(** ** The flows, end to end *)

Section Flows.

Variable L : Lib.
Variable W : World.

Implicit Types (o : oauth) (req : Request) (reqs : list (Z * Request)).

(** A request served before the timer whose handler sends ends the wait and
    leaves outstanding the requests after it. *)
Lemma outstanding_cons_send o d t req reqs r :
  t < d → first_send (trace (ServeHTTP L W o req)) = Some r →
  outstanding L W o d ((t, req) :: reqs) = reqs.
Proof.
  intros Hlt Hsend. cbn [outstanding].
  destruct (Z.leb_spec d t); [lia|]. by rewrite Hsend.
Qed.

(** Handlers that send nothing make no token request. *)
Lemma silent_posts o reqs :
  Forall (λ tq, first_send (trace (ServeHTTP L W o tq.2)) = None) reqs →
  concat (map (λ tq, posts_made (trace (ServeHTTP L W o tq.2))) reqs) = [].
Proof.
  induction 1 as [|[t req] reqs Hreq _ IH]; [done|].
  cbn [map concat snd] in *.
  by rewrite (answered_silent o req _ (ServeHTTP_answered L W o req) Hreq), IH.
Qed.

(** The handler on a well-formed callback whose code is exchanged for a
    token without error fields. *)
Lemma ServeHTTP_delivers o req body tok :
  implicit o = false →
  req_Path req = CallbackPath o →
  Values.Get (req_Query req) "error" = "" →
  Values.Get (req_Query req) "code" ≠ "" →
  Values.Get (req_Query req) "state" = state o →
  state o ≠ "" →
  http_PostForm W (tokenEndpoint o)
    (Exchange_data o (Values.Get (req_Query req) "code")) = OK body →
  decode_token L body = OK tok →
  Err tok = "" → ErrDesc tok = "" →
  first_send (trace (ServeHTTP L W o req)) = Some (OK tok) ∧
  posts_made (trace (ServeHTTP L W o req))
    = [(tokenEndpoint o, Exchange_data o (Values.Get (req_Query req) "code"))].
Proof.
  intros Himpl Hpath Herr Hcode Hstate Hnonempty Hpost Hbody He Hd.
  assert (Hst : Values.Get (req_Query req) "state" ≠ "") by congruence.
  unfold ServeHTTP, Exchange. rewrite Himpl. settle_tests. cbn [orb].
  rewrite Hpost, Hbody. cbn. settle_tests. cbn [orb].
  by destruct (bool_decide (terminalRedirect o ≠ "")).
Qed.

(** The handler on a callback with a forged state. *)
Lemma ServeHTTP_rejects_forged o req :
  implicit o = false →
  req_Path req = CallbackPath o →
  Values.Get (req_Query req) "error" = "" →
  Values.Get (req_Query req) "code" ≠ "" →
  Values.Get (req_Query req) "state" ≠ "" →
  Values.Get (req_Query req) "state" ≠ state o →
  first_send (trace (ServeHTTP L W o req))
    = Some (Error (errors_New "Failed to authenticate: missing or invalid state")) ∧
  posts_made (trace (ServeHTTP L W o req)) = [].
Proof.
  intros Himpl Hpath Herr Hcode Hst Hforged.
  unfold ServeHTTP. rewrite Himpl. settle_tests. cbn [orb]. by settle_tests.
Qed.

(** X11: the loopback flow, end to end.  The server runs, the
    authorization URL is built, and the first request to arrive, within the
    two minutes, is a well-formed callback with the state of the session; the
    token endpoint answers its exchange with a token without error fields;
    and the handlers of the other requests that have reached the server send
    nothing.  Then the flow returns that token and has made that one token
    request; the listener is closed once the token is received, and after
    that only the outstanding requests are answered. *)
Theorem DoLoopbackAuthorization_delivers o srv authURL t req reqs body tok :
  value (NewServer L W o) = Done (OK srv) →
  let o' := set_redirectURI (if bool_decide (CallbackListenerURL o ≠ "")
                             then CallbackListenerURL o else srv_URL srv) o in
  Auth L o' = OK authURL →
  callbacks W = (t, req) :: reqs →
  t < 120000000000 →
  implicit o = false →
  req_Path req = CallbackPath o →
  Values.Get (req_Query req) "error" = "" →
  Values.Get (req_Query req) "code" ≠ "" →
  Values.Get (req_Query req) "state" = state o →
  state o ≠ "" →
  http_PostForm W (tokenEndpoint o)
    (Exchange_data o' (Values.Get (req_Query req) "code")) = OK body →
  decode_token L body = OK tok →
  Err tok = "" → ErrDesc tok = "" →
  Forall (λ tq, first_send (trace (ServeHTTP L W o' tq.2)) = None) reqs →
  value (DoLoopbackAuthorization L W o) = Done (OK tok) ∧
  posts_made (trace (DoLoopbackAuthorization L W o))
    = [(tokenEndpoint o, Exchange_data o' (Values.Get (req_Query req) "code"))] ∧
  ∃ pre,
    trace (DoLoopbackAuthorization L W o)
    = pre ++ Ev_ServerClose (srv_Addr srv)
          :: concat (map (λ tq, trace (ServeHTTP L W o' tq.2)) reqs).
Proof.
  intros Hsrv. cbv zeta.
  intros Hauth Hreqs Hlt Himpl Hpath Herr Hcode Hstate Hnonempty Hpost Hbody He Hd Hquiet.
  destruct (ServeHTTP_delivers
              (set_redirectURI (if bool_decide (CallbackListenerURL o ≠ "")
                                then CallbackListenerURL o else srv_URL srv) o)
              req body tok Himpl Hpath Herr Hcode Hstate Hnonempty
              Hpost Hbody He Hd) as [Hsend Hposts].
  rewrite (DoLoopbackAuthorization_posts L W o srv authURL Hsrv Hauth).
  destruct (DoLoopbackAuthorization_run L W o srv authURL Hsrv Hauth)
    as (lines & r & _ & Hr & -> & ->).
  revert Hr. rewrite Hreqs.
  change (2 * time_Minute) with 120000000000.
  rewrite (await_cons_send L W _ _ t req reqs (OK tok) Hlt Hsend).
  rewrite (outstanding_cons_send _ _ t req reqs (OK tok) Hlt Hsend).
  rewrite (serve_outstanding_quiet L W _ reqs Hquiet), (silent_posts _ reqs Hquiet).
  intros [= <-]. cbn [value trace fst snd].
  split; [done|]. split; [by rewrite Hposts|].
  exists (trace (NewServer L W o) ++
          Ev_OpenInBrowser authURL (browser o) :: lines ++
          Ev_After 120000000000 :: trace (ServeHTTP L W
            (set_redirectURI (if bool_decide (CallbackListenerURL o ≠ "")
                              then CallbackListenerURL o else srv_URL srv) o) req)).
  rewrite <- !app_assoc. cbn [app]. rewrite <- !app_assoc. by cbn [app].
Qed.

(** X12: a forged callback ends the wait of the loopback flow, but not the
    server.  The first request to arrive, within the two minutes, is a
    callback of the code flow with a non-empty [code] and a non-empty
    [state] that is not the state of the session: it causes no token
    request and the wait ends with the state error.  The requests that have
    reached the server after it are served all the same while the listener
    is closed: the token requests of the flow are theirs.  When none of their
    handlers sends, the flow returns the state error and has made no token
    request; when one does (a valid callback, say), the flow never
    returns. *)
Theorem DoLoopbackAuthorization_forged_state o srv authURL t req reqs :
  value (NewServer L W o) = Done (OK srv) →
  let o' := set_redirectURI (if bool_decide (CallbackListenerURL o ≠ "")
                             then CallbackListenerURL o else srv_URL srv) o in
  Auth L o' = OK authURL →
  callbacks W = (t, req) :: reqs →
  t < 120000000000 →
  implicit o = false →
  req_Path req = CallbackPath o →
  Values.Get (req_Query req) "error" = "" →
  Values.Get (req_Query req) "code" ≠ "" →
  Values.Get (req_Query req) "state" ≠ "" →
  Values.Get (req_Query req) "state" ≠ state o →
  posts_made (trace (DoLoopbackAuthorization L W o))
    = concat (map (λ tq, posts_made (trace (ServeHTTP L W o' tq.2))) reqs) ∧
  (Forall (λ tq, first_send (trace (ServeHTTP L W o' tq.2)) = None) reqs →
     value (DoLoopbackAuthorization L W o)
       = Done (Error (errors_New "Failed to authenticate: missing or invalid state")) ∧
     posts_made (trace (DoLoopbackAuthorization L W o)) = []) ∧
  (Exists (λ tq, first_send (trace (ServeHTTP L W o' tq.2)) ≠ None) reqs →
     value (DoLoopbackAuthorization L W o) = Blocked).
Proof.
  intros Hsrv. cbv zeta.
  intros Hauth Hreqs Hlt Himpl Hpath Herr Hcode Hst Hforged.
  destruct (ServeHTTP_rejects_forged
              (set_redirectURI (if bool_decide (CallbackListenerURL o ≠ "")
                                then CallbackListenerURL o else srv_URL srv) o)
              req Himpl Hpath Herr Hcode Hst Hforged) as [Hsend Hposts].
  rewrite (DoLoopbackAuthorization_posts L W o srv authURL Hsrv Hauth).
  destruct (DoLoopbackAuthorization_run L W o srv authURL Hsrv Hauth)
    as (lines & r & _ & Hr & _ & ->).
  revert Hr. rewrite Hreqs.
  change (2 * time_Minute) with 120000000000.
  rewrite (await_cons_send L W _ _ t req reqs (Error _) Hlt Hsend).
  rewrite (outstanding_cons_send _ _ t req reqs (Error _) Hlt Hsend).
  cbn [value trace fst snd]. rewrite Hposts. cbn [app].
  intros [= <-]. split; [done|]. split.
  - intros Hquiet.
    by rewrite (serve_outstanding_quiet L W _ reqs Hquiet), (silent_posts _ reqs Hquiet).
  - intros Hsender. by rewrite (serve_outstanding_blocked L W _ reqs Hsender).
Qed.

(** X13: the manual flow.  The redirect URI is the out-of-band URN, in the
    authorization URL that is printed and in the token request.  When the
    URL is built, a code is read and the token endpoint answers with a body
    that decodes to a token, the flow has made one token request, for the
    code read, and returns the token if its error fields are empty and an
    error that starts with "Error exchanging authorization code: "
    otherwise. *)
Theorem DoManualAuthorization_outcome o authURL code body tok :
  let o' := set_redirectURI oobCallbackUrn o in
  Auth L o' = OK authURL →
  utils_ReadString W = OK code →
  http_PostForm W (tokenEndpoint o) (Exchange_data o' code) = OK body →
  decode_token L body = OK tok →
  (∀ q, Auth_query L o' q !! "redirect_uri"
        = Some (default [] (q !! "redirect_uri") ++ ["urn:ietf:wg:oauth:2.0:oob"])) ∧
  Exchange_data o' code !! "redirect_uri" = Some ["urn:ietf:wg:oauth:2.0:oob"] ∧
  Exchange_data o' code !! "code" = Some [code] ∧
  Ev_Stderr (authURL +:+ nl) ∈ trace (DoManualAuthorization L W o) ∧
  posts_made (trace (DoManualAuthorization L W o))
    = [(tokenEndpoint o, Exchange_data o' code)] ∧
  value (DoManualAuthorization L W o)
    = Done (if bool_decide (Err tok = "" ∧ ErrDesc tok = "") then OK tok
            else Error ("Error exchanging authorization code: " +:+ Err tok
                        +:+ ". " +:+ ErrDesc tok)).
Proof.
  cbv zeta. intros Hauth Hcode Hpost Hbody.
  split; [|split; [|split]].
  - intros q. unfold Auth_query.
    destruct (implicit _); repeat case_bool_decide;
      rewrite ?lookup_Add_ne by done; by rewrite lookup_Add_eq, ?lookup_Add_ne by done.
  - unfold Exchange_data, Values.Set_. cbn. by simplify_map_eq.
  - unfold Exchange_data, Values.Set_. cbn. by simplify_map_eq.
  - unfold DoManualAuthorization, Exchange. rewrite Hauth, Hcode. cbn.
    rewrite Hpost, Hbody. cbn.
    destruct (_ || _) eqn:Htest; cbn.
    + split; [do 2 apply list_elem_of_further; apply list_elem_of_here|].
      split; [done|].
      rewrite bool_decide_eq_false_2; [done|]. intros [He Hd].
      apply orb_true_iff in Htest as [H|H];
        apply bool_decide_eq_true in H; contradiction.
    + split; [do 2 apply list_elem_of_further; apply list_elem_of_here|].
      split; [done|].
      apply provider_error_test in Htest. by rewrite bool_decide_eq_true_2.
Qed.

End Flows.

(** ** The service-account flows and the callback server *)

Section ServiceAccount.

Variable L : Lib.
Variable W : World.

Implicit Types (o : oauth).


(** X15: a private key that cannot be used is reported before anything is
    sent.  When the client secret holds no PEM block, or its block is not a
    PKCS8 key, the two-legged flow and the self-signed JWT flow both return
    the same error and make no request; without a PEM block the error is
    "failed to read private key pem block". *)
Theorem private_key_error_before_request o issuer aud :
  pem_Decode L (clientSecret o) = None ∨
    (∃ block err, pem_Decode L (clientSecret o) = Some block ∧
                  x509_ParsePKCS8PrivateKey L block = Error err) →
  ∃ e,
    DoTwoLeggedAuthorization L W o issuer = ([], Done (Error e)) ∧
    DoJWTAuthorization L W o issuer aud = ([], Done (Error e)) ∧
    (pem_Decode L (clientSecret o) = None → e = "failed to read private key pem block") ∧
    (∀ block err, pem_Decode L (clientSecret o) = Some block →
                  x509_ParsePKCS8PrivateKey L block = Error err →
                  e = "error parsing private key: " +:+ err).
Proof.
  unfold DoTwoLeggedAuthorization, DoJWTAuthorization, sign_claims.
  intros [Hpem|(block & err & Hpem & Hkey)]; rewrite Hpem.
  - eexists. split; [done|]. split; [done|]. split; [done|]. intros; congruence.
  - rewrite Hkey. eexists. split; [done|]. split; [done|]. split; [congruence|].
    intros block' err' [= <-]. rewrite Hkey. by intros [= <-].
Qed.

(** X16: the callback server on an explicit [--listen] address.  The
    server binds the host and port of the address, with 127.0.0.1 for an
    empty host.  When the listener cannot be opened, [NewServer] returns an
    error that names the address and no server is started.  When it is
    opened, the server is started on the bound address; its URL is
    [http://] with the bound address when the host is 127.0.0.1, and with the
    requested host and the bound port otherwise. *)
Theorem NewServer_explicit_listener o host port :
  CallbackListener o ≠ "" →
  net_SplitHostPort L (CallbackListener o) = OK (host, port) →
  let bind_host := if bool_decide (host = "") then "127.0.0.1" else host in
  match net_Listen W (net_JoinHostPort L bind_host port) with
  | Error err =>
      NewServer L W o
      = ([], Done (Error ("error listening on " +:+ CallbackListener o +:+ ": " +:+ err)))
  | OK addr =>
      trace (NewServer L W o) = [Ev_ServerStart addr] ∧
      (bind_host = "127.0.0.1" →
         value (NewServer L W o)
         = Done (OK {| srv_Addr := addr; srv_URL := "http://" +:+ addr |})) ∧
      (bind_host ≠ "127.0.0.1" → ∀ h p, net_SplitHostPort L addr = OK (h, p) →
         value (NewServer L W o)
         = Done (OK {| srv_Addr := addr;
                       srv_URL := "http://" +:+ bind_host +:+ ":" +:+ p |}))
  end.
Proof.
  intros Hlisten Hsplit. cbv zeta. unfold NewServer.
  rewrite (bool_decide_eq_false_2 _ Hlisten), Hsplit.
  destruct (net_Listen W _) as [addr|err]; [|done].
  split; [|split].
  - case_bool_decide; [by destruct (net_SplitHostPort L addr) as [[? p]|]|done].
  - intros Hhost. by settle_tests.
  - intros Hhost h p Hp. rewrite (bool_decide_eq_true_2 _ Hhost), Hp. done.
Qed.

End ServiceAccount.

(** ** Configuration: options, session, command line *)

Section Configuration.

Variable L : Lib.
Variable W : World.

Implicit Types (o : options) (c : Context).

(** [Validate] returns its options or changes their callback path. *)
Lemma Validate_preserves o :
  (Validate L o).1 = o ∨ ∃ p, (Validate L o).1 = set_CallbackPath p o.
Proof.
  unfold Validate.
  destruct (_ && _); [by left|].
  destruct (if bool_decide (opts_CallbackListener o ≠ "") then _ else _); [by left|].
  case_bool_decide; [|by left].
  destruct (url_Parse L _) as [u|]; [|by left].
  repeat case_bool_decide; [by left| |by left]. right. by eexists.
Qed.

(** X17: [Validate] returns an error exactly when the provider is neither
    [google] nor starts with [https://], or [--listen] is given and does
    not split into host and port, or [--listen-url] is given and does not
    parse.  A [--listen-url] that parses without a scheme is not refused. *)
Theorem Validate_error o :
  (Validate L o).2 ≠ None ↔
  (opts_Provider o ≠ "google" ∧ strings_HasPrefix (opts_Provider o) "https://" = false) ∨
  (opts_CallbackListener o ≠ "" ∧
   ∃ err, net_SplitHostPort L (opts_CallbackListener o) = Error err) ∨
  (opts_CallbackListenerURL o ≠ "" ∧
   ∃ err, url_Parse L (opts_CallbackListenerURL o) = Error err).
Proof.
  unfold Validate.
  destruct (decide (opts_Provider o = "google")) as [Hp|Hp];
    [rewrite (bool_decide_eq_false_2 (_ ≠ _)) by (intros Hd; exact (Hd Hp))
    |rewrite (bool_decide_eq_true_2 _ Hp)]; cbn [andb];
  (destruct (strings_HasPrefix (opts_Provider o) "https://") eqn:Hpre; cbn [negb];
   [|try (split; [intros _; by left|done])]);
  (destruct (decide (opts_CallbackListener o = "")) as [Hl|Hl];
   [rewrite (bool_decide_eq_false_2 (_ ≠ _)) by (intros Hd; exact (Hd Hl))
   |rewrite (bool_decide_eq_true_2 _ Hl);
    destruct (net_SplitHostPort L _) as [?|err] eqn:Hsplit;
    [|cbn; split; [intros _; right; left; eauto|done]]]);
  (destruct (decide (opts_CallbackListenerURL o = "")) as [Hu|Hu];
   [rewrite (bool_decide_eq_false_2 (_ ≠ _)) by (intros Hd; exact (Hd Hu))
   |rewrite (bool_decide_eq_true_2 _ Hu);
    destruct (url_Parse L _) as [u|err] eqn:Hparse;
    [repeat case_bool_decide|cbn; split; [intros _; right; right; eauto|done]]]);
  cbn; (split; [done|]);
  intros [[? ?]|[[? [? ?]]|[? [? ?]]]]; congruence.
Qed.

(** X18: [Validate] changes nothing in the options but, at most, the
    callback path: when it accepts a [--listen-url] that parses with a scheme
    and a non-empty path, the callback path becomes that path; in every other
    case the options come back as they were. *)
Theorem Validate_callback_path o :
  match url_Parse L (opts_CallbackListenerURL o) with
  | OK u =>
      if bool_decide ((Validate L o).2 = None ∧ opts_CallbackListenerURL o ≠ "" ∧
                      Scheme u ≠ "" ∧ Path u ≠ "")
      then (Validate L o).1 = set_CallbackPath (Path u) o
      else (Validate L o).1 = o
  | Error _ => (Validate L o).1 = o
  end.
Proof.
  unfold Validate.
  destruct (url_Parse L _) as [u|err] eqn:Hparse.
  - destruct (_ && _); [by rewrite bool_decide_eq_false_2 by (by intros [? _])|].
    destruct (if bool_decide (opts_CallbackListener o ≠ "") then _ else _) eqn:Hl;
      [by rewrite bool_decide_eq_false_2 by (by intros [? _])|].
    destruct (decide (opts_CallbackListenerURL o = "")) as [Hu|Hu].
    { rewrite (bool_decide_eq_false_2 (_ ≠ _)) by (intros Hd; exact (Hd Hu)).
      by rewrite bool_decide_eq_false_2 by (by intros (_ & ? & _)). }
    rewrite (bool_decide_eq_true_2 _ Hu).
    destruct (decide (Scheme u = "")) as [Hs|Hs].
    { rewrite (bool_decide_eq_true_2 _ Hs).
      by rewrite bool_decide_eq_false_2 by (by intros (_ & _ & ? & _)). }
    rewrite (bool_decide_eq_false_2 _ Hs).
    destruct (decide (Path u = "")) as [Hpath|Hpath].
    { rewrite (bool_decide_eq_false_2 (_ ≠ _)) by (intros Hd; exact (Hd Hpath)).
      by rewrite bool_decide_eq_false_2 by (by intros (_ & _ & _ & ?)). }
    rewrite (bool_decide_eq_true_2 _ Hpath).
    by rewrite bool_decide_eq_true_2.
  - destruct (_ && _); [done|].
    destruct (if bool_decide (opts_CallbackListener o ≠ "") then _ else _); [done|].
    by case_bool_decide.
Qed.

End Configuration.

Section SessionSetup.

Variable L : Lib.
Variable W : World.

Implicit Types (c : Context) (opts : options).

(** X19: for the provider [google], [newOauth] makes no request and
    builds the session with the fixed Google endpoints, whatever endpoints it
    is given; the session holds the client credentials, scope and prompt
    given, the three generated values, the options of the command line, and
    no redirect URI yet. *)
Theorem newOauth_google clientID_ clientSecret_ authzEp tokenEp scope_ prompt_ opts
                        state_ challenge nonce_ :
  randutil_Alphanumeric W 32 = OK state_ →
  randutil_Alphanumeric W 64 = OK challenge →
  randutil_Hex W 64 = OK nonce_ →
  ∃ o,
    newOauth L W "google" clientID_ clientSecret_ authzEp tokenEp scope_ prompt_ opts
      = ([], Done (OK o)) ∧
    authzEndpoint o = "https://accounts.google.com/o/oauth2/v2/auth" ∧
    tokenEndpoint o = "https://www.googleapis.com/oauth2/v4/token" ∧
    clientID o = clientID_ ∧ clientSecret o = clientSecret_ ∧
    scope o = scope_ ∧ prompt o = prompt_ ∧
    state o = state_ ∧ codeChallenge o = challenge ∧ nonce o = nonce_ ∧
    redirectURI o = "" ∧
    loginHint o = opts_Email opts ∧
    implicit o = opts_Implicit opts ∧
    CallbackPath o = opts_CallbackPath opts ∧
    CallbackListener o = opts_CallbackListener opts ∧
    CallbackListenerURL o = opts_CallbackListenerURL opts ∧
    terminalRedirect o = opts_TerminalRedirect opts.
Proof.
  intros Hstate Hchallenge Hnonce. unfold newOauth.
  rewrite Hstate, Hchallenge, Hnonce. eexists. split; [reflexivity|]. by repeat split.
Qed.

(** X20: explicit endpoints bypass discovery.  For a provider other than
    [google], when an authorization endpoint or a token endpoint is given,
    [newOauth] makes no request and the session has exactly the two
    endpoints given (one of them may be empty). *)
Theorem newOauth_explicit_endpoints provider_ clientID_ clientSecret_ authzEp tokenEp
                                    scope_ prompt_ opts state_ challenge nonce_ :
  provider_ ≠ "google" →
  authzEp ≠ "" ∨ tokenEp ≠ "" →
  randutil_Alphanumeric W 32 = OK state_ →
  randutil_Alphanumeric W 64 = OK challenge →
  randutil_Hex W 64 = OK nonce_ →
  ∃ o,
    newOauth L W provider_ clientID_ clientSecret_ authzEp tokenEp scope_ prompt_ opts
      = ([], Done (OK o)) ∧
    authzEndpoint o = authzEp ∧ tokenEndpoint o = tokenEp ∧
    clientID o = clientID_ ∧ clientSecret o = clientSecret_ ∧
    state o = state_ ∧ codeChallenge o = challenge ∧ nonce o = nonce_.
Proof.
  intros Hprov Hends Hstate Hchallenge Hnonce. unfold newOauth.
  rewrite Hstate, Hchallenge, Hnonce, (bool_decide_eq_false_2 _ Hprov).
  assert (Htest : bool_decide (authzEp = "") && bool_decide (tokenEp = "") = false).
  { destruct Hends as [H|H]; rewrite (bool_decide_eq_false_2 _ H); [done|].
    apply andb_false_r. }
  rewrite Htest. eexists. split; [reflexivity|]. by repeat split.
Qed.

(** X21: no session without its security values.  When the generation of
    the state, of the verifier or of the nonce fails, [newOauth] returns an
    error and makes no request, whatever the provider. *)
Theorem newOauth_random_failure provider_ clientID_ clientSecret_ authzEp tokenEp
                                scope_ prompt_ opts :
  (∃ err, randutil_Alphanumeric W 32 = Error err) ∨
  (∃ err, randutil_Alphanumeric W 64 = Error err) ∨
  (∃ err, randutil_Hex W 64 = Error err) →
  ∃ err,
    newOauth L W provider_ clientID_ clientSecret_ authzEp tokenEp scope_ prompt_ opts
    = ([], Done (Error err)).
Proof.
  unfold newOauth. intros [[err H]|[[err H]|[err H]]].
  - rewrite H. eauto.
  - rewrite H. destruct (randutil_Alphanumeric W 32); eauto.
  - rewrite H. destruct (randutil_Alphanumeric W 32); [|eauto].
    destruct (randutil_Alphanumeric W 64); eauto.
Qed.

(** The events of a computation are among those of its parts. *)
Lemma Forall_trace_bind {A B} (P : event → Prop) (m : Go A) (k : A → Go B) :
  Forall P (trace m) → (∀ a, Forall P (trace (k a))) → Forall P (trace (bind m k)).
Proof.
  intros Hm Hk. destruct m as [tr [a|v|]]; [|done..].
  specialize (Hk a). cbn in *. destruct (k a). by apply Forall_app.
Qed.

Lemma unattended_disco provider_ : Forall unattended (trace (disco L W provider_)).
Proof.
  unfold disco. destruct (url_Parse L provider_) as [u|]; [|constructor].
  set (u' := if negb _ then _ else u).
  destruct (http_Get W _) as [[b|]|]; [|by repeat constructor..].
  destruct (json_Unmarshal L b); by repeat constructor.
Qed.

Lemma unattended_newOauth provider_ clientID_ clientSecret_ authzEp tokenEp scope_ prompt_
                          opts :
  Forall unattended
    (trace (newOauth L W provider_ clientID_ clientSecret_ authzEp tokenEp scope_ prompt_
              opts)).
Proof.
  unfold newOauth.
  destruct (randutil_Alphanumeric W 32); [|constructor].
  destruct (randutil_Alphanumeric W 64); [|constructor].
  destruct (randutil_Hex W 64); [|constructor].
  case_bool_decide; [constructor|].
  destruct (_ && _); [|constructor].
  apply Forall_trace_bind; [apply unattended_disco|].
  intros [d|]; [|constructor].
  destruct (d !! "authorization_endpoint") as [[]|]; try constructor;
    destruct (d !! "token_endpoint") as [[]|]; constructor.
Qed.

Lemma unattended_two_legged o issuer :
  Forall unattended (trace (DoTwoLeggedAuthorization L W o issuer)).
Proof.
  unfold DoTwoLeggedAuthorization. destruct (sign_claims L o _); [|constructor].
  cbn. destruct (http_PostForm W _ _) as [body|]; [|by repeat constructor].
  destruct (decode_token L body); by repeat constructor.
Qed.

Lemma unattended_jwt o issuer aud :
  Forall unattended (trace (DoJWTAuthorization L W o issuer aud)).
Proof. unfold DoJWTAuthorization. destruct (sign_claims L o _); constructor. Qed.

Lemma unattended_print c tok : Forall unattended (trace (oauthCmd_print L c tok)).
Proof.
  unfold oauthCmd_print.
  destruct (c_Bool c "header"); [destruct (c_Bool c "oidc"); by repeat constructor|].
  destruct (c_Bool c "bare"); [destruct (c_Bool c "oidc"); by repeat constructor|].
  destruct (json_MarshalIndent L tok); by repeat constructor.
Qed.

Lemma unattended_assert_string v : Forall unattended (trace (assert_string v)).
Proof. destruct v as [[]|]; constructor. Qed.

(** The account stage on a service account: it panics in a type
    assertion, or goes on with the two-legged flows selected. *)
Lemma oauthCmd_account_service c l b account :
  c_IsSet c "account" = true →
  ioutil_ReadFile W (c_String c "account") = OK b →
  json_Unmarshal L b = OK account →
  account !! "installed" = None →
  account !! "type" = Some (JString "service_account") →
  (∃ v, oauthCmd_account L W c l = ([Ev_ReadFile (c_String c "account")], Panicked v)) ∨
  (∃ l', oauthCmd_account L W c l
         = ([Ev_ReadFile (c_String c "account")], Done (Continue l')) ∧
         l_do2lo l' = true).
Proof.
  intros Hset Hfile Hjson Hinst Htype.
  unfold oauthCmd_account. rewrite Hset, Hfile, Hjson, Hinst, Htype.
  cbn [iface_eq_string]. rewrite bool_decide_eq_true_2 by done.
  rewrite !assert_string_field.
  destruct (string_field account "auth_uri"); [|left; by eexists].
  destruct (string_field account "token_uri"); [|left; by eexists].
  destruct (string_field account "private_key_id"); [|left; by eexists].
  destruct (string_field account "private_key"); [|left; by eexists].
  destruct (string_field account "client_email"); [|left; by eexists].
  right. by eexists.
Qed.

(** X22: a service account needs nobody.  With an account file of type
    [service_account] (and no [installed] key) the command, whether or not
    [--console] or [--jwt] is given, only reads the file, makes requests to the
    provider and prints: it starts no callback server, opens no browser, sets
    no timer, writes nothing to the error stream and reads nothing from the
    terminal. *)
Theorem oauthCmd_service_account_unattended c b account :
  c_IsSet c "account" = true →
  ioutil_ReadFile W (c_String c "account") = OK b →
  json_Unmarshal L b = OK account →
  account !! "installed" = None →
  account !! "type" = Some (JString "service_account") →
  Forall unattended (trace (oauthCmd L W c)).
Proof.
  intros Hset Hfile Hjson Hinst Htype. unfold oauthCmd.
  destruct (oauthCmd_options L c) as [|opts]; [constructor|].
  destruct (oauthCmd_client L c opts) as [|ids]; [constructor|].
  destruct (oauthCmd_endpoints c opts ids) as [|l]; [constructor|].
  destruct (oauthCmd_account_service c l b account Hset Hfile Hjson Hinst Htype)
    as [[v ->]|(l' & -> & Hdo2lo)]; [by repeat constructor|].
  rewrite (trace_bind _ _ (Continue l')) by done.
  apply Forall_app. split; [by repeat constructor|].
  rewrite Hdo2lo.
  apply Forall_trace_bind; [apply unattended_newOauth|].
  intros [o|]; [|constructor].
  apply Forall_trace_bind.
  - destruct (c_Bool c "jwt"); [apply unattended_jwt|apply unattended_two_legged].
  - intros [tok|]; [apply unattended_print|constructor].
Qed.

(** X23: what the flags require.  When [--implicit] is given without
    [--insecure] or without [--client-id], when [--authorization-endpoint] is
    given without [--token-endpoint] or without [--client-id], or when the
    provider is not [google] and no [--client-id] is given, the command
    returns an error and has done nothing: no file is read, no request is
    made, nothing is printed. *)
Theorem oauthCmd_flag_requirements c :
  (c_Bool c "implicit" = true ∧
   (c_Bool c "insecure" = false ∨ c_IsSet c "client-id" = false)) ∨
  (c_IsSet c "authorization-endpoint" = true ∧
   (c_IsSet c "token-endpoint" = false ∨ c_IsSet c "client-id" = false)) ∨
  (c_String c "provider" ≠ "google" ∧ c_IsSet c "client-id" = false) →
  ∃ e, oauthCmd L W c = ([], Done (Some e)).
Proof.
  intros Hflags. unfold oauthCmd, oauthCmd_options.
  set (opts0 := Options _ _ _ _ _ _ _ _ _).
  pose proof (Validate_preserves L opts0) as Hpres.
  destruct (Validate L opts0) as [opts [e|]]; [by eexists|].
  assert (Hprov : opts_Provider opts = c_String c "provider")
    by (by destruct Hpres as [Heq|[p Heq]]; cbn in Heq; rewrite Heq).
  assert (Himpl : opts_Implicit opts = c_Bool c "implicit")
    by (by destruct Hpres as [Heq|[p Heq]]; cbn in Heq; rewrite Heq).
  rewrite Hprov.
  destruct (c_IsSet c "client-id") eqn:Hid; cbn [negb].
  - rewrite andb_false_r. unfold oauthCmd_client. rewrite Himpl, Hid. cbn [negb].
    destruct Hflags as [[Hi [Hins|?]]|[[Ha [Ht|?]]|[_ ?]]]; try discriminate.
    + rewrite Hi, Hins. by eexists.
    + destruct (c_Bool c "implicit");
        [destruct (c_Bool c "insecure"); cbn [negb]; [|by eexists]|];
        unfold oauthCmd_endpoints; rewrite Ha, Ht; by eexists.
  - rewrite andb_true_r.
    destruct (decide (c_String c "provider" = "google")) as [Hp|Hp].
    + rewrite (bool_decide_eq_false_2 (_ ≠ _)) by (intros Hd; exact (Hd Hp)).
      cbn [orb].
      destruct (c_IsSet c "authorization-endpoint") eqn:Ha; [by eexists|].
      unfold oauthCmd_client. rewrite Himpl, Hid.
      destruct Hflags as [[Hi _]|[[? _]|[? _]]]; try done.
      rewrite Hi. destruct (c_Bool c "insecure"); by eexists.
    + rewrite (bool_decide_eq_true_2 _ Hp). by eexists.
Qed.

End SessionSetup.

(** ** The authorization request *)

Section AuthorizationRequest.

Variable L : Lib.

Implicit Types (o : oauth) (q : gmap string (list string)) (l : list (string * string)).

(** The query of [Auth] is the query of the endpoint with the parameters
    added one after the other. *)
Lemma Auth_query_parameters o q :
  Auth_query L o q = foldl (λ q kv, Values.Add kv.1 kv.2 q) q (Auth_parameters L o).
Proof.
  unfold Auth_query, Auth_parameters.
  by destruct (implicit o), (bool_decide (prompt o ≠ "")), (bool_decide (loginHint o ≠ "")).
Qed.

(** No parameter is added twice. *)
Lemma Auth_parameters_keys o :
  NoDup (Auth_parameters L o).*1 ∧
  ((Auth_parameters L o).*1
     ⊆ ["client_id"; "redirect_uri"; "response_type"; "code_challenge_method";
        "code_challenge"; "scope"; "prompt"; "state"; "nonce"; "login_hint"]) ∧
  (implicit o = true →
   ("code_challenge_method" ∉ (Auth_parameters L o).*1) ∧
   ("code_challenge" ∉ (Auth_parameters L o).*1)).
Proof.
  unfold Auth_parameters.
  destruct (implicit o), (bool_decide (prompt o ≠ "")), (bool_decide (loginHint o ≠ ""));
    cbn [app fmap list_fmap fst];
    (split; [by apply (bool_decide_unpack _); vm_compute|]);
    (split; [by apply (bool_decide_unpack _); vm_compute|]);
    (intros ?; try discriminate; split; by apply (bool_decide_unpack _); vm_compute).
Qed.

(** The values of a key after a sequence of [Add]. *)
Lemma lookup_foldl_Add l q k vs :
  q !! k = Some vs →
  foldl (λ q kv, Values.Add kv.1 kv.2 q) q l !! k
  = Some (vs ++ (filter (λ kv, kv.1 = k) l).*2).
Proof.
  revert q vs. induction l as [|[key value] l IH]; intros q vs Hk; cbn [foldl].
  - by rewrite app_nil_r.
  - destruct (decide (key = k)) as [->|Hne].
    + rewrite filter_cons_True by done.
      rewrite (IH _ (vs ++ [value])) by (by cbn [fst snd]; rewrite lookup_Add_eq, Hk).
      by rewrite <- app_assoc.
    + rewrite filter_cons_False by done.
      apply IH. cbn [fst snd]. by rewrite lookup_Add_ne.
Qed.

Lemma filter_key_absent l k : k ∉ l.*1 → filter (λ kv, kv.1 = k) l = [].
Proof.
  induction l as [|[key value] l IH]; [done|].
  intros Hk. rewrite fmap_cons in Hk. apply not_elem_of_cons in Hk as [Hne Hk].
  rewrite filter_cons_False by (intros Heq; apply Hne; symmetry; exact Heq). by apply IH.
Qed.

Lemma filter_key_length l k :
  NoDup l.*1 → (length (filter (λ kv, kv.1 = k) l) ≤ 1)%nat.
Proof.
  induction l as [|[key value] l IH]; [cbn; lia|].
  intros Hnd. rewrite fmap_cons in Hnd. apply NoDup_cons in Hnd as [Hkey Hnd].
  destruct (decide (key = k)) as [->|Hne].
  - rewrite filter_cons_True by done. by rewrite (filter_key_absent l k Hkey).
  - rewrite filter_cons_False by done. by apply IH.
Qed.

(** X24: [Auth] keeps the parameters of the authorization endpoint.  A
    parameter that the query of the configured endpoint already has keeps
    its values, in order, in the query of the authorization URL; [Auth]
    appends at most one value to it, none when the parameter is not one of
    the ten it knows, and none to [code_challenge] and
    [code_challenge_method] in the implicit flow. *)
Theorem Auth_query_keeps_parameters o q k vs :
  q !! k = Some vs →
  ∃ added,
    Auth_query L o q !! k = Some (vs ++ added) ∧
    (length added ≤ 1)%nat ∧
    (k ∉ ["client_id"; "redirect_uri"; "response_type"; "code_challenge_method";
          "code_challenge"; "scope"; "prompt"; "state"; "nonce"; "login_hint"] →
     added = []) ∧
    (implicit o = true → k = "code_challenge_method" ∨ k = "code_challenge" →
     added = []).
Proof.
  intros Hk. destruct (Auth_parameters_keys o) as (Hnd & Hsub & Himpl).
  exists (filter (λ kv, kv.1 = k) (Auth_parameters L o)).*2.
  split; [by rewrite Auth_query_parameters; apply lookup_foldl_Add|].
  split; [rewrite length_fmap; by apply filter_key_length|].
  split.
  - intros Hnot. rewrite filter_key_absent; [done|]. intros Hin. apply Hnot, Hsub, Hin.
  - intros Hi Hkey. destruct (Himpl Hi) as [Hm Hc].
    rewrite filter_key_absent; [done|]. by destruct Hkey as [->| ->].
Qed.

End AuthorizationRequest.

(** ** Sessions *)

Section Sessions.

Variable L : Lib.
Variable W : World.

(** X25: what every session that [newOauth] returns has in common,
    whichever way its endpoints were found: the provider, the client
    identifier and secret, the scope and the prompt are the arguments; the
    redirect URI is still empty; the login hint, the flow and the callback
    settings are those of the options; and the userinfo endpoint is Google's
    for [google], the token endpoint after discovery (the code reads
    [token_endpoint] for it), and empty with explicit endpoints. *)
Theorem newOauth_session provider_ clientID_ clientSecret_ authzEp tokenEp scope_ prompt_
                         opts o :
  value (newOauth L W provider_ clientID_ clientSecret_ authzEp tokenEp scope_ prompt_ opts)
    = Done (OK o) →
  provider o = provider_ ∧ clientID o = clientID_ ∧ clientSecret o = clientSecret_ ∧
  scope o = scope_ ∧ prompt o = prompt_ ∧
  redirectURI o = "" ∧
  loginHint o = opts_Email opts ∧
  implicit o = opts_Implicit opts ∧
  CallbackListener o = opts_CallbackListener opts ∧
  CallbackListenerURL o = opts_CallbackListenerURL opts ∧
  CallbackPath o = opts_CallbackPath opts ∧
  terminalRedirect o = opts_TerminalRedirect opts ∧
  browser o = opts_Browser opts ∧
  userInfoEndpoint o
  = (if bool_decide (provider_ = "google")
     then "https://www.googleapis.com/oauth2/v3/userinfo"
     else if bool_decide (authzEp = "") && bool_decide (tokenEp = "")
          then tokenEndpoint o else "").
Proof.
  unfold newOauth.
  destruct (randutil_Alphanumeric W 32) as [state_|]; [|discriminate].
  destruct (randutil_Alphanumeric W 64) as [challenge|]; [|discriminate].
  destruct (randutil_Hex W 64) as [nonce_|]; [|discriminate].
  destruct (bool_decide (provider_ = "google")).
  { intros [= <-]. by repeat split. }
  destruct (bool_decide (authzEp = "") && bool_decide (tokenEp = "")).
  2: { intros [= <-]. by repeat split. }
  destruct (disco L W provider_) as [tr [[d|e]|v|]]; cbn; [|discriminate..].
  destruct (d !! "authorization_endpoint") as [[]|]; cbn; try discriminate;
    destruct (d !! "token_endpoint") as [[]|]; cbn; try discriminate.
  intros [= <-]. by repeat split.
Qed.

End Sessions.

(** ** A service account, end to end *)

Section EndToEnd.

Variable L : Lib.
Variable W : World.

(** X26: [step oauth --account sa.json --jwt], end to end.  When the flag
    checks pass, the account file is a service account whose five fields are
    strings and which names an endpoint, the random source works and the key
    signs, the command reads the file and prints; it does nothing else.  The
    token it prints has as access token the JWT signed with the file's
    [private_key], with [kid] the file's [private_key_id], [iss] and [sub]
    the file's [client_email] and [aud] the scope; the client id and secret
    of the command line and the built-in ones play no part. *)
Theorem oauthCmd_service_account_jwt c opts ids l b account
    authz tokenEp keyID key email state_ challenge nonce_ block priv raw :
  oauthCmd_options L c = Continue opts →
  oauthCmd_client L c opts = Continue ids →
  oauthCmd_endpoints c opts ids = Continue l →
  c_IsSet c "account" = true →
  c_Bool c "jwt" = true →
  ioutil_ReadFile W (c_String c "account") = OK b →
  json_Unmarshal L b = OK account →
  account !! "installed" = None →
  account !! "type" = Some (JString "service_account") →
  account !! "auth_uri" = Some (JString authz) →
  account !! "token_uri" = Some (JString tokenEp) →
  account !! "private_key_id" = Some (JString keyID) →
  account !! "private_key" = Some (JString key) →
  account !! "client_email" = Some (JString email) →
  authz ≠ "" ∨ tokenEp ≠ "" →
  randutil_Alphanumeric W 32 = OK state_ →
  randutil_Alphanumeric W 64 = OK challenge →
  randutil_Hex W 64 = OK nonce_ →
  pem_Decode L key = Some block →
  x509_ParsePKCS8PrivateKey L block = OK priv →
  - 2 ^ 63 ≤ time_Now_Unix W < 2 ^ 63 - 3600 →
  let now := time_Now_Unix W in
  let aud := if c_IsSet c "scope" then strings_Join (c_StringSlice c "scope") " "
             else "openid email" in
  let signing_key := {| Algorithm := "RS256"; Key := priv |} in
  let so := {| ExtraHeaders := list_to_map [("kid", keyID); ("typ", "JWT")] |} in
  let claims : gmap string claim :=
    list_to_map [("aud", ClaimString aud);
                 ("nbf", ClaimInt now);
                 ("iat", ClaimInt now);
                 ("exp", ClaimInt (now + 3600));
                 ("iss", ClaimString email);
                 ("sub", ClaimString email)] in
  jose_NewSigner L signing_key so = None →
  jose_CompactSerialize L {| signer_key := signing_key; signer_opts := so |} claims = OK raw →
  let tok := Token raw "" "" 3600 "Bearer" "" "" in
  oauthCmd L W c
  = (Ev_ReadFile (c_String c "account") :: trace (oauthCmd_print L c tok),
     value (oauthCmd_print L c tok)).
Proof.
  intros Hopts Hclient Hends Hset Hjwt Hfile Hjson Hinst Htype Hauthz Htoken Hid Hkey Hemail
    Hgiven Hstate Hchallenge Hnonce Hpem Hpriv Hnow.
  cbv zeta. intros Hsigner Hraw.
  unfold oauthCmd. rewrite Hopts, Hclient, Hends.
  unfold oauthCmd_account.
  rewrite Hset, Hfile, Hjson, Hinst, Htype, Hauthz, Htoken, Hid, Hkey, Hemail.
  cbn [iface_eq_string]. rewrite bool_decide_eq_true_2 by done.
  cbn [assert_string].
  unfold newOauth. rewrite Hstate, Hchallenge, Hnonce.
  assert (Htest : bool_decide (authz = "") && bool_decide (tokenEp = "") = false).
  { destruct Hgiven as [H|H]; rewrite (bool_decide_eq_false_2 _ H); [done|].
    apply andb_false_r. }
  cbn [set_Provider l_opts opts_Provider bind ret emit l_authzEp l_tokenEp l_do2lo fst snd app].
  rewrite (bool_decide_eq_false_2 ("" = "google")) by discriminate.
  rewrite Htest, Hjwt.
  cbn [bind ret app l_clientID l_clientSecret l_do2lo l_issuer].
  unfold DoJWTAuthorization, sign_claims.
  cbn [make_oauth clientSecret].
  rewrite Hpem, Hpriv.
  assert (Hso : signer_options
                  (make_oauth "" keyID key authz tokenEp ""
                     (if c_IsSet c "scope" then strings_Join (c_StringSlice c "scope") " "
                      else "openid email")
                     (if c_IsSet c "prompt" then c_String c "prompt" else "")
                     state_ challenge nonce_ (set_Provider "" (l_opts l)))
                = {| ExtraHeaders := list_to_map [("kid", keyID); ("typ", "JWT")] |})
    by reflexivity.
  assert (Hc : ∀ aud, jwt_claims email aud (wrap_int (time_Now_Unix W))
               = list_to_map [("aud", ClaimString aud);
                              ("nbf", ClaimInt (time_Now_Unix W));
                              ("iat", ClaimInt (time_Now_Unix W));
                              ("exp", ClaimInt (time_Now_Unix W + 3600));
                              ("iss", ClaimString email);
                              ("sub", ClaimString email)]).
  { intros aud. unfold jwt_claims, int_add.
    rewrite (wrap_int_small (time_Now_Unix W)) by lia.
    by rewrite (wrap_int_small (time_Now_Unix W + 3600)) by lia. }
  rewrite Hso, Hc, Hsigner, Hraw.
  cbn. by destruct (oauthCmd_print L c _).
Qed.
End EndToEnd.

(** * The further properties at concrete inputs *)

(** X4 at a callback with [error=access_denied]. *)
Lemma ServeHTTP_error_parameter_witness :
  req_Path Demo.callback_denied = CallbackPath (Demo.session false) ∧
  Values.Get (req_Query Demo.callback_denied) "error" = "access_denied" ∧
  errors_sent
    (trace (ServeHTTP Demo.lib Demo.quiet_world (Demo.session false) Demo.callback_denied))
    = ["Failed to authenticate: access_denied"] ∧
  posts_made
    (trace (ServeHTTP Demo.lib Demo.quiet_world (Demo.session false) Demo.callback_denied))
    = [].
Proof.
  pose proof (ServeHTTP_error_parameter Demo.lib Demo.quiet_world (Demo.session false)
                Demo.callback_denied eq_refl ltac:(vm_compute; discriminate))
    as (_ & Herr & _ & Hposts & _).
  split; [reflexivity|]. split; [reflexivity|].
  split; [exact Herr | exact Hposts].
Defined.

(** X5 at the callback [code=abc&state=STATE], with a token endpoint that
    answers with a good token. *)
Lemma ServeHTTP_code_exchanged_witness :
  Values.Get (req_Query Demo.callback_valid) "state" = state (Demo.session false) ∧
  decode_token Demo.lib (OK "token") = OK Demo.good_token ∧
  tokens_sent
    (trace (ServeHTTP Demo.lib (Demo.world "" "token" []) (Demo.session false)
              Demo.callback_valid))
    = [Demo.good_token] ∧
  response_status
    (trace (ServeHTTP Demo.lib (Demo.world "" "token" []) (Demo.session false)
              Demo.callback_valid))
    = Some 200.
Proof.
  pose proof (ServeHTTP_code_exchanged Demo.lib (Demo.world "" "token" [])
                (Demo.session false) Demo.callback_valid (OK "token") Demo.good_token
                eq_refl eq_refl eq_refl ltac:(vm_compute; discriminate) eq_refl
                ltac:(vm_compute; discriminate) eq_refl eq_refl eq_refl eq_refl)
    as (_ & Hstatus & Htok & _).
  split; [reflexivity|]. split; [reflexivity|].
  split; [exact Htok | exact Hstatus].
Defined.


(** X7 at the first request of the implicit flow. *)
Lemma ServeHTTP_implicit_relay_witness :
  implicit (Demo.session true) = true ∧
  Values.Get (req_Query Demo.callback_without_state) "urlhash" = "" ∧
  response_status
    (trace (ServeHTTP Demo.lib Demo.quiet_world (Demo.session true)
              Demo.callback_without_state))
    = Some 200 ∧
  first_send
    (trace (ServeHTTP Demo.lib Demo.quiet_world (Demo.session true)
              Demo.callback_without_state))
    = None.
Proof.
  pose proof (ServeHTTP_implicit_relay Demo.lib Demo.quiet_world (Demo.session true)
                Demo.callback_without_state eq_refl eq_refl eq_refl
                ltac:(vm_compute; discriminate))
    as (Hstatus & _ & Hsend & _).
  split; [reflexivity|]. split; [reflexivity|].
  split; [exact Hstatus | exact Hsend].
Defined.

(** X8: a malformed callback, then one in which the provider reports an
    error, then a valid one: the wait ends with the provider's error. *)
Lemma await_first_send_wins_witness :
  first_send
    (trace (ServeHTTP Demo.lib Demo.quiet_world (Demo.session false)
              Demo.callback_without_state)) = None ∧
  value (await Demo.lib Demo.quiet_world (Demo.session false) 120000000000
           [(10, Demo.callback_without_state); (20, Demo.callback_denied);
            (30, Demo.callback_valid)])
  = Done (Error "Failed to authenticate: access_denied").
Proof.
  split; [reflexivity|].
  refine (proj1 (await_first_send_wins Demo.lib Demo.quiet_world (Demo.session false)
                   120000000000 [(10, Demo.callback_without_state)] 20
                   Demo.callback_denied [(30, Demo.callback_valid)]
                   (Error "Failed to authenticate: access_denied") _ eq_refl eq_refl)).
  constructor; [split; reflexivity | constructor].
Defined.

(** X10 on the server that [httptest] starts. *)
Lemma DoLoopbackAuthorization_redirect_uri_witness :
  value (NewServer Demo.lib Demo.quiet_world (Demo.session false)) = Done (OK Demo.server) ∧
  Auth_query Demo.lib (set_redirectURI "http://127.0.0.1:34567" (Demo.session false)) ∅
    !! "redirect_uri" = Some ["http://127.0.0.1:34567"].
Proof.
  split; [reflexivity|].
  exact (proj1 (DoLoopbackAuthorization_redirect_uri Demo.lib Demo.quiet_world
                  (Demo.session false) Demo.server eq_refl) ∅).
Defined.

(** X11: the valid callback arrives after a microsecond, and a request for
    the favicon after it. *)
Lemma DoLoopbackAuthorization_delivers_witness :
  callbacks (Demo.world "" "token" [(1000, Demo.callback_valid); (2000, Demo.request_favicon)])
    = [(1000, Demo.callback_valid); (2000, Demo.request_favicon)] ∧
  first_send (trace (ServeHTTP Demo.lib
                       (Demo.world "" "token"
                          [(1000, Demo.callback_valid); (2000, Demo.request_favicon)])
                       (Demo.session false) Demo.request_favicon)) = None ∧
  value (DoLoopbackAuthorization Demo.lib
           (Demo.world "" "token" [(1000, Demo.callback_valid); (2000, Demo.request_favicon)])
           (Demo.session false)) = Done (OK Demo.good_token) ∧
  posts_made (trace (DoLoopbackAuthorization Demo.lib
                       (Demo.world "" "token"
                          [(1000, Demo.callback_valid); (2000, Demo.request_favicon)])
                       (Demo.session false)))
    = [("https://idp.example/token",
        Exchange_data (Demo.session false) "abc")].
Proof.
  pose proof (DoLoopbackAuthorization_delivers Demo.lib
                (Demo.world "" "token"
                   [(1000, Demo.callback_valid); (2000, Demo.request_favicon)])
                (Demo.session false)
                Demo.server _ 1000 Demo.callback_valid [(2000, Demo.request_favicon)]
                (OK "token") Demo.good_token
                eq_refl eq_refl eq_refl eq_refl eq_refl eq_refl eq_refl
                ltac:(vm_compute; discriminate) eq_refl ltac:(vm_compute; discriminate)
                eq_refl eq_refl eq_refl eq_refl)
    as Hflow.
  destruct Hflow as (Hvalue & Hposts & _); [by repeat constructor|].
  split; [reflexivity|]. split; [reflexivity|]. split; [exact Hvalue | exact Hposts].
Defined.

(** X12: the forged callback arrives first, the valid one after it. *)
Lemma DoLoopbackAuthorization_forged_state_witness :
  Values.Get (req_Query Demo.callback_forged_state) "state" = "FORGED" ∧
  state (Demo.session false) = "STATE" ∧
  first_send (trace (ServeHTTP Demo.lib
                       (Demo.world "" "token"
                          [(1000, Demo.callback_forged_state); (2000, Demo.callback_valid)])
                       (Demo.session false) Demo.callback_valid))
    = Some (OK Demo.good_token) ∧
  value (DoLoopbackAuthorization Demo.lib
           (Demo.world "" "token"
              [(1000, Demo.callback_forged_state); (2000, Demo.callback_valid)])
           (Demo.session false))
    = Blocked ∧
  posts_made (trace (DoLoopbackAuthorization Demo.lib
                       (Demo.world "" "token"
                          [(1000, Demo.callback_forged_state); (2000, Demo.callback_valid)])
                       (Demo.session false)))
    = [("https://idp.example/token", Exchange_data (Demo.session false) "abc")].
Proof.
  pose proof (DoLoopbackAuthorization_forged_state Demo.lib
                (Demo.world "" "token"
                   [(1000, Demo.callback_forged_state); (2000, Demo.callback_valid)])
                (Demo.session false) Demo.server _ 1000 Demo.callback_forged_state
                [(2000, Demo.callback_valid)]
                eq_refl eq_refl eq_refl eq_refl eq_refl eq_refl eq_refl
                ltac:(vm_compute; discriminate) ltac:(vm_compute; discriminate)
                ltac:(vm_compute; discriminate))
    as (Hposts & _ & Hblocked).
  split; [reflexivity|]. split; [reflexivity|]. split; [reflexivity|].
  split; [|exact Hposts].
  apply Hblocked. apply Exists_cons_hd. vm_compute. discriminate.
Defined.

(** X13: the user pastes the code [CODE]. *)
Lemma DoManualAuthorization_outcome_witness :
  utils_ReadString (Demo.world "" "token" []) = OK "CODE" ∧
  Exchange_data (set_redirectURI oobCallbackUrn (Demo.session false)) "CODE" !! "code"
    = Some ["CODE"] ∧
  value (DoManualAuthorization Demo.lib (Demo.world "" "token" []) (Demo.session false))
    = Done (OK Demo.good_token).
Proof.
  pose proof (DoManualAuthorization_outcome Demo.lib (Demo.world "" "token" [])
                (Demo.session false) _ "CODE" (OK "token") Demo.good_token
                eq_refl eq_refl eq_refl eq_refl)
    as (_ & _ & Hcode & _ & _ & Hvalue).
  split; [reflexivity|]. split; [exact Hcode | exact Hvalue].
Defined.


(** X15 with a secret that is no PEM block. *)
Lemma private_key_error_before_request_witness :
  pem_Decode Demo.lib_without_key (clientSecret (Demo.session false)) = None ∧
  DoTwoLeggedAuthorization Demo.lib_without_key Demo.quiet_world (Demo.session false)
    "svc@example.iam"
  = ([], Done (Error "failed to read private key pem block")).
Proof.
  split; [reflexivity|].
  destruct (private_key_error_before_request Demo.lib_without_key Demo.quiet_world
              (Demo.session false) "svc@example.iam" "https://api.example"
              (or_introl eq_refl))
    as (e & Htwo & _ & Hmsg & _).
  rewrite <- (Hmsg eq_refl). exact Htwo.
Defined.

(** X16 at [--listen :8080]. *)
Lemma NewServer_explicit_listener_witness :
  CallbackListener Demo.listening_session = ":8080" ∧
  trace (NewServer Demo.listening_lib Demo.quiet_world Demo.listening_session)
    = [Ev_ServerStart "127.0.0.1:8080"] ∧
  value (NewServer Demo.listening_lib Demo.quiet_world Demo.listening_session)
    = Done (OK {| srv_Addr := "127.0.0.1:8080"; srv_URL := "http://127.0.0.1:8080" |}).
Proof.
  pose proof (NewServer_explicit_listener Demo.listening_lib Demo.quiet_world
                Demo.listening_session "" "8080" ltac:(vm_compute; discriminate) eq_refl)
    as Hsrv.
  vm_compute in Hsrv. destruct Hsrv as (Htrace & Hvalue & _).
  split; [reflexivity|]. split; [exact Htrace | exact (Hvalue eq_refl)].
Defined.

(** X19 in the demonstration world. *)
Lemma newOauth_google_witness :
  randutil_Alphanumeric Demo.quiet_world 32 = OK "STATE" ∧
  ∃ o, newOauth Demo.lib Demo.quiet_world "google" "id-1" "secret-1" "" "" "openid email" ""
         Demo.opts = ([], Done (OK o)) ∧
       tokenEndpoint o = "https://www.googleapis.com/oauth2/v4/token" ∧
       state o = "STATE".
Proof.
  split; [reflexivity|].
  destruct (newOauth_google Demo.lib Demo.quiet_world "id-1" "secret-1" "" ""
              "openid email" "" Demo.opts "STATE" "VERIFIER" "0a1b"
              eq_refl eq_refl eq_refl)
    as (o & Hnew & _ & Htoken & _ & _ & _ & _ & Hstate & _).
  exists o. split; [exact Hnew|]. split; [exact Htoken | exact Hstate].
Defined.

(** X20 with both endpoints given on the command line. *)
Lemma newOauth_explicit_endpoints_witness :
  randutil_Alphanumeric Demo.quiet_world 64 = OK "VERIFIER" ∧
  ∃ o, newOauth Demo.lib Demo.quiet_world "https://idp.example" "id-1" "secret-1"
         "https://idp.example/authorize" "https://idp.example/token" "openid email" ""
         Demo.opts = ([], Done (OK o)) ∧
       authzEndpoint o = "https://idp.example/authorize" ∧
       tokenEndpoint o = "https://idp.example/token".
Proof.
  split; [reflexivity|].
  assert (Hprovider : "https://idp.example" ≠ "google") by (vm_compute; discriminate).
  assert (Hauthz' : "https://idp.example/authorize" ≠ "") by (vm_compute; discriminate).
  destruct (newOauth_explicit_endpoints Demo.lib Demo.quiet_world "https://idp.example"
              "id-1" "secret-1" "https://idp.example/authorize" "https://idp.example/token"
              "openid email" "" Demo.opts "STATE" "VERIFIER" "0a1b"
              Hprovider (or_introl Hauthz') eq_refl eq_refl eq_refl)
    as (o & Hnew & Hauthz & Htoken & _).
  exists o. split; [exact Hnew|]. split; [exact Hauthz | exact Htoken].
Defined.

(** X21 in a world whose random source fails. *)
Lemma newOauth_random_failure_witness :
  randutil_Alphanumeric Demo.world_without_entropy 32 = Error "entropy" ∧
  ∃ err, newOauth Demo.lib Demo.world_without_entropy "google" "id-1" "secret-1" "" ""
           "openid email" "" Demo.opts = ([], Done (Error err)).
Proof.
  split; [reflexivity|].
  exact (newOauth_random_failure Demo.lib Demo.world_without_entropy "google" "id-1"
           "secret-1" "" "" "openid email" "" Demo.opts
           (or_introl (ex_intro _ "entropy" eq_refl))).
Defined.

(** X22 at [step oauth --account sa.json]. *)
Lemma oauthCmd_service_account_unattended_witness :
  c_IsSet Demo.account_context "account" = true ∧
  ioutil_ReadFile (Demo.world "service-account" "token" []) "sa.json" = OK "service-account" ∧
  Forall unattended
    (trace (oauthCmd Demo.lib (Demo.world "service-account" "token" []) Demo.account_context)).
Proof.
  split; [reflexivity|]. split; [reflexivity|].
  refine (oauthCmd_service_account_unattended Demo.lib
            (Demo.world "service-account" "token" []) Demo.account_context
            "service-account" _ eq_refl eq_refl eq_refl _ _);
    vm_compute; reflexivity.
Defined.

(** X23 at [step oauth --provider https://idp.example], without
    [--client-id]. *)
Lemma oauthCmd_flag_requirements_witness :
  c_String Demo.provider_context "provider" = "https://idp.example" ∧
  c_IsSet Demo.provider_context "client-id" = false ∧
  ∃ e, oauthCmd Demo.lib Demo.quiet_world Demo.provider_context = ([], Done (Some e)).
Proof.
  split; [reflexivity|]. split; [reflexivity|].
  refine (oauthCmd_flag_requirements Demo.lib Demo.quiet_world Demo.provider_context
            (or_intror (or_intror (conj _ eq_refl)))).
  vm_compute. discriminate.
Defined.

(** X24 at an endpoint whose query has [scope=profile]. *)
Lemma Auth_query_keeps_parameters_witness :
  Demo.endpoint_query !! "scope" = Some ["profile"] ∧
  ∃ added,
    Auth_query Demo.lib (Demo.session false) Demo.endpoint_query !! "scope"
      = Some (["profile"] ++ added) ∧
    (length added ≤ 1)%nat.
Proof.
  split; [reflexivity|].
  destruct (Auth_query_keeps_parameters Demo.lib (Demo.session false) Demo.endpoint_query
              "scope" ["profile"] eq_refl)
    as (added & Hquery & Hlength & _).
  exists added. split; [exact Hquery | exact Hlength].
Defined.

(** X25 at the session for [google]. *)
Lemma newOauth_session_witness :
  ∃ o,
    value (newOauth Demo.lib Demo.quiet_world "google" "id-1" "secret-1" "" ""
             "openid email" "" Demo.opts) = Done (OK o) ∧
    redirectURI o = "" ∧
    userInfoEndpoint o = "https://www.googleapis.com/oauth2/v3/userinfo".
Proof.
  eexists. split; [reflexivity|].
  pose proof (newOauth_session Demo.lib Demo.quiet_world "google" "id-1" "secret-1" "" ""
                "openid email" "" Demo.opts _ eq_refl)
    as (_ & _ & _ & _ & _ & Hredirect & _ & _ & _ & _ & _ & _ & _ & Huserinfo).
  split; [exact Hredirect | exact Huserinfo].
Defined.

(** X26 at [step oauth --account sa.json --jwt --bare]. *)
Lemma oauthCmd_service_account_jwt_witness :
  c_Bool Demo.jwt_context "jwt" = true ∧
  ioutil_ReadFile (Demo.world "service-account" "" []) "sa.json" = OK "service-account" ∧
  oauthCmd Demo.lib (Demo.world "service-account" "" []) Demo.jwt_context
  = ([Ev_ReadFile "sa.json"; Ev_Stdout ("header.claims.signature" +:+ nl)], Done None).
Proof.
  split; [reflexivity|]. split; [reflexivity|].
  assert (Hgiven : "https://idp.example/auth" ≠ "") by (vm_compute; discriminate).
  exact (oauthCmd_service_account_jwt Demo.lib (Demo.world "service-account" "" [])
           Demo.jwt_context _ _ _ "service-account" _
           "https://idp.example/auth" "https://idp.example/token" "key-1" "PEM"
           "svc@example.iam" "STATE" "VERIFIER" "0a1b" "PEM" "PEM"
           "header.claims.signature"
           eq_refl eq_refl eq_refl eq_refl eq_refl eq_refl eq_refl eq_refl eq_refl
           eq_refl eq_refl eq_refl eq_refl eq_refl (or_introl Hgiven)
           eq_refl eq_refl eq_refl eq_refl eq_refl
           ltac:(vm_compute; split; [discriminate | reflexivity])
           eq_refl eq_refl).
Defined.
